(** * ngen-cal: calibration targets, parameter tables and routing output

    A shallow embedding of the parts of [ngen.cal.ngen] and
    [ngen.cal.ngen_hooks.ngen_output] that decide how calibration targets are
    built, how the parameter table is laid out, how the configuration is
    rewritten for an iteration, how simulated discharge is read back from the
    routing output and how the outputs of an iteration are kept.

    Conventions.
    - A Python call that may raise is a function into [result A]: [inl e] is
      the raised exception (its class and message), [inr a] the value.
    - Files, tables and data frames are the values the code reads from them;
      the readers of pandas, geopandas, sqlite and pydantic are library code
      and appear through what they return.
    - A [datetime] is a number of seconds on the time line ([Z]); a
      [timedelta] is a number of seconds. *)

From Stdlib Require Import ZArith List Bool Ascii String Lia.
From Stdlib Require Import PrimFloat FloatOps SpecFloat Uint63.
From stdpp Require Import base gmap sets strings pretty.
Import ListNotations.

Set Warnings "-register-all".

Local Open Scope Z_scope.
Local Open Scope string_scope.

(** ** Python exceptions and results *)

Module Py.

Inductive exn_class : Type :=
| AssertionError
| AttributeError
| IndexError
| KeyError
| RuntimeError
| ValueError
| ZeroDivisionError
| OverflowError
| FileNotFoundError
| UnsupportedFeatureError.

#[global] Instance exn_class_eq_dec : EqDecision exn_class.
Proof. solve_decision. Defined.

Record exn : Type := Raise { exn_cls : exn_class; exn_msg : string }.

#[global] Instance exn_eq_dec : EqDecision exn.
Proof. solve_decision. Defined.

Definition result (A : Type) : Type := exn + A.

Definition ok {A} (a : A) : result A := inr a.
Definition raise {A} (c : exn_class) (m : string) : result A := inl (Raise c m).

Definition bind {A B} (r : result A) (k : A -> result B) : result B :=
  match r with
  | inl e => inl e
  | inr a => k a
  end.

(** [assert cond, msg] *)
Definition assert (cond : bool) (m : string) : result unit :=
  if cond then ok tt else raise AssertionError m.

(** [try: body / except Exception as e: handler e] *)
Definition try_except {A} (body : result A) (handler : exn -> result A) : result A :=
  match body with
  | inl e => handler e
  | inr a => inr a
  end.

(** A loop that builds a list and stops at the first exception. *)
Fixpoint map_result {A B} (f : A -> result B) (l : list A) : result (list B) :=
  match l with
  | [] => ok []
  | a :: rest =>
      match f a with
      | inl e => inl e
      | inr b =>
          match map_result f rest with
          | inl e => inl e
          | inr bs => inr (b :: bs)
          end
      end
  end.

Definition is_ok {A} (r : result A) : bool :=
  match r with inr _ => true | inl _ => false end.

Definition raises {A} (r : result A) (c : exn_class) : Prop :=
  exists m, r = inl (Raise c m).

End Py.

Notation "'let!' x ':=' r 'in' k" := (Py.bind r (fun x => k))
  (at level 10, x pattern, r at level 100, k at level 200).
Notation "'do!' r 'in' k" := (Py.bind r (fun _ => k))
  (at level 10, r at level 100, k at level 200).

(** ** Watershed schema generation: [NgenBase._hf_version] *)

Module Hydrofabric.
Import Py.

Inductive _HFVersion : Type := HF_2_0 | HF_2_1 | HF_2_2.

#[global] Instance _HFVersion_eq_dec : EqDecision _HFVersion.
Proof. solve_decision. Defined.

(** [values] is the set of the names of the tables of the geopackage that
    start with [flow], as the query on [sqlite_master] returns them. *)
Definition _hf_version (values : gset string) : result _HFVersion :=
  do! assert (bool_decide (2 <= size values)%nat)
    "expect at least two table names that start with 'flow'" in
  if bool_decide (({["flowpaths"; "flowpath_attributes"]} : gset string) = values) then
    ok HF_2_0
  else if bool_decide (({["flowlines"; "flowpath-attributes"]} : gset string) = values) then
    ok HF_2_1
  else if bool_decide (({["flowpaths"; "flowpath-attributes"]} : gset string) = values) then
    ok HF_2_2
  else
    raise KeyError "could not determine HF version. debug information: ".

End Hydrofabric.

(** ** Python strings and paths *)

Module Str.

Definition startswith (s p : string) : bool := String.prefix p s.

(** [sub in s] *)
Fixpoint contains (sub s : string) : bool :=
  String.prefix sub s ||
  match s with
  | EmptyString => false
  | String _ s' => contains sub s'
  end.

(** [s[n:]] *)
Fixpoint drop (n : nat) (s : string) : string :=
  match n, s with
  | O, _ => s
  | S _, EmptyString => EmptyString
  | S k, String _ s' => drop k s'
  end.

Definition lower_ascii (c : ascii) : ascii :=
  let n := nat_of_ascii c in
  if (65 <=? n)%nat && (n <=? 90)%nat then ascii_of_nat (n + 32) else c.

(** [s.lower()] on ASCII text *)
Fixpoint lower (s : string) : string :=
  match s with
  | EmptyString => EmptyString
  | String c s' => String (lower_ascii c) (lower s')
  end.

Definition is_space (c : ascii) : bool :=
  let n := nat_of_ascii c in
  ((9 <=? n)%nat && (n <=? 13)%nat) || (n =? 32)%nat || ((28 <=? n)%nat && (n <=? 31)%nat).

Fixpoint lstrip (s : string) : string :=
  match s with
  | EmptyString => EmptyString
  | String c s' => if is_space c then lstrip s' else s
  end.

Fixpoint rstrip (s : string) : string :=
  match s with
  | EmptyString => EmptyString
  | String c s' =>
      match rstrip s' with
      | EmptyString => if is_space c then EmptyString else String c EmptyString
      | r => String c r
      end
  end.

(** [s.strip()] *)
Definition strip (s : string) : string := rstrip (lstrip s).

(** [fp.readline()]: the text up to and including the first newline. *)
Fixpoint readline (s : string) : string :=
  match s with
  | EmptyString => EmptyString
  | String c s' =>
      if (nat_of_ascii c =? 10)%nat then String c EmptyString
      else String c (readline s')
  end.

(** [s.replace(old, new)] for a non-empty [old]: occurrences are replaced left
    to right and do not overlap; [skip] counts the characters of a replaced
    occurrence that are still to be passed over. *)
Fixpoint replace_from (old new : string) (skip : nat) (s : string) : string :=
  match s with
  | EmptyString => EmptyString
  | String c s' =>
      match skip with
      | S k => replace_from old new k s'
      | O =>
          if String.prefix old s
          then new ++ replace_from old new (String.length old - 1) s'
          else String c (replace_from old new 0 s')
      end
  end.

Definition replace (s old new : string) : string := replace_from old new 0 s.

Definition digit_of (c : ascii) : option Z :=
  let n := nat_of_ascii c in
  if (48 <=? n)%nat && (n <=? 57)%nat then Some (Z.of_nat (n - 48)) else None.

(** The digits of a decimal literal; a single underscore may separate two
    digits. [acc] is the value read so far, [after_digit] tells whether the
    previous character was a digit. *)
Fixpoint digits (s : string) (acc : Z) (after_digit : bool) : option Z :=
  match s with
  | EmptyString => if after_digit then Some acc else None
  | String c s' =>
      match digit_of c with
      | Some d => digits s' (10 * acc + d)%Z true
      | None =>
          if (nat_of_ascii c =? 95)%nat && after_digit then digits s' acc false
          else None
      end
  end.

(** [int(s)] in base ten on ASCII text: surrounding white space is dropped
    and one sign is accepted. [None] stands for the [ValueError]. *)
Definition int (s : string) : option Z :=
  match strip s with
  | String "+" r => digits r 0 false
  | String "-" r => option_map Z.opp (digits r 0 false)
  | r => digits r 0 false
  end.

(** A path of [pathlib] is the text [str(path)] gives. *)
Definition Path : Type := string.

(** [path.name]: the last component. *)
Fixpoint name_from (s : string) (acc : string) : string :=
  match s with
  | EmptyString => acc
  | String "/" s' => name_from s' EmptyString
  | String c s' => name_from s' (acc ++ String c EmptyString)
  end.

Definition name (p : Path) : string := name_from p EmptyString.

(** The position of the last dot of [s], counted from [i]. *)
Fixpoint rfind_dot (s : string) (i : nat) : option nat :=
  match s with
  | EmptyString => None
  | String c s' =>
      match rfind_dot s' (S i) with
      | Some j => Some j
      | None => if (nat_of_ascii c =? 46)%nat then Some i else None
      end
  end.

(** [path.suffix]: the last dot of the name and what follows it, when the dot
    is neither the first nor the last character of the name. *)
Definition suffix (p : Path) : string :=
  let n := name p in
  match rfind_dot n 0 with
  | Some i =>
      if (0 <? i)%nat && (i <? String.length n - 1)%nat then drop i n else EmptyString
  | None => EmptyString
  end.

End Str.

(** ** Data frames

    The part of a pandas [DataFrame] the parameter table needs: named columns,
    rows of cells and one index label per row. *)

Module Pd.
Import Py.

Inductive cell : Type :=
| Text (s : string)
| Num (x : float).

(** The label of a row: its position under the default [RangeIndex], or the
    cell a column gave it under [set_index]. *)
Inductive label : Type :=
| Pos (i : nat)
| Lab (c : cell).

Record row : Type := Row { row_label : label; row_cells : list (string * cell) }.

Record DataFrame : Type := Frame { columns : list string; rows : list row }.

Fixpoint lookup_cell (c : string) (cells : list (string * cell)) : option cell :=
  match cells with
  | [] => None
  | (k, v) :: rest => if String.eqb k c then Some v else lookup_cell c rest
  end.

Fixpoint set_cell (c : string) (v : cell) (cells : list (string * cell)) : list (string * cell) :=
  match cells with
  | [] => [(c, v)]
  | (k, w) :: rest => if String.eqb k c then (k, v) :: rest else (k, w) :: set_cell c v rest
  end.

Fixpoint del_cell (c : string) (cells : list (string * cell)) : list (string * cell) :=
  match cells with
  | [] => []
  | (k, w) :: rest => if String.eqb k c then del_cell c rest else (k, w) :: del_cell c rest
  end.

Definition has_column (c : string) (cols : list string) : bool :=
  existsb (String.eqb c) cols.

Definition add_column (c : string) (cols : list string) : list string :=
  if has_column c cols then cols else cols ++ [c].

(** [pd.DataFrame(records)]: one row per record under a [RangeIndex]; the
    columns are the keys of the records, none when there is no record. *)
Definition of_records (records : list (list (string * cell))) : DataFrame :=
  Frame (match records with [] => [] | r :: _ => map fst r end)
        (imap (fun i r => Row (Pos i) r) records).

(** [df[c] = v] for a scalar [v] *)
Definition set_scalar (c : string) (v : cell) (df : DataFrame) : DataFrame :=
  Frame (add_column c (columns df))
        (map (fun r => Row (row_label r) (set_cell c v (row_cells r))) (rows df)).

(** [df.rename(columns={old: new}, inplace=True)]; nothing happens when there is
    no column [old]. *)
Definition rename (old new : string) (df : DataFrame) : DataFrame :=
  let ren (k : string) := if String.eqb k old then new else k in
  Frame (map ren (columns df))
        (map (fun r => Row (row_label r) (map (fun kv => (ren (fst kv), snd kv)) (row_cells r)))
             (rows df)).

(** [df[dst] = df[src]]; a [KeyError] when there is no column [src]. A cell a
    row does not hold is a missing value and stays missing. *)
Definition copy_column (src dst : string) (df : DataFrame) : result DataFrame :=
  if has_column src (columns df) then
    ok (Frame (add_column dst (columns df))
              (map (fun r =>
                      Row (row_label r)
                          (match lookup_cell src (row_cells r) with
                           | Some v => set_cell dst v (row_cells r)
                           | None => del_cell dst (row_cells r)
                           end))
                   (rows df)))
  else raise KeyError src.

(** [df.set_index(c)]: the column [c] becomes the index and leaves the
    columns; a [KeyError] when there is no such column. *)
Definition set_index (c : string) (df : DataFrame) : result DataFrame :=
  if has_column c (columns df) then
    ok (Frame (List.filter (fun k => negb (String.eqb k c)) (columns df))
              (map (fun r =>
                      Row (match lookup_cell c (row_cells r) with
                           | Some v => Lab v
                           | None => Lab (Num nan)
                           end)
                          (del_cell c (row_cells r)))
                   (rows df)))
  else raise KeyError c.

(** [pd.concat(dfs)]: the rows of the frames one after the other, each with
    the label it had; the columns are the union of the columns in order of
    appearance. A [ValueError] when [dfs] is empty. *)
Definition concat (dfs : list DataFrame) : result DataFrame :=
  match dfs with
  | [] => raise ValueError "No objects to concatenate"
  | _ =>
      ok (Frame (fold_left (fun acc df => fold_left (fun a c => add_column c a) (columns df) acc)
                           dfs [])
                (concat (map rows dfs)))
  end.

(** The rows a label selects, as [df.loc[l]] does: every row that carries it. *)
Definition label_is (l : string) (r : row) : bool :=
  match row_label r with
  | Lab (Text s) => String.eqb s l
  | _ => false
  end.

Definition loc (l : string) (df : DataFrame) : list row := List.filter (label_is l) (rows df).

Definition cell_text (c : string) (r : row) : option string :=
  match lookup_cell c (row_cells r) with
  | Some (Text s) => Some s
  | _ => None
  end.

End Pd.

(** ** The parameter table: [_params_as_df] and [_map_params_to_realization] *)

Module ParameterSpace.
Import Py.

(** A calibration parameter ([Parameter] in the source). The class is declared
    in [ngen.cal.parameter];
    here are the fields [s.__dict__] gives: the name, the bounds and the
    initial value. *)
Record Parameter_ : Type :=
  { name : string; min : float; max : float; init : float }.

Definition Parameters : Type := list Parameter_.

(** [Mapping[str, Parameters]]: model name to parameters, in insertion order. *)
Definition ParamMap : Type := list (string * Parameters).

Definition __dict__ (s : Parameter_) : list (string * Pd.cell) :=
  [("name", Pd.Text (name s)); ("min", Pd.Num (min s));
   ("max", Pd.Num (max s)); ("init", Pd.Num (init s))].

(** [params.get(name, [])] *)
Fixpoint get (params : ParamMap) (k : string) : Parameters :=
  match params with
  | [] => []
  | (m, v) :: rest => if String.eqb m k then v else get rest k
  end.

(** The frame of one model: lines 47-49 and 59-61. *)
Definition model_frame (k : string) (v : Parameters) : Pd.DataFrame :=
  Pd.rename "name" "param"
    (Pd.set_scalar "model" (Pd.Text k) (Pd.of_records (map __dict__ v))).

(** [_params_as_df(params, name)]; [name] is [None] when it is not given. *)
Definition _params_as_df (params : ParamMap) (name : option string) : result Pd.DataFrame :=
  match name with
  | None | Some EmptyString =>
      let dfs := map (fun kv => model_frame (fst kv) (snd kv)) params in
      let! df := Pd.concat dfs in
      let! df := Pd.copy_column "param" "p" df in
      Pd.set_index "p" df
  | Some name =>
      let p := get params name in
      let df := model_frame name p in
      match p with
      | [] => ok df
      | _ =>
          let! df := Pd.copy_column "param" "p" df in
          Pd.set_index "p" df
      end
  end.

(** A formulation of a realization, seen through [formulation.params]: a
    single model with its [model_name], or a [MultiBMI] with its own name and
    its ordered [modules]. *)
Inductive bmi_module : Type :=
| Model (model_name : string)
| MultiBMI (model_name : string) (modules : list bmi_module).

Definition model_name (m : bmi_module) : string :=
  match m with
  | Model n => n
  | MultiBMI n _ => n
  end.

Record Realization : Type := { formulations : list bmi_module }.

(** [_map_params_to_realization(params, realization)] *)
Definition _map_params_to_realization (params : ParamMap) (realization : Realization)
  : result Pd.DataFrame :=
  match formulations realization with
  | [] => raise IndexError "list index out of range"
  | MultiBMI _ modules :: _ =>
      let! dfs := map_result (fun m => _params_as_df params (Some (model_name m))) modules in
      Pd.concat dfs
  | Model n :: _ => _params_as_df params (Some n)
  end.

End ParameterSpace.

(** ** Calibration targets: [NgenExplicit], [NgenIndependent], [NgenUniform] *)

Module Targets.
Import Py ParameterSpace.

(** The HY Features objects of [hypy], with the fields the code reads. The
    geometry of a location is carried along by the source and plays no part
    in any decision; it is left out. *)
Record Catchment : Type := { catchment_id : string }.

Record NWISLocation : Type := { station_id : string; location_nexus_id : string }.

Record Nexus : Type :=
  { nexus_id : string;
    _hydro_location : option NWISLocation;
    contributing_catchments : list Catchment }.

(** A table indexed by an id with the column [toid]: the divides and the
    flow paths. The index is taken without repeated ids, so that [.loc[id]]
    is one row. *)
Definition ToidTable : Type := list (string * string).

(** [table.loc[id]], [series.loc[id]], [series[id]]: [None] is the [KeyError]. *)
Fixpoint loc {V} (t : list (string * V)) (id : string) : option V :=
  match t with
  | [] => None
  | (k, v) :: rest => if String.eqb k id then Some v else loc rest id
  end.

Definition in_index (t : list string) (id : string) : bool := existsb (String.eqb id) t.

(** A catchment entry of the realization file. [calibration] is the optional
    attribute [NgenExplicit] looks for with [hasattr]. *)
Record CatchmentRealization : Type :=
  { calibration : option ParamMap;
    catchment_formulations : list bmi_module }.

Definition as_realization (c : CatchmentRealization) : Realization :=
  {| formulations := catchment_formulations c |}.

(** What [NgenBase.__init__] leaves in the object for the strategies. *)
Record NgenBase : Type :=
  { _catchment_hydro_fabric : ToidTable;
    _nexus_hydro_fabric : list string;
    _flowpath_hydro_fabric : option ToidTable;
    _x_walk : list (string * string);
    eval_feature : option string;
    global_config : Realization;
    realization_catchments : list (string * CatchmentRealization) }.

(** The adjustable entities. Their classes are declared in
    [ngen.cal.calibration_cathment] and [ngen.cal.calibration_set]; each is
    kept as the values its constructor is given. *)
Record AdjustableCatchment : Type :=
  { adjustable_id : string; adjustable_nexus : Nexus; adjustable_params : Pd.DataFrame }.

Inductive target : Type :=
| CalibrationCatchment (id : string) (nexus : Nexus) (params : Pd.DataFrame)
| CalibrationSet (catchments : list AdjustableCatchment) (eval_nexus : Nexus)
| UniformCalibrationSet (eval_nexus : Nexus) (params : Pd.DataFrame).

(** The confluence point a target is evaluated at. *)
Definition evaluation_nexus (t : target) : Nexus :=
  match t with
  | CalibrationCatchment _ n _ => n
  | CalibrationSet _ n => n
  | UniformCalibrationSet n _ => n
  end.

(** [if self.eval_feature:] *)
Definition truthy (s : option string) : option string :=
  match s with
  | Some EmptyString | None => None
  | Some s => Some s
  end.

Definition only_one_msg : string :=
  "Currently only a single nexus in the hydrfabric can be gaged, set the eval_feature key to pick one.".

(** *** explicit *)

(** The body of the loop of [NgenExplicit.__init__] for one entry of
    [ngen_realization.catchments]: [None] when the entry is passed over. *)
Definition explicit_catchment (self : NgenBase) (id : string) (catchment : CatchmentRealization)
  : result (option target) :=
  match calibration catchment with
  | None => ok None
  | Some declared =>
      match loc (_catchment_hydro_fabric self) id with
      | None => ok None
      | Some toid =>
          match loc (_x_walk self) id with
          | None =>
              raise RuntimeError
                ("Cannot establish mapping of catchment " ++ id ++ " to nwis location in cross walk")
          | Some nwis =>
              if in_index (_nexus_hydro_fabric self) toid then
                let location := {| station_id := nwis; location_nexus_id := toid |} in
                let nexus :=
                  {| nexus_id := toid; _hydro_location := Some location;
                     contributing_catchments := [ {| catchment_id := id |} ] |} in
                let! params := _map_params_to_realization declared (as_realization catchment) in
                ok (Some (CalibrationCatchment id nexus params))
              else raise RuntimeError ("No suitable nexus found for catchment " ++ id)
          end
      end
  end.

Fixpoint explicit_loop (self : NgenBase) (entries : list (string * CatchmentRealization))
  : result (list target) :=
  match entries with
  | [] => ok []
  | (id, catchment) :: rest =>
      let! t := explicit_catchment self id catchment in
      let! ts := explicit_loop self rest in
      ok (match t with Some t => t :: ts | None => ts end)
  end.

(** [NgenExplicit.__init__]: the adjustables it leaves in [_catchments]. *)
Definition NgenExplicit (self : NgenBase) : result (list target) :=
  explicit_loop self (realization_catchments self).

(** *** independent *)

(** The keys of [catchment_realizations]: the index of the divides, an id
    counted once. *)
Fixpoint dict_keys (ids : list string) (seen : list string) : list string :=
  match ids with
  | [] => []
  | id :: rest =>
      if in_index seen id then dict_keys rest seen else id :: dict_keys rest (id :: seen)
  end.

(** [self._x_walk.loc[id.replace('cat', 'wb')]], then [self._x_walk.loc[id]] *)
Definition independent_gage (self : NgenBase) (id : string) : option string :=
  match loc (_x_walk self) (Str.replace id "cat" "wb") with
  | Some g => Some g
  | None => loc (_x_walk self) id
  end.

(** The second loop of [NgenIndependent.__init__] (lines 560-589): the
    adjustable catchments and the gauged nexuses met, in order. Every
    catchment is a copy of the global configuration. *)
Fixpoint independent_loop (self : NgenBase) (params : ParamMap) (ids : list string)
  : result (list AdjustableCatchment * list Nexus) :=
  match ids with
  | [] => ok ([], [])
  | id :: rest =>
      match loc (_catchment_hydro_fabric self) id with
      | None => independent_loop self params rest
      | Some toid =>
          if in_index (_nexus_hydro_fabric self) toid then
            let nexus :=
              match independent_gage self id with
              | Some nwis =>
                  {| nexus_id := toid;
                     _hydro_location := Some {| station_id := nwis; location_nexus_id := toid |};
                     contributing_catchments := [ {| catchment_id := id |} ] |}
              | None =>
                  {| nexus_id := toid; _hydro_location := None;
                     contributing_catchments := [ {| catchment_id := id |} ] |}
              end in
            let! df := _map_params_to_realization params (global_config self) in
            let! (catchments, eval_nexus) := independent_loop self params rest in
            ok ({| adjustable_id := id; adjustable_nexus := nexus; adjustable_params := df |}
                  :: catchments,
                match independent_gage self id with
                | Some _ => nexus :: eval_nexus
                | None => eval_nexus
                end)
          else raise RuntimeError ("No suitable nexus found for catchment " ++ id)
      end
  end.

(** [wb = flowpaths[flowpaths['toid'] == n.id]; key = wb.iloc[0].name] *)
Fixpoint first_flowpath_to (flowpaths : ToidTable) (nexus : string) : result string :=
  match flowpaths with
  | [] => raise IndexError "single positional indexer is out-of-bounds"
  | (id, toid) :: rest =>
      if String.eqb toid nexus then ok id else first_flowpath_to rest nexus
  end.

(** The loop of lines 592-597 over [todo]; [eval_nexus] is the whole list,
    kept when no nexus matches. *)
Fixpoint independent_pick (flowpaths : ToidTable) (feature : string)
    (todo eval_nexus : list Nexus) : result (list Nexus) :=
  match todo with
  | [] => ok eval_nexus
  | n :: rest =>
      let! key := first_flowpath_to flowpaths (nexus_id n) in
      if String.eqb key feature then ok [n]
      else independent_pick flowpaths feature rest eval_nexus
  end.

(** The evaluation candidates of the independent strategy, after the
    optional choice by [eval_feature] (lines 591-597). *)
Definition independent_filter (self : NgenBase) (eval_nexus : list Nexus) : result (list Nexus) :=
  match truthy (eval_feature self) with
  | None => ok eval_nexus
  | Some feature =>
      match eval_nexus with
      | [] => ok eval_nexus
      | _ =>
          match _flowpath_hydro_fabric self with
          | None => raise AttributeError "_flowpath_hydro_fabric"
          | Some flowpaths => independent_pick flowpaths feature eval_nexus eval_nexus
          end
      end
  end.

Definition independent_candidates (self : NgenBase) (params : ParamMap)
  : result (list AdjustableCatchment * list Nexus) :=
  let! (catchments, eval_nexus) :=
    independent_loop self params (dict_keys (map fst (_catchment_hydro_fabric self)) []) in
  let! eval_nexus := independent_filter self eval_nexus in
  ok (catchments, eval_nexus).

(** [NgenIndependent.__init__]: the adjustables it leaves in [_catchments]. *)
Definition NgenIndependent (self : NgenBase) (params : ParamMap) : result (list target) :=
  let! (catchments, eval_nexus) := independent_candidates self params in
  match eval_nexus with
  | [n] => ok [CalibrationSet catchments n]
  | _ => raise RuntimeError only_one_msg
  end.

(** *** uniform *)

(** [_build_gauged_hyfeatures_nexuses(divides, nexuses, crosswalk)] *)
Fixpoint _build_gauged_hyfeatures_nexuses (divides : ToidTable) (nexuses : list string)
    (crosswalk : list (string * string)) : result (list Nexus) :=
  match crosswalk with
  | [] => ok []
  | (wb_id, gage_id) :: rest =>
      match loc divides (Str.replace wb_id "wb" "cat") with
      | None => raise KeyError (Str.replace wb_id "wb" "cat")
      | Some nexus_id =>
          let contributing :=
            map fst (List.filter (fun d => String.eqb (snd d) nexus_id) divides) in
          if in_index nexuses nexus_id then
            let nexus :=
              {| nexus_id := nexus_id;
                 _hydro_location :=
                   Some {| station_id := gage_id; location_nexus_id := nexus_id |};
                 contributing_catchments :=
                   map (fun id => {| catchment_id := id |}) contributing |} in
            let! eval_nexus := _build_gauged_hyfeatures_nexuses divides nexuses rest in
            ok (nexus :: eval_nexus)
          else raise KeyError nexus_id
      end
  end.

(** The test of [_find_eval_feature] on one nexus, [eval_feature] being
    already translated from [wb-] to [cat-]. *)
Definition eval_feature_matches (eval_feature : string) (n : Nexus) : result bool :=
  if Str.startswith eval_feature "nex-" && String.eqb eval_feature (nexus_id n) then ok true
  else if Str.startswith eval_feature "cat-" then
    ok (existsb (fun c => String.eqb eval_feature (catchment_id c)) (contributing_catchments n))
  else
    match _hydro_location n with
    | Some location => ok (String.eqb eval_feature (station_id location))
    | None => raise AssertionError ""
    end.

Fixpoint find_candidates (eval_feature : string) (nexuses : list Nexus) : result (list Nexus) :=
  match nexuses with
  | [] => ok []
  | n :: rest =>
      let! hit := eval_feature_matches eval_feature n in
      let! candidates := find_candidates eval_feature rest in
      ok (if hit then n :: candidates else candidates)
  end.

(** [_find_eval_feature(eval_feature, nexuses)] *)
Definition _find_eval_feature (eval_feature : string) (nexuses : list Nexus)
  : result (list Nexus) :=
  let eval_feature :=
    if Str.startswith eval_feature "wb-" then Str.replace eval_feature "wb-" "cat-"
    else eval_feature in
  find_candidates eval_feature nexuses.

(** The evaluation candidates of the uniform strategy, after the optional
    filter by [eval_feature] (lines 712-715). *)
Definition uniform_candidates (self : NgenBase) : result (list Nexus) :=
  let! eval_nexus :=
    _build_gauged_hyfeatures_nexuses
      (_catchment_hydro_fabric self) (_nexus_hydro_fabric self) (_x_walk self) in
  match truthy (eval_feature self) with
  | Some feature => _find_eval_feature feature eval_nexus
  | None => ok eval_nexus
  end.

(** [NgenUniform.__init__]: the adjustables it leaves in [_catchments]. *)
Definition NgenUniform (self : NgenBase) (params : ParamMap) : result (list target) :=
  let! eval_nexus := uniform_candidates self in
  match eval_nexus with
  | [n] =>
      let! df := _params_as_df params None in
      ok [UniformCalibrationSet n df]
  | _ => raise RuntimeError only_one_msg
  end.

(** The three strategies of [Ngen.__root__]. *)
Inductive NgenStrategy : Type := uniform | explicit | independent.

Definition construct (strategy : NgenStrategy) (self : NgenBase) (params : ParamMap)
  : result (list target) :=
  match strategy with
  | explicit => NgenExplicit self
  | independent => NgenIndependent self params
  | uniform => NgenUniform self params
  end.

End Targets.

(** ** The realization and the validation of the model configuration *)

Module Config.
Import Py.

(** [ngen.config.realization]: the time block and the fields of
    [NgenRealization] the calibration reads. [output_interval] is a
    positive number of seconds. *)
Record Time : Type :=
  { start_time : Z; end_time : Z; output_interval : positive }.

Record NgenRealization : Type :=
  { time : Time; output_root : option Str.Path }.

(** The values the root validators of [NgenBase] receive. *)
Record values : Type :=
  { realization : Str.Path;
    hydrofabric : option Str.Path;
    catchments : option Str.Path;
    nexus : option Str.Path;
    crosswalk : option Str.Path;
    ngen_realization : option NgenRealization;
    partitions : option Str.Path;
    parallel : option Z;
    binary : string;
    args : option string;
    eval_feature : option string }.

(** [self.ngen_realization = r] *)
Definition with_ngen_realization (v : values) (r : NgenRealization) : values :=
  {| realization := realization v; hydrofabric := hydrofabric v;
     catchments := catchments v; nexus := nexus v; crosswalk := crosswalk v;
     ngen_realization := Some r; partitions := partitions v;
     parallel := parallel v; binary := binary v; args := args v;
     eval_feature := eval_feature v |}.

Definition with_args (v : values) (b : string) (a : option string) (f : option string) : values :=
  {| realization := realization v; hydrofabric := hydrofabric v;
     catchments := catchments v; nexus := nexus v; crosswalk := crosswalk v;
     ngen_realization := ngen_realization v; partitions := partitions v;
     parallel := parallel v; binary := b; args := a; eval_feature := f |}.

Section Environment.
(** [Path.resolve] and the variable [eval_feature] of [os.environ]. *)
Variable resolve : Str.Path -> Str.Path.
Variable environ_eval_feature : option string.
(** The realization file: [json.load] of the open file and
    [NgenRealization] built from the data (lines 156-158). *)
Variable read_realization : Str.Path -> result NgenRealization.

(** [check_for_partitions], a root validator with [pre=True] *)
Definition check_for_partitions (v : values) : result values :=
  match parallel v, partitions v with
  | Some n, None =>
      if (1 <? n)%Z then raise ValueError "Must provide partitions if using parallel" else ok v
  | _, _ => ok v
  end.

Definition quoted_all : string := " " ++ String (ascii_of_nat 34) ("all" ++ String (ascii_of_nat 34) " ").

(** [set_defaults] *)
Definition set_defaults (v : values) : result values :=
  let! (args0, custom_args) :=
    match args v with
    | Some a => ok (a, true)
    | None =>
        match hydrofabric v with
        | Some hf =>
            ok (resolve hf ++ quoted_all ++ resolve hf ++ quoted_all
                  ++ Str.name (realization v), false)
        | None =>
            match catchments v, nexus v with
            | Some c, Some n =>
                ok (resolve c ++ quoted_all ++ resolve n ++ quoted_all
                      ++ Str.name (realization v), false)
            | _, _ => raise AttributeError "'NoneType' object has no attribute 'resolve'"
            end
        end
    end in
  let (binary1, args1) :=
    match parallel v, partitions v with
    | Some n, Some parts =>
        ("mpirun -n " ++ pretty n ++ " " ++ binary v,
         if custom_args then args0 else args0 ++ " " ++ parts)
    | _, _ => (binary v, args0)
    end in
  let feature :=
    match Targets.truthy (eval_feature v) with
    | Some f => Some f
    | None => environ_eval_feature
    end in
  ok (with_args v binary1 (Some args1)
        (match feature with Some f => Some f | None => eval_feature v end)).

(** [_verify_hydrofabric]; the deprecation warning is not an error. *)
Definition _verify_hydrofabric (v : values) : result unit :=
  match hydrofabric v, catchments v, nexus v, crosswalk v with
  | None, None, None, None =>
      raise ValueError
        ("Must provide a geopackage input with the hydrofabric key"
           ++ "or proide catchment, nexus, and crosswalk geojson files.")
  | _, _, _, _ => ok tt
  end.

Definition output_root_msg : string :=
  "ngen realization `output_root` field is not supported by ngen.cal. will be removed in future; see https://github.com/NOAA-OWP/ngen-cal/issues/150".

(** [_verify_ngen_realization] *)
Definition _verify_ngen_realization (realization : option NgenRealization) : result unit :=
  match realization with
  | None => ok tt
  | Some r =>
      match output_root r with
      | Some _ => raise UnsupportedFeatureError output_root_msg
      | None => ok tt
      end
  end.

(** [_validate_model] *)
Definition _validate_model (v : values) : result values :=
  do! _verify_hydrofabric v in
  do! _verify_ngen_realization (ngen_realization v) in
  ok v.

(** The validation pydantic runs when the model is built from its keywords: the
    [pre] root validator, then the root validators in the order of the
    class body. The fields are taken as already of their types. *)
Definition validate (kwargs : values) : result values :=
  let! v := check_for_partitions kwargs in
  let! v := set_defaults v in
  _validate_model v.

(** What [NgenBase.__init__] does to the world, in order. *)
Inductive effect : Type :=
| CopyRealization (src : Str.Path)
| RegisterDefaultPlugins
| ReadGeopackage (version : Hydrofabric._HFVersion)
| ReadGeojson
| LoadRealization (src : Str.Path).

(** [NgenBase.__init__]: the effects carried out and the outcome.
    [tables hf] is the set of the [flow] tables of the geopackage [hf]; the
    readers of the hydrofabric are taken to succeed. The last statement
    assigns the realization read from the file to [self.ngen_realization];
    the [Config] of the class sets no [validate_assignment], so the
    assignment runs no validator. *)
Definition __init__ (tables : Str.Path -> gset string) (kwargs : values)
  : list effect * result values :=
  match validate kwargs with
  | inl e => ([], inl e)
  | inr self =>
      let done := [CopyRealization (realization self); RegisterDefaultPlugins] in
      let load (read : effect) : list effect * result values :=
        ((done ++ [read; LoadRealization (realization self)])%list,
         let! loaded := read_realization (realization self) in
         ok (with_ngen_realization self loaded)) in
      match hydrofabric self with
      | Some hf =>
          match Hydrofabric._hf_version (tables hf) with
          | inl e => (done, inl e)
          | inr version => load (ReadGeopackage version)
          end
      | None =>
          match catchments self, nexus self, crosswalk self with
          | Some _, Some _, Some _ => load ReadGeojson
          | None, _, _ => (done, raise AssertionError "missing geojson catchments file")
          | _, None, _ => (done, raise AssertionError "missing geojson nexus file")
          | _, _, None => (done, raise AssertionError "missing crosswalk file")
          end
      end
  end.

End Environment.

End Config.

(** ** Python floats

    [float] is the binary64 type of the machine. The operations Python takes
    from the C library ([fmod], [floor], [copysign]) are exact on binary64 and
    are computed on the mantissa and the exponent. *)

Module PyFloat.
Import Py.

(** [float(n)] for an integer below 2^63 in absolute value. *)
Definition of_int (n : Z) : float :=
  if (n <? 0)%Z then PrimFloat.opp (PrimFloat.of_uint63 (Uint63.of_Z (- n)))
  else PrimFloat.of_uint63 (Uint63.of_Z n).

Definition sign_bit (x : float) : bool :=
  match Prim2SF x with
  | S754_zero s | S754_infinity s | S754_finite s _ _ => s
  | S754_nan => false
  end.

(** [copysign(0.0, y)] *)
Definition zero_with_sign_of (y : float) : float :=
  if sign_bit y then PrimFloat.neg_zero else PrimFloat.zero.

(** [fmod(x, y)]: the sign of [x] and the remainder of the magnitudes. *)
Definition fmod (x y : float) : float :=
  match Prim2SF x, Prim2SF y with
  | S754_nan, _ | _, S754_nan => PrimFloat.nan
  | S754_infinity _, _ => PrimFloat.nan
  | _, S754_zero _ => PrimFloat.nan
  | S754_zero _, _ => x
  | _, S754_infinity _ => x
  | S754_finite sx mx ex, S754_finite _ my ey =>
      let e := Z.min ex ey in
      let r := ((Zpos mx * 2 ^ (ex - e)) mod (Zpos my * 2 ^ (ey - e)))%Z in
      let f := Z.ldexp (PrimFloat.of_uint63 (Uint63.of_Z r)) e in
      if sx then PrimFloat.opp f else f
  end.

(** [floor(x)] *)
Definition floor (x : float) : float :=
  match Prim2SF x with
  | S754_finite s m e =>
      if (0 <=? e)%Z then x
      else
        let n := ((if s then Zneg m else Zpos m) / 2 ^ (- e))%Z in
        if (n =? 0)%Z then PrimFloat.zero else of_int n
  | _ => x
  end.

(** [divmod(vx, wx)] on floats, as [float_divmod] of CPython computes it:
    the pair of the floored quotient and the remainder. *)
Definition divmod (vx wx : float) : result (float * float) :=
  if PrimFloat.eqb wx PrimFloat.zero then raise ZeroDivisionError "float divmod()"
  else
    let mod0 := fmod vx wx in
    let div0 := PrimFloat.div (PrimFloat.sub vx mod0) wx in
    let (mod1, div1) :=
      if negb (PrimFloat.eqb mod0 PrimFloat.zero) then
        if xorb (PrimFloat.ltb wx PrimFloat.zero) (PrimFloat.ltb mod0 PrimFloat.zero)
        then (PrimFloat.add mod0 wx, PrimFloat.sub div0 PrimFloat.one)
        else (mod0, div0)
      else (zero_with_sign_of wx, div0) in
    let floordiv :=
      if negb (PrimFloat.eqb div1 PrimFloat.zero) then
        let f := floor div1 in
        if PrimFloat.ltb 0.5%float (PrimFloat.sub div1 f) then PrimFloat.add f PrimFloat.one
        else f
      else zero_with_sign_of (PrimFloat.div vx wx) in
    ok (floordiv, mod1).

(** [a / b] on integers below 2^53 in absolute value. *)
Definition true_div (a b : Z) : result float :=
  if (b =? 0)%Z then raise ZeroDivisionError "division by zero"
  else ok (PrimFloat.div (of_int a) (of_int b)).

(** [int(x)]: the integer part. *)
Definition to_int (x : float) : result Z :=
  match Prim2SF x with
  | S754_zero _ => ok 0%Z
  | S754_finite s m e =>
      let n := if (0 <=? e)%Z then (Zpos m * 2 ^ e)%Z else (Zpos m / 2 ^ (- e))%Z in
      ok (if s then (- n)%Z else n)
  | S754_infinity _ => raise OverflowError "cannot convert float infinity to integer"
  | S754_nan => raise ValueError "cannot convert float NaN to integer"
  end.

End PyFloat.

(** ** Time series

    A pandas [Series] of discharge indexed by time: the stamps in seconds and
    the values, in the order of the rows. Within one series a time stamp
    occurs once and the stamps increase. *)

Module Series.

Definition t : Type := list (Z * float).

(** [ds.empty] *)
Definition empty (ds : t) : bool := match ds with [] => true | _ => false end.

Fixpoint at_time (ds : t) (stamp : Z) : option float :=
  match ds with
  | [] => None
  | (s, v) :: rest => if (s =? stamp)%Z then Some v else at_time rest stamp
  end.

(** [ds += flows]: the values are added stamp by stamp and the result keeps
    the index of [ds]; where [flows] has no value the sum is missing. *)
Definition iadd (ds flows : t) : t :=
  map (fun sv =>
         (fst sv,
          match at_time flows (fst sv) with
          | Some w => PrimFloat.add (snd sv) w
          | None => PrimFloat.nan
          end))
      ds.

(** [ds.loc[lo:hi]] on an increasing index: both ends belong to the slice. *)
Definition loc (lo hi : Z) (ds : t) : t :=
  List.filter (fun sv => (lo <=? fst sv)%Z && (fst sv <=? hi)%Z) ds.

Definition hour : Z := 3600.

(** The start of the hour a stamp falls in. *)
Definition bucket (stamp : Z) : Z := (hour * (stamp / hour))%Z.

(** [first()] of a group: the first value that is not missing. *)
Fixpoint first_valid (vs : list float) : float :=
  match vs with
  | [] => PrimFloat.nan
  | v :: rest => if PrimFloat.is_nan v then first_valid rest else v
  end.

Definition in_bucket (b : Z) (ds : t) : list float :=
  map snd (List.filter (fun sv => (bucket (fst sv) =? b)%Z) ds).

Definition stamps_min (s0 : Z) (ds : t) : Z := fold_left (fun m sv => Z.min m (fst sv)) ds s0.
Definition stamps_max (s0 : Z) (ds : t) : Z := fold_left (fun m sv => Z.max m (fst sv)) ds s0.

(** [ds.resample("1h").first()]: one row per hour from the hour of the
    earliest stamp to the hour of the latest. *)
Definition resample_1h_first (ds : t) : t :=
  match ds with
  | [] => []
  | (s0, _) :: _ =>
      let lo := bucket (stamps_min s0 ds) in
      let hi := bucket (stamps_max s0 ds) in
      map (fun k => let b := (lo + hour * Z.of_nat k)%Z in (b, first_valid (in_bucket b ds)))
          (seq 0 (Z.to_nat ((hi - lo) / hour) + 1))
  end.

End Series.

(** ** Routing output: [TrouteOutput] and [_routing_timestep_size_s] *)

Module Troute.
Import Py Config.

(** [_NgenCalModelOutputFn]: the series of a feature id. *)
Definition OutputFn : Type := Z -> result Series.t.

(** [EvaluationOptions] and [ValidationOptions] of [ngen.cal.model], with
    what the hook reads from them. *)
Record EvaluationOptions : Type :=
  { evaluation_start : option Z; evaluation_stop : option Z }.

Record ValidationOptions : Type := { evaluation_interval : Z * Z }.

Record TrouteOutput : Type :=
  { _output_file : Str.Path;
    _settings : option Str.Path;  (* [TrouteOutputSettings.validation_routing_output] *)
    _ngen_realization : option NgenRealization;
    _validation_options : option ValidationOptions;
    _eval_options : option EvaluationOptions }.

(** [TrouteOutput(filepath)] *)
Definition new (filepath : Str.Path) : TrouteOutput :=
  {| _output_file := filepath; _settings := None; _ngen_realization := None;
     _validation_options := None; _eval_options := None |}.

Definition realization_required : string :=
  "ngen realization required; ensure `ngen_cal_model_configure` was called and the plugin was properly configured".

(** [len(pd.date_range(start, end, freq=f"{step}s", inclusive="right"))]:
    the stamps [start + k * step] up to [end], [start] left out. When [start]
    and [end] are the same stamp pandas keeps it, whichever side is open. *)
Definition date_range_right_len (start end_ : Z) (step : positive) : Z :=
  if (end_ <? start)%Z then 0%Z
  else if (end_ =? start)%Z then 1%Z
  else ((end_ - start) / Zpos step)%Z.

(** [_routing_timestep_size_s(routing_n_ts, realization)] *)
Definition _routing_timestep_size_s (routing_n_ts : nat) (realization : NgenRealization)
  : result Z :=
  let start := start_time (time realization) in
  let end_ := end_time (time realization) in
  let ngen_ts_s := Zpos (output_interval (time realization)) in
  let ngen_n_ts := date_range_right_len start end_ (output_interval (time realization)) in
  let! r_n_ts_in_ngen_ts := PyFloat.true_div (Z.of_nat routing_n_ts) ngen_n_ts in
  let! (r_dt, r) := PyFloat.divmod (PyFloat.of_int ngen_ts_s) r_n_ts_in_ngen_ts in
  do! assert (PrimFloat.eqb r PrimFloat.zero)
    "routing timestep is not evenly divisible by ngen_timesteps" in
  PyFloat.to_int r_dt.

Section Files.
(** The file system: the text of a file that exists. *)
Variable fs : Str.Path -> option string.

(** The readers of the five encodings. Each parses a file with pandas or
    xarray and gives the function that looks a feature up in it. *)
Variable _csv_output_v1 : Str.Path -> NgenRealization -> result OutputFn.
Variable _stream_output_csv_v1 : Str.Path -> result OutputFn.
Variable _stream_output_csv_v2 : Str.Path -> result OutputFn.
Variable _stream_output_netcdf_v1 : Str.Path -> result OutputFn.
Variable _stream_output_parquet_v1 : Str.Path -> result OutputFn.

Definition exists_ (p : Str.Path) : bool :=
  match fs p with Some _ => true | None => false end.

Definition csv_v1_prefix : string :=
  "," ++ String (ascii_of_nat 34) ("(0, 'q')" ++ String (ascii_of_nat 34) "").

(** [_factory_handler_csv] *)
Definition _factory_handler_csv (self : TrouteOutput) (filepath : Str.Path) : result OutputFn :=
  match fs filepath with
  | None => raise FileNotFoundError filepath
  | Some text =>
      let header := Str.strip (Str.readline text) in
      if Str.startswith header csv_v1_prefix then
        match _ngen_realization self with
        | None => raise AssertionError "ngen realization required"
        | Some realization => _csv_output_v1 filepath realization
        end
      else if Str.contains "t0" header then _stream_output_csv_v1 filepath
      else if Str.contains "current_time" header then _stream_output_csv_v2 filepath
      else raise RuntimeError ("could not parse t-route csv output file: " ++ filepath)
  end.

(** [_output_handler_factory] *)
Definition _output_handler_factory (self : TrouteOutput) (output_file : Str.Path)
  : result OutputFn :=
  let filetype := Str.lower (Str.suffix output_file) in
  if String.eqb filetype ".csv" then _factory_handler_csv self output_file
  else if String.eqb filetype ".nc" then _stream_output_netcdf_v1 output_file
  else if String.eqb filetype ".parquet" then _stream_output_parquet_v1 output_file
  else raise RuntimeError ("unsupported t-route output filetype: " ++ Str.suffix output_file).

(** [_sim_eval_interval] *)
Definition _sim_eval_interval (self : TrouteOutput) : result (Z * Z) :=
  match _ngen_realization self with
  | None => raise AssertionError realization_required
  | Some realization =>
      match _eval_options self with
      | Some {| evaluation_start := Some start; evaluation_stop := stop |} =>
          match stop with
          | Some stop => ok (start, stop)
          | None => raise AssertionError ""
          end
      | _ => ok (start_time (time realization), end_time (time realization))
      end
  end.

(** [_validation_eval_interval] *)
Definition _validation_eval_interval (self : TrouteOutput) : result (Z * Z) :=
  match _validation_options self with
  | None => _sim_eval_interval self
  | Some options => ok (evaluation_interval options)
  end.

(** [int(id[len(prefix):])]; [prefix] is four characters long. *)
Definition numeric_suffix (id : string) : result Z :=
  match Str.int (Str.drop 4 id) with
  | Some n => ok n
  | None => raise ValueError ("invalid literal for int() with base 10: " ++ Str.drop 4 id)
  end.

(** [fn(nexus_id)], refused when the series is empty. *)
Definition fetch (fn : OutputFn) (nexus_id : Z) : result Series.t :=
  let! ds := fn nexus_id in
  if Series.empty ds then raise RuntimeError ("no data for " ++ pretty nexus_id)
  else ok ds.

(** The loop of lines 131-136 over the contributing catchments after the
    first. *)
Fixpoint add_flows (fn : OutputFn) (rest : list Targets.Catchment) (ds : Series.t)
  : result Series.t :=
  match rest with
  | [] => ok ds
  | catchment :: rest =>
      let! nexus_id := numeric_suffix (Targets.catchment_id catchment) in
      let! flows := fetch fn nexus_id in
      add_flows fn rest (Series.iadd ds flows)
  end.

(** Scenario 1 (lines 127-137): the sum over the contributing catchments. *)
Definition aggregate_contributing (fn : OutputFn) (nexus : Targets.Nexus) : result Series.t :=
  match Targets.contributing_catchments nexus with
  | [] => raise IndexError "tuple index out of range"
  | first :: rest =>
      let! nexus_id := numeric_suffix (Targets.catchment_id first) in
      let! ds := fetch fn nexus_id in
      add_flows fn rest ds
  end.

(** Scenario 2 (lines 141-145): the series of the nexus itself. *)
Definition nexus_flows (fn : OutputFn) (nexus : Targets.Nexus) : result Series.t :=
  let! nexus_id := numeric_suffix (Targets.nexus_id nexus) in
  fetch fn nexus_id.

(** The [try] statement of lines 125-147. *)
Definition extract (fn : OutputFn) (nexus : Targets.Nexus) : result Series.t :=
  try_except (aggregate_contributing fn nexus)
    (fun e => try_except (nexus_flows fn nexus) (fun _ => inl e)).

(** The choice of the file and of the interval (lines 97-114); [None]
    when neither file exists. *)
Definition select_output (self : TrouteOutput) : result (option (Str.Path * (Z * Z))) :=
  let validation :=
    match _settings self with
    | Some p => if exists_ p then Some p else None
    | None => None
    end in
  match validation with
  | Some output_file =>
      let! interval := _validation_eval_interval self in
      ok (Some (output_file, interval))
  | None =>
      if exists_ (_output_file self) then
        let! interval := _sim_eval_interval self in
        ok (Some (_output_file self, interval))
      else ok None
  end.

(** [TrouteOutput.get_output(nexus)]; the name given to the series is not
    kept. *)
Definition get_output (self : TrouteOutput) (nexus : Targets.Nexus)
  : result (option Series.t) :=
  match _ngen_realization self with
  | None => raise AssertionError realization_required
  | Some realization =>
      let! selected := select_output self in
      match selected with
      | None => ok None
      | Some (output_file, (_, end_)) =>
          let! fn := _output_handler_factory self output_file in
          let! ds := extract fn nexus in
          let ngen_dt := Zpos (output_interval (time realization)) in
          let start := start_time (time realization) in
          let ds := Series.loc (start + ngen_dt) end_ ds in
          ok (Some (Series.resample_1h_first ds))
      end
  end.

End Files.

End Troute.

(** ** Sample inputs *)

Definition newline : string := String (ascii_of_nat 10) "".

(** A run of ten hours with an hourly output. *)
Definition ex_realization : Config.NgenRealization :=
  {| Config.time := {| Config.start_time := 0; Config.end_time := 36000;
                       Config.output_interval := 3600 |};
     Config.output_root := None |}.

(** [n] stamps [first], [first + step], ..., all with the value [v]. *)
Definition ex_constant (first step : Z) (n : nat) (v : float) : Series.t :=
  map (fun k => ((first + step * Z.of_nat k)%Z, v)) (seq 0 n).

(** A series whose value at the [k]-th stamp is [k]. *)
Definition ex_ramp (first step : Z) (n : nat) : Series.t :=
  map (fun k => ((first + step * Z.of_nat k)%Z, PyFloat.of_int (Z.of_nat k))) (seq 0 n).

(** A routing output: features 1, 2 and 3 carry the constant discharges 1.0,
    2.0 and 3.0 at the ten hourly stamps, feature 4 the discharge 4.0 at the
    first five of them, feature 7 a ramp every quarter of an hour; there is no
    row for any other feature. *)
Definition ex_flows : Troute.OutputFn :=
  fun id =>
    Py.ok (if (id =? 1)%Z then ex_constant 3600 3600 10 1%float
           else if (id =? 2)%Z then ex_constant 3600 3600 10 2%float
           else if (id =? 3)%Z then ex_constant 3600 3600 10 3%float
           else if (id =? 4)%Z then ex_constant 3600 3600 5 4%float
           else if (id =? 7)%Z then ex_ramp 900 900 40
           else []).

Definition ex_disk (p : Str.Path) : option string :=
  if String.eqb p "flowveldepth_Ngen.csv" then
    Some (",,current_time,flow,velocity,depth,nudge" ++ newline
            ++ "1,wb,2010-10-01 1:00:00,1.0,0.0,0.0,-9999.0" ++ newline)
  else if String.eqb p "run/notes.csv" then Some ("id;flow" ++ newline ++ "1;1.0" ++ newline)
  else if String.eqb p "run/troute_output.txt" then Some "1 1.0"
  else None.

Definition ex_no_reader (p : Str.Path) : Py.result Troute.OutputFn :=
  Py.raise Py.RuntimeError "reader not installed".

Definition ex_stream_v2 (p : Str.Path) : Py.result Troute.OutputFn := Py.ok ex_flows.

Definition ex_factory : Troute.TrouteOutput -> Str.Path -> Py.result Troute.OutputFn :=
  Troute._output_handler_factory ex_disk (fun p _ => ex_no_reader p) ex_no_reader ex_stream_v2
    ex_no_reader ex_no_reader.

Definition ex_get_output : Troute.TrouteOutput -> Targets.Nexus -> Py.result (option Series.t) :=
  Troute.get_output ex_disk (fun p _ => ex_no_reader p) ex_no_reader ex_stream_v2
    ex_no_reader ex_no_reader.

(** The hook after [ngen_cal_model_configure], reading [filepath]. *)
Definition ex_hook (filepath : Str.Path) (options : option Troute.EvaluationOptions)
  : Troute.TrouteOutput :=
  {| Troute._output_file := filepath; Troute._settings := None;
     Troute._ngen_realization := Some ex_realization;
     Troute._validation_options := None; Troute._eval_options := options |}.

Definition ex_nexus (id : string) (contributing : list string) : Targets.Nexus :=
  {| Targets.nexus_id := id; Targets._hydro_location := None;
     Targets.contributing_catchments :=
       map (fun c => {| Targets.catchment_id := c |}) contributing |}.

(** A catchment whose series is found and is not empty. *)
Definition has_series (fn : Troute.OutputFn) (c : Targets.Catchment) (s : Series.t) : Prop :=
  exists id, Troute.numeric_suffix (Targets.catchment_id c) = Py.ok id /\ fn id = Py.ok s /\ s <> [].

(** A configuration that carries a realization with [output_root] set. *)
Definition C9_kwargs : Config.values :=
  {| Config.realization := "conf/realization.json";
     Config.hydrofabric := Some "conf/hydrofabric.gpkg";
     Config.catchments := None; Config.nexus := None; Config.crosswalk := None;
     Config.ngen_realization :=
       Some {| Config.time := {| Config.start_time := 0; Config.end_time := 36000;
                                 Config.output_interval := 3600 |};
               Config.output_root := Some "out" |};
     Config.partitions := None; Config.parallel := None;
     Config.binary := "ngen"; Config.args := None; Config.eval_feature := None |}.

(** The usual configuration: the realization is given as a file only. *)
Definition ex_file_kwargs : Config.values :=
  {| Config.realization := "conf/realization.json";
     Config.hydrofabric := Some "conf/hydrofabric.gpkg";
     Config.catchments := None; Config.nexus := None; Config.crosswalk := None;
     Config.ngen_realization := None;
     Config.partitions := None; Config.parallel := None;
     Config.binary := "ngen"; Config.args := None; Config.eval_feature := None |}.

(** A realization file whose data set [output_root]. *)
Definition ex_output_root_file (p : Str.Path) : Py.result Config.NgenRealization :=
  Py.ok {| Config.time := Config.time ex_realization; Config.output_root := Some "out" |}.

(** Two models that both declare a parameter named [x]. *)
Definition ex_params : ParameterSpace.ParamMap :=
  [("CFE", [ {| ParameterSpace.name := "x"; ParameterSpace.min := 0%float;
                ParameterSpace.max := 1%float; ParameterSpace.init := 0.5%float |} ]);
   ("NoahOWP", [ {| ParameterSpace.name := "x"; ParameterSpace.min := 10%float;
                    ParameterSpace.max := 20%float; ParameterSpace.init := 15%float |} ])].

(** The row [_params_as_df] builds for the parameter [s] of the model [k]. *)
Definition table_row (k : string) (s : ParameterSpace.Parameter_) : Pd.row :=
  {| Pd.row_label := Pd.Lab (Pd.Text (ParameterSpace.name s));
     Pd.row_cells :=
       [("param", Pd.Text (ParameterSpace.name s)); ("min", Pd.Num (ParameterSpace.min s));
        ("max", Pd.Num (ParameterSpace.max s)); ("init", Pd.Num (ParameterSpace.init s));
        ("model", Pd.Text k)] |}.

(** What [df['p'] = df['param']] followed by [set_index('p')] makes of a row. *)
Definition indexed (r : Pd.row) : Pd.row :=
  let copied :=
    match Pd.lookup_cell "param" (Pd.row_cells r) with
    | Some v => Pd.set_cell "p" v (Pd.row_cells r)
    | None => Pd.del_cell "p" (Pd.row_cells r)
    end in
  Pd.Row (match Pd.lookup_cell "p" copied with
          | Some v => Pd.Lab v
          | None => Pd.Lab (Pd.Num PrimFloat.nan)
          end)
         (Pd.del_cell "p" copied).

(** The index of a row is the name of its parameter; the model is a column. *)
Definition keyed_by_param (r : Pd.row) : Prop :=
  exists p m,
    Pd.row_label r = Pd.Lab (Pd.Text p) /\
    Pd.cell_text "param" r = Some p /\
    Pd.cell_text "model" r = Some m.

(** A watershed of three catchments. [cat-1] and [cat-2] drain to [nex-1],
    [cat-3] drains to [nex-2]. *)
Definition ex_divides : Targets.ToidTable :=
  [("cat-1", "nex-1"); ("cat-2", "nex-1"); ("cat-3", "nex-2")].

Definition ex_flowpaths : Targets.ToidTable :=
  [("wb-1", "nex-1"); ("wb-2", "nex-1"); ("wb-3", "nex-2")].

Definition ex_formulation : ParameterSpace.Realization :=
  {| ParameterSpace.formulations :=
       [ParameterSpace.MultiBMI "bmi_multi"
          [ParameterSpace.Model "CFE"; ParameterSpace.Model "NoahOWP"]] |}.

(** The object after [NgenBase.__init__], for a crosswalk, an optional
    [eval_feature] and the catchment entries of the realization. *)
Definition ex_base (x_walk : list (string * string)) (feature : option string)
    (entries : list (string * Targets.CatchmentRealization)) : Targets.NgenBase :=
  {| Targets._catchment_hydro_fabric := ex_divides;
     Targets._nexus_hydro_fabric := ["nex-1"; "nex-2"];
     Targets._flowpath_hydro_fabric := Some ex_flowpaths;
     Targets._x_walk := x_walk;
     Targets.eval_feature := feature;
     Targets.global_config := ex_formulation;
     Targets.realization_catchments := entries |}.

(** A catchment entry that declares calibration parameters. *)
Definition ex_opted_in : Targets.CatchmentRealization :=
  {| Targets.calibration := Some ex_params;
     Targets.catchment_formulations := ParameterSpace.formulations ex_formulation |}.

(** A realization whose entries [cat-1] and [cat-3] declare calibration
    parameters, with a gauge for each. *)
Definition ex_explicit_two : Targets.NgenBase :=
  ex_base [("cat-1", "01010000"); ("cat-3", "03030000")] None
    [("cat-1", ex_opted_in); ("cat-3", ex_opted_in)].

(** A realization in which no entry declares calibration parameters. *)
Definition ex_explicit_none : Targets.NgenBase :=
  ex_base [("cat-1", "01010000")] None
    [("cat-1", {| Targets.calibration := None;
                  Targets.catchment_formulations := ParameterSpace.formulations ex_formulation |})].

(** ** Rewriting the configuration: [NgenBase.update_config] *)

Module Rewriter.
Import Py.

(** [s.endswith(suffix)] *)
Definition endswith (s suffix : string) : bool :=
  (String.length suffix <=? String.length s)%nat &&
  String.eqb (Str.drop (String.length s - String.length suffix) s) suffix.

(** Equality of two index labels as keys of a Python [dict]. *)
Definition label_eqb (a b : Pd.label) : bool :=
  match a, b with
  | Pd.Pos i, Pd.Pos j => Nat.eqb i j
  | Pd.Lab (Pd.Text s), Pd.Lab (Pd.Text t) => String.eqb s t
  | Pd.Lab (Pd.Num x), Pd.Lab (Pd.Num y) => PrimFloat.eqb x y
  | _, _ => false
  end.

(** A Python [dict] from index labels to cells, in insertion order. *)
Definition dict : Type := list (Pd.label * Pd.cell).

(** [d[k] = v]: an existing key keeps its place and takes the new value. *)
Fixpoint dict_set (k : Pd.label) (v : Pd.cell) (d : dict) : dict :=
  match d with
  | [] => [(k, v)]
  | (k', v') :: rest =>
      if label_eqb k' k then (k', v) :: rest else (k', v') :: dict_set k v rest
  end.

(** [d.get(k)] *)
Fixpoint dict_get (d : dict) (k : Pd.label) : option Pd.cell :=
  match d with
  | [] => None
  | (k', v') :: rest => if label_eqb k' k then Some v' else dict_get rest k
  end.

(** [series.to_dict()]: the items in order, a later item replacing an earlier
    one of the same label. *)
Definition to_dict (items : list (Pd.label * Pd.cell)) : dict :=
  fold_left (fun d kv => dict_set (fst kv) (snd kv) d) items [].

(** A formulation seen through [formulation.params]: the name of the model,
    its [model_params], and for a [MultiBMI] its [modules]. *)
Inductive formulation : Type :=
| Formulation (model_name : string) (model_params : option dict)
    (modules : option (list formulation)).

Definition model_name (m : formulation) : string :=
  match m with Formulation n _ _ => n end.
Definition model_params (m : formulation) : option dict :=
  match m with Formulation _ p _ => p end.
Definition modules (m : formulation) : option (list formulation) :=
  match m with Formulation _ _ ms => ms end.

(** [m.params.model_params = d] *)
Definition set_model_params (m : formulation) (d : dict) : formulation :=
  Formulation (model_name m) (Some d) (modules m).

Record Realization : Type := { formulations : list formulation }.

Record NgenRealization : Type :=
  { global_config : Realization;
    catchments : list (string * Realization) }.

(** The rows of the group [name] of [df.groupby('model')]. *)
Definition in_group (name : string) (r : Pd.row) : bool :=
  match Pd.cell_text "model" r with
  | Some m => String.eqb m name
  | None => false
  end.

Definition get_group (name : string) (df : Pd.DataFrame) : list Pd.row :=
  List.filter (in_group name) (Pd.rows df).

(** [name in groups.groups] *)
Definition in_groups (name : string) (df : Pd.DataFrame) : bool :=
  existsb (in_group name) (Pd.rows df).

(** The value of a row in a column; a cell the row does not hold is missing. *)
Definition value_at (column : string) (r : Pd.row) : Pd.cell :=
  match Pd.lookup_cell column (Pd.row_cells r) with
  | Some v => v
  | None => Pd.Num PrimFloat.nan
  end.

(** [groups.get_group(name)[str(i)].to_dict()]; a [KeyError] when the group or
    the column of the iteration is missing. *)
Definition iteration_values (i : Z) (df : Pd.DataFrame) (name : string) : result dict :=
  if in_groups name df then
    if Pd.has_column (pretty i) (Pd.columns df) then
      ok (to_dict (map (fun r => (Pd.row_label r, value_at (pretty i) r)) (get_group name df)))
    else raise KeyError (pretty i)
  else raise KeyError name.

(** The branch on [isinstance(module, MultiBMI)] (lines 441-449). *)
Definition update_module (i : Z) (df : Pd.DataFrame) (module : formulation)
  : result formulation :=
  match modules module with
  | Some ms =>
      let! ms' :=
        map_result
          (fun m =>
             if in_groups (model_name m) df then
               let! d := iteration_values i df (model_name m) in
               ok (set_model_params m d)
             else ok m)
          ms in
      ok (Formulation (model_name module) (model_params module) (Some ms'))
  | None =>
      let! d := iteration_values i df (model_name module) in
      ok (set_model_params module d)
  end.

(** [params.set_index('param').groupby('model')]; a [KeyError] when one of the
    two columns is missing. *)
Definition grouped (params : Pd.DataFrame) : result Pd.DataFrame :=
  let! df := Pd.set_index "param" params in
  if Pd.has_column "model" (Pd.columns df) then ok df else raise KeyError "model".

Definition update_realization (i : Z) (params : Pd.DataFrame) (r : Realization)
  : result Realization :=
  match formulations r with
  | [] => raise IndexError "list index out of range"
  | module :: rest =>
      let! df := grouped params in
      let! module' := update_module i df module in
      ok {| formulations := module' :: rest |}
  end.

(** [self.ngen_realization.catchments[id]] replaced by [f] of it. *)
Fixpoint update_catchment (f : Realization -> result Realization) (id : string)
    (cs : list (string * Realization)) : result (list (string * Realization)) :=
  match cs with
  | [] => raise KeyError id
  | (k, r) :: rest =>
      if String.eqb k id then
        let! r' := f r in ok ((k, r') :: rest)
      else
        let! rest' := update_catchment f id rest in ok ((k, r) :: rest')
  end.

Section Disk.
(** [ngen_realization.json(by_alias=True, exclude_none=True, indent=4)] *)
Variable to_json : NgenRealization -> string.

(** The files of the directory [path]: name and text. *)
Definition directory : Type := gmap string string.

(** [for file in Path(path).glob("*NEXOUT.parquet"): file.unlink()] *)
Definition clear_parquet (dir : directory) : directory :=
  filter (fun kv => endswith (fst kv) "NEXOUT.parquet" = false) dir.

(** [NgenBase.update_config(i, params, id, path)]: the realization after the
    call and the directory [path] after it. [realization_name] is
    [self.realization.name]. *)
Definition update_config (self : NgenRealization) (realization_name : string)
    (i : Z) (params : Pd.DataFrame) (id : option string) (dir : directory)
  : result (NgenRealization * directory) :=
  let! self' :=
    match id with
    | None =>
        let! g := update_realization i params (global_config self) in
        ok {| global_config := g; catchments := catchments self |}
    | Some id =>
        let! cs := update_catchment (update_realization i params) id (catchments self) in
        ok {| global_config := global_config self; catchments := cs |}
    end in
  ok (self', clear_parquet (<[realization_name := to_json self']> dir)).

(** [NgenExplicit.update_config(i, params, id)] *)
Definition explicit_update_config (self : NgenRealization) (realization_name : string)
    (i : Z) (params : Pd.DataFrame) (id : option string) (dir : directory)
  : result (NgenRealization * directory) :=
  match id with
  | None => raise RuntimeError "NgenExplicit calibration must recieve an id to update, not None"
  | Some _ => update_config self realization_name i params id dir
  end.

End Disk.

(** [NgenIndependent._strip_global_params] *)
Definition _strip_global_params (r : Realization) : result Realization :=
  match formulations r with
  | [] => raise IndexError "list index out of range"
  | Formulation n p (Some ms) :: rest =>
      ok {| formulations :=
              Formulation n p
                (Some (map (fun m => Formulation (model_name m) None (modules m)) ms)) :: rest |}
  | Formulation n _ None :: rest =>
      ok {| formulations := Formulation n None None :: rest |}
  end.

(** [Ngen.restart], from the iterations the adjustables report. *)
Definition restart (starts : list Z) : Z :=
  match starts with
  | [] => 0
  | first :: _ => if forallb (fun x => (x =? first)%Z) starts then first else 0
  end.

End Rewriter.

(** What the loop of [update_config] makes of one module of a [MultiBMI]. *)
Definition written (i : Z) (df : Pd.DataFrame) (m : Rewriter.formulation) : Rewriter.formulation :=
  if Rewriter.in_groups (Rewriter.model_name m) df then
    Rewriter.set_model_params m
      (Rewriter.to_dict
         (map (fun r => (Pd.row_label r, Rewriter.value_at (pretty i) r))
              (Rewriter.get_group (Rewriter.model_name m) df)))
  else m.

(** The table of [ex_params] with the values of iteration 0: 0.25 for [x] of
    [CFE] and 12.0 for [x] of [NoahOWP]. *)
Definition ex_table : Pd.DataFrame :=
  {| Pd.columns := ["param"; "min"; "max"; "init"; "model"; "0"];
     Pd.rows :=
       [ {| Pd.row_label := Pd.Lab (Pd.Text "x");
            Pd.row_cells := [("param", Pd.Text "x"); ("min", Pd.Num 0%float);
                             ("max", Pd.Num 1%float); ("init", Pd.Num 0.5%float);
                             ("model", Pd.Text "CFE"); ("0", Pd.Num 0.25%float)] |};
         {| Pd.row_label := Pd.Lab (Pd.Text "x");
            Pd.row_cells := [("param", Pd.Text "x"); ("min", Pd.Num 10%float);
                             ("max", Pd.Num 20%float); ("init", Pd.Num 15%float);
                             ("model", Pd.Text "NoahOWP"); ("0", Pd.Num 12%float)] |} ] |}.

(** A realization whose global formulation is a [MultiBMI] of three modules,
    and one catchment with a single model. *)
Definition ex_modules : list Rewriter.formulation :=
  [Rewriter.Formulation "CFE" None None;
   Rewriter.Formulation "NoahOWP" None None;
   Rewriter.Formulation "SLOTH" (Some [(Pd.Lab (Pd.Text "sloth_ice"), Pd.Num 0%float)]) None].

Definition ex_rewritable : Rewriter.NgenRealization :=
  {| Rewriter.global_config :=
       {| Rewriter.formulations := [Rewriter.Formulation "bmi_multi" None (Some ex_modules)] |};
     Rewriter.catchments :=
       [("cat-1", {| Rewriter.formulations := [Rewriter.Formulation "CFE" None None] |});
        ("cat-2", {| Rewriter.formulations := [Rewriter.Formulation "TOPMODEL" None None] |})] |}.

Definition ex_to_json (r : Rewriter.NgenRealization) : string := "{}".

Definition ex_directory : Rewriter.directory :=
  {[ "realization.json" := "old"; "troute_NEXOUT.parquet" := "stale"; "cat-1.csv" := "q" ]}.

(** An entry of [ngen_realization.catchments] that declares calibration
    parameters and is a divide of the hydrofabric: the entries the loop of
    [NgenExplicit.__init__] does not pass over. *)
Definition declares_divide (self : Targets.NgenBase)
    (entry : string * Targets.CatchmentRealization) : bool :=
  match Targets.calibration (snd entry),
        Targets.loc (Targets._catchment_hydro_fabric self) (fst entry) with
  | Some _, Some _ => true
  | _, _ => false
  end.

(** The target the explicit strategy makes of the entry [entry]. *)
Definition explicit_target (self : Targets.NgenBase)
    (entry : string * Targets.CatchmentRealization) (t : Targets.target) : Prop :=
  exists toid nwis params,
    Targets.loc (Targets._catchment_hydro_fabric self) (fst entry) = Some toid /\
    Targets.loc (Targets._x_walk self) (fst entry) = Some nwis /\
    In toid (Targets._nexus_hydro_fabric self) /\
    t = Targets.CalibrationCatchment (fst entry)
          {| Targets.nexus_id := toid;
             Targets._hydro_location :=
               Some {| Targets.station_id := nwis; Targets.location_nexus_id := toid |};
             Targets.contributing_catchments := [ {| Targets.catchment_id := fst entry |} ] |}
          params.

(** What [_build_gauged_hyfeatures_nexuses] makes of one crosswalk entry. *)
Definition gauged_nexus (divides : Targets.ToidTable) (nexuses : list string)
    (entry : string * string) (n : Targets.Nexus) : Prop :=
  Targets.loc divides (Str.replace (fst entry) "wb" "cat") = Some (Targets.nexus_id n) /\
  In (Targets.nexus_id n) nexuses /\
  Targets._hydro_location n = Some {| Targets.station_id := snd entry; Targets.location_nexus_id := Targets.nexus_id n |} /\
  (forall c, In c (Targets.contributing_catchments n) <-> In (Targets.catchment_id c, Targets.nexus_id n) divides) /\
  In {| Targets.catchment_id := Str.replace (fst entry) "wb" "cat" |} (Targets.contributing_catchments n).


(** The nexus the independent strategy attaches to the catchment [id]. *)
Definition independent_nexus (self : Targets.NgenBase) (id toid : string) : Targets.Nexus :=
  {| Targets.nexus_id := toid;
     Targets._hydro_location :=
       match Targets.independent_gage self id with
       | Some nwis => Some {| Targets.station_id := nwis; Targets.location_nexus_id := toid |}
       | None => None
       end;
     Targets.contributing_catchments := [ {| Targets.catchment_id := id |} ] |}.


(** ** The first text encoding: [_parse_column_csv_output_v1] and
    [_read_csv_output_v1_no_time] *)

Module CsvV1.
Import Py.

(** [s[a:b]] for indexes that are not negative. *)
Definition slice (a b : nat) (s : string) : string :=
  if (a <? b)%nat then String.substring a (b - a) s else EmptyString.

Definition is_comma (c : ascii) : bool := (nat_of_ascii c =? 44)%nat.
Definition is_quote (c : ascii) : bool := (nat_of_ascii c =? 39)%nat.

(** The loop of lines 227-233 over [s[:-2]] from the index [i] on, with the
    value [int_end] has so far: the pair of [int_end] and [char_start] at
    the end of the loop. *)
Fixpoint scan (body : string) (i int_end : nat) : result (nat * nat) :=
  match body with
  | EmptyString => ok (int_end, 0%nat)
  | String c rest =>
      if is_comma c then
        if (int_end =? 0)%nat then scan rest (S i) i else raise AssertionError ""
      else if is_quote c then ok (int_end, i)
      else scan rest (S i) int_end
  end.

(** [_parse_column_csv_output_v1(s)]: the hour and the name of the variable of
    a column such as [(0, 'q')]. *)
Definition _parse_column_csv_output_v1 (s : string) : result (Z * string) :=
  do! assert (Str.startswith s "(" && Rewriter.endswith s "')") "" in
  let n := String.length s in
  let! (int_end, char_start) := scan (slice 0 (n - 2) s) 0 0 in
  do! assert (int_end <? char_start)%nat "" in
  match Str.int (slice 1 int_end s) with
  | Some hour => ok (hour, slice (char_start + 1) (n - 2) s)
  | None =>
      raise ValueError
        ("invalid literal for int() with base 10: '" ++ slice 1 int_end s ++ "'")
  end.

(** A text without comma and without quote. *)
Definition plain (s : string) : Prop :=
  forall c, In c (list_ascii_of_string s) ->
    is_comma c = false /\ is_quote c = false.

(** What [pd.read_csv(filepath, index_col=0)] gives: the names of the columns
    and, for every row, the feature id of its first field and its values. *)
Record RawFrame : Type :=
  { raw_columns : list string;
    raw_rows : list (Z * list float) }.

(** The frame of [_read_csv_output_v1_no_time]: the columns as pairs of
    [simulation_hour] and [variable_name], the rows under [waterbody_code]. *)
Record Frame : Type :=
  { columns : list (Z * string);
    rows : list (string * list float) }.

(** [_read_csv_output_v1_no_time], after the file is read. *)
Definition _read_csv_output_v1_no_time (raw : RawFrame) : result Frame :=
  let index := map (fun r => ("wb-" ++ pretty (fst r), snd r)) (raw_rows raw) in
  let! tuples := map_result _parse_column_csv_output_v1 (raw_columns raw) in
  ok {| columns := tuples; rows := index |}.

(** A value given for [id]: an integer or a text. *)
Inductive feature_id : Type :=
| IntId (n : Z)
| StrId (s : string).

(** [df.loc[id]]: the values of the row whose label is [id]. *)
Fixpoint row_of (rows : list (string * list float)) (id : feature_id) : option (list float) :=
  match rows with
  | [] => None
  | (label, values) :: rest =>
      match id with
      | StrId s => if String.eqb label s then Some values else row_of rest id
      | IntId _ => row_of rest id
      end
  end.

(** The values of a row under the columns of the variable [q], in the order of
    the columns. *)
Fixpoint discharge (columns : list (Z * string)) (values : list float) : list float :=
  match columns, values with
  | (_, variable) :: columns, v :: values =>
      if String.eqb variable "q" then v :: discharge columns values
      else discharge columns values
  | _, _ => []
  end.

(** The function [get_output] that [_csv_output_v1] returns, for the frame
    [df] and the range of stamps [r_dt_range] it has computed. *)
Definition get_output (df : Frame) (r_dt_range : list Z) (id : feature_id)
  : result Series.t :=
  match row_of (rows df) id with
  | None =>
      raise KeyError (match id with IntId n => pretty n | StrId s => s end)
  | Some values =>
      if existsb (fun c => String.eqb (snd c) "q") (columns df) then
        let ds := discharge (columns df) values in
        if (length ds =? length r_dt_range)%nat then ok (combine r_dt_range ds)
        else raise ValueError "Length mismatch"
      else raise KeyError "q"
  end.

End CsvV1.

(** The function [_csv_output_v1] returns as the hook calls it: [fn(nexus_id)]
    with the integer [nexus_id] of lines 127, 132 and 141. *)
Definition csv_v1_handler (df : CsvV1.Frame) (r_dt_range : list Z) : Troute.OutputFn :=
  fun nexus_id => CsvV1.get_output df r_dt_range (CsvV1.IntId nexus_id).

(** A file of the first text encoding: two features and two routing steps. *)
Definition ex_raw_frame : CsvV1.RawFrame :=
  {| CsvV1.raw_columns :=
       ["(0, 'q')"; "(0, 'v')"; "(0, 'd')"; "(1, 'q')"; "(1, 'v')"; "(1, 'd')"];
     CsvV1.raw_rows :=
       [(2420800%Z, [0.5; 0.125; 0.25; 0.75; 0.125; 0.25]%float);
        (2420801%Z, [1.5; 0.125; 0.25; 1.75; 0.125; 0.25]%float)] |}.

(** ** Keeping the outputs of an iteration: [NgenSaveOutput] *)

Module SaveOutput.

(** What a directory holds under a name: a file with its text, or a
    directory. *)
Inductive node : Type :=
| File (text : string)
| Dir (children : gmap string node).

Inductive os_error : Type :=
| FileExistsError (path : string)
| FileNotFoundError (path : string).

Definition routing_output : string := "flowveldepth_Ngen.csv".

(** [fnmatch] of a name against [prefix*.csv]. *)
Definition glob_csv (prefix name : string) : bool :=
  Str.startswith name prefix && Rewriter.endswith name ".csv" &&
  (String.length prefix + 4 <=? String.length name)%nat.

(** A name one of the four patterns [cat-*.csv], [nex-*.csv], [tnx-*.csv] and
    [cnx-*.csv] matches. *)
Definition matched (name : string) : bool :=
  glob_csv "cat-" name || glob_csv "nex-" name || glob_csv "tnx-" name || glob_csv "cnx-" name.

(** [ngen_cal_model_iteration_finish(iteration, info)] on the directory
    [info.workdir]: the directory after the call, and the error raised if
    any. The directory made first is empty and matches no pattern; the names
    matched are moved into it, then the routing output. *)
Definition ngen_cal_model_iteration_finish (iteration : Z) (path : gmap string node)
  : gmap string node * option os_error :=
  let out_dir := "output_" ++ pretty iteration in
  match path !! out_dir with
  | Some _ => (path, Some (FileExistsError out_dir))
  | None =>
      let moved := filter (fun kv => matched (fst kv) = true) path in
      let left := filter (fun kv => matched (fst kv) = false) path in
      match left !! routing_output with
      | None => (<[out_dir := Dir moved]> left, Some (FileNotFoundError routing_output))
      | Some r =>
          (<[out_dir := Dir (<[routing_output := r]> moved)]> (delete routing_output left), None)
      end
  end.

End SaveOutput.

(** A working directory after an iteration. *)
Definition ex_workdir : gmap string SaveOutput.node :=
  {[ "cat-1.csv" := SaveOutput.File "runoff";
     "nex-2.csv" := SaveOutput.File "lateral";
     "flowveldepth_Ngen.csv" := SaveOutput.File "routing";
     "realization.json" := SaveOutput.File "{}" ]}.

(** ** The crosswalk of the legacy GeoJSON hydrofabric *)

Module LegacyCrosswalk.

(** The value of [Gage_no] in an entry of the crosswalk file: a text or a
    list of texts. *)
Inductive gage_no : Type :=
| Text (s : string)
| Texts (l : list string).

(** [if gage:] *)
Definition truthy (gage : gage_no) : bool :=
  match gage with
  | Text EmptyString | Texts [] => false
  | _ => true
  end.

(** The body of the loop (lines 270-275) for [values.get('Gage_no')], which
    is [None] when the key is absent or null: the gauge to store, if any. *)
Definition stored (gage : option gage_no) : option string :=
  match gage with
  | None => None
  | Some gage =>
      if truthy gage then
        let gage := match gage with Text s => s | Texts l => hd EmptyString l end in
        if String.eqb gage EmptyString then None else Some gage
      else None
  end.

(** [series[id] = gage]: the value of an existing label is replaced, a new
    label is added at the end. *)
Fixpoint setitem (series : list (string * string)) (id gage : string) : list (string * string) :=
  match series with
  | [] => [(id, gage)]
  | (k, v) :: rest =>
      if String.eqb k id then (k, gage) :: rest else (k, v) :: setitem rest id gage
  end.

(** The loop over [data.items()], from the series [x_walk]. *)
Fixpoint fill (data : list (string * option gage_no)) (x_walk : list (string * string))
  : list (string * string) :=
  match data with
  | [] => x_walk
  | (id, gage) :: rest =>
      match stored gage with
      | Some g => fill rest (setitem x_walk id g)
      | None => fill rest x_walk
      end
  end.

(** [self._x_walk] after [_read_legacy_geojson_hydrofabric]; [data] is the
    object of the crosswalk file, a key occurring once. *)
Definition _x_walk (data : list (string * option gage_no)) : list (string * string) :=
  fill data [].

End LegacyCrosswalk.

(** * Properties *)

Example hf_version_newest_pair :
  Hydrofabric._hf_version {["flowpaths"; "flowpath-attributes"]} = Py.ok Hydrofabric.HF_2_2.
Proof. vm_compute. reflexivity. Qed.

Example suffix_is_last_extension : Str.suffix "out/troute.Output.CSV" = ".CSV". Proof. reflexivity. Qed.
Example int_of_catchment_suffix : Str.int (Str.drop 4 "cat-0012_3 ") = Some 123. Proof. reflexivity. Qed.
Example replace_all_occurrences : Str.replace "wb-12wb" "wb" "cat" = "cat-12cat". Proof. reflexivity. Qed.
Example header_is_first_line_stripped : Str.strip (Str.readline " a,b
c") = "a,b". Proof. reflexivity. Qed.
Example contains_finds_substring : Str.contains "t0" ",,t0,time" = true. Proof. reflexivity. Qed.
Example suffix_needs_stem_and_extension : Str.suffix ".bashrc" = "" /\ Str.suffix "a/b." = "" /\ Str.suffix "a.d/b" = "". Proof. repeat split; reflexivity. Qed.

(** ** Schema detection *)

Section HfVersion.
Import Py Hydrofabric.

Lemma hf_version_pairs :
  _hf_version {["flowpaths"; "flowpath_attributes"]} = ok HF_2_0 /\
  _hf_version {["flowlines"; "flowpath-attributes"]} = ok HF_2_1 /\
  _hf_version {["flowpaths"; "flowpath-attributes"]} = ok HF_2_2.
Proof. repeat split; vm_compute; reflexivity. Qed.

Lemma hf_version_too_few (values : gset string) :
  (size values < 2)%nat ->
  _hf_version values =
    raise AssertionError "expect at least two table names that start with 'flow'".
Proof.
  intros Hlt. unfold _hf_version.
  rewrite bool_decide_eq_false_2 by lia. reflexivity.
Qed.

Lemma hf_version_unknown (values : gset string) :
  (2 <= size values)%nat ->
  values <> {["flowpaths"; "flowpath_attributes"]} ->
  values <> {["flowlines"; "flowpath-attributes"]} ->
  values <> {["flowpaths"; "flowpath-attributes"]} ->
  _hf_version values =
    raise KeyError "could not determine HF version. debug information: ".
Proof.
  intros Hge H0 H1 H2. unfold _hf_version.
  rewrite bool_decide_eq_true_2 by lia. cbn [assert bind].
  rewrite !bool_decide_eq_false_2 by congruence. reflexivity.
Qed.

Lemma hf_version_ok_inv (values : gset string) (v : _HFVersion) :
  _hf_version values = ok v ->
  values = match v with
           | HF_2_0 => {["flowpaths"; "flowpath_attributes"]}
           | HF_2_1 => {["flowlines"; "flowpath-attributes"]}
           | HF_2_2 => {["flowpaths"; "flowpath-attributes"]}
           end.
Proof.
  unfold _hf_version. case_bool_decide; cbn [assert bind ok raise]; [|discriminate].
  repeat case_bool_decide; intros [= <-]; subst; reflexivity.
Qed.

End HfVersion.

(** C3, as stated: the detection fails with one error class of its own, the
    same when fewer than two candidate tables are found and when the set of
    names matches none of the three pairs. No such class exists: the first
    failure is an [AssertionError], the second a [KeyError]. *)
Lemma C3_no_single_detection_error :
  ~ exists c : Py.exn_class,
      forall values : gset string,
        (size values < 2)%nat \/
        (values <> {["flowpaths"; "flowpath_attributes"]} /\
         values <> {["flowlines"; "flowpath-attributes"]} /\
         values <> {["flowpaths"; "flowpath-attributes"]}) ->
        Py.raises (Hydrofabric._hf_version values) c.
Proof.
  intros [c Hc].
  destruct (Hc ∅) as [m0 H0]; [left; vm_compute; lia|].
  destruct (Hc {["flowlines"; "flowpaths"]}) as [m1 H1].
  { right. repeat split; apply (proj1 (bool_decide_eq_false _)); vm_compute; reflexivity. }
  vm_compute in H0, H1. congruence.
Qed.

(** C3, amended: each of the three known pairs of table names gives its own
    generation; with fewer than two candidate tables the detection fails with an
    [AssertionError]; with two or more that equal none of the three pairs it
    fails with a [KeyError]; and it succeeds on nothing but the three pairs. *)
Theorem C3_hf_version_detection :
  (Hydrofabric._hf_version {["flowpaths"; "flowpath_attributes"]} = Py.ok Hydrofabric.HF_2_0 /\
   Hydrofabric._hf_version {["flowlines"; "flowpath-attributes"]} = Py.ok Hydrofabric.HF_2_1 /\
   Hydrofabric._hf_version {["flowpaths"; "flowpath-attributes"]} = Py.ok Hydrofabric.HF_2_2) /\
  (forall values : gset string,
      (size values < 2)%nat ->
      Py.raises (Hydrofabric._hf_version values) Py.AssertionError) /\
  (forall values : gset string,
      (2 <= size values)%nat ->
      values <> {["flowpaths"; "flowpath_attributes"]} ->
      values <> {["flowlines"; "flowpath-attributes"]} ->
      values <> {["flowpaths"; "flowpath-attributes"]} ->
      Py.raises (Hydrofabric._hf_version values) Py.KeyError) /\
  (forall (values : gset string) (v : Hydrofabric._HFVersion),
      Hydrofabric._hf_version values = Py.ok v ->
      values = match v with
               | Hydrofabric.HF_2_0 => {["flowpaths"; "flowpath_attributes"]}
               | Hydrofabric.HF_2_1 => {["flowlines"; "flowpath-attributes"]}
               | Hydrofabric.HF_2_2 => {["flowpaths"; "flowpath-attributes"]}
               end).
Proof.
  split; [exact hf_version_pairs|]. split; [|split].
  - intros values H. eexists. apply hf_version_too_few, H.
  - intros values H H0 H1 H2. eexists. apply hf_version_unknown; assumption.
  - exact hf_version_ok_inv.
Qed.

Lemma C3_hf_version_detection_witness :
  Py.raises (Hydrofabric._hf_version {["flowpaths"]}) Py.AssertionError /\
  Py.raises (Hydrofabric._hf_version {["flowpaths"; "flowlines"]}) Py.KeyError.
Proof.
  split.
  - apply (proj1 (proj2 C3_hf_version_detection)). vm_compute. lia.
  - apply (proj1 (proj2 (proj2 C3_hf_version_detection)));
      [vm_compute; lia| | |];
      apply (proj1 (bool_decide_eq_false _)); vm_compute; reflexivity.
Defined.

(** ** Validation of the configuration *)

Section Validation.
Import Py Config.
Variable resolve : Str.Path -> Str.Path.
Variable environ_eval_feature : option string.
Variable read_realization : Str.Path -> result NgenRealization.

Lemma check_for_partitions_keeps (v v' : values) :
  check_for_partitions v = ok v' -> v' = v.
Proof.
  unfold check_for_partitions.
  destruct (parallel v) as [n|], (partitions v); try destruct (1 <? n)%Z;
    unfold ok, raise; congruence.
Qed.

Lemma set_defaults_keeps (v v' : values) :
  set_defaults resolve environ_eval_feature v = ok v' ->
  ngen_realization v' = ngen_realization v /\
  hydrofabric v' = hydrofabric v /\ catchments v' = catchments v /\
  nexus v' = nexus v /\ crosswalk v' = crosswalk v.
Proof.
  unfold set_defaults.
  destruct (args v); [|destruct (hydrofabric v) eqn:Hhf;
                       [|destruct (catchments v) eqn:Hc, (nexus v) eqn:Hn]];
    cbn [bind ok raise]; try discriminate;
    destruct (parallel v), (partitions v); intros [= <-]; cbn; auto.
Qed.

Lemma verify_rejects_output_root (r : NgenRealization) (p : Str.Path) :
  output_root r = Some p ->
  _verify_ngen_realization (Some r) = raise UnsupportedFeatureError output_root_msg.
Proof. intros H. unfold _verify_ngen_realization. rewrite H. reflexivity. Qed.

Lemma validate_model_rejects (v : values) (r : NgenRealization) (p : Str.Path) :
  ngen_realization v = Some r -> output_root r = Some p ->
  _validate_model v =
    match _verify_hydrofabric v with
    | inl e => inl e
    | inr _ => raise UnsupportedFeatureError output_root_msg
    end.
Proof.
  intros Hr Hp. unfold _validate_model. rewrite Hr, (verify_rejects_output_root r p Hp).
  destruct (_verify_hydrofabric v); reflexivity.
Qed.

Lemma validate_rejects (kwargs : values) (r : NgenRealization) (p : Str.Path) :
  ngen_realization kwargs = Some r -> output_root r = Some p ->
  exists e, validate resolve environ_eval_feature kwargs = inl e.
Proof.
  intros Hr Hp. unfold validate.
  destruct (check_for_partitions kwargs) as [e|v] eqn:Hc; cbn [bind]; [eauto|].
  apply check_for_partitions_keeps in Hc; subst v.
  destruct (set_defaults resolve environ_eval_feature kwargs) as [e|v] eqn:Hs; cbn [bind]; [eauto|].
  apply set_defaults_keeps in Hs. destruct Hs as [Hs _].
  rewrite (validate_model_rejects v r p) by congruence.
  destruct (_verify_hydrofabric v); eauto.
Qed.

Lemma validate_unsupported (kwargs v : values) (r : NgenRealization) (p hf : Str.Path) :
  ngen_realization kwargs = Some r -> output_root r = Some p ->
  hydrofabric kwargs = Some hf ->
  check_for_partitions kwargs = ok kwargs ->
  validate resolve environ_eval_feature kwargs = raise UnsupportedFeatureError output_root_msg.
Proof.
  intros Hr Hp Hhf Hc. unfold validate. rewrite Hc. cbn [bind ok].
  destruct (set_defaults resolve environ_eval_feature kwargs) as [e|v'] eqn:Hs.
  - exfalso. revert Hs. unfold set_defaults. rewrite Hhf.
    destruct (args kwargs); cbn [bind ok]; destruct (parallel kwargs), (partitions kwargs);
      discriminate.
  - cbn [bind]. apply set_defaults_keeps in Hs. destruct Hs as (Hs1 & Hs2 & _).
    rewrite (validate_model_rejects v' r p) by congruence.
    unfold _verify_hydrofabric. rewrite Hs2, Hhf. reflexivity.
Qed.

Lemma validate_accepts (kwargs self : values) :
  validate resolve environ_eval_feature kwargs = ok self ->
  _verify_ngen_realization (ngen_realization kwargs) = ok tt.
Proof.
  unfold validate.
  destruct (check_for_partitions kwargs) as [e|v] eqn:Hc; cbn [bind]; [discriminate|].
  apply check_for_partitions_keeps in Hc; subst v.
  destruct (set_defaults resolve environ_eval_feature kwargs) as [e|v] eqn:Hs; cbn [bind];
    [discriminate|].
  apply set_defaults_keeps in Hs. destruct Hs as [Hs _]. rewrite <- Hs.
  unfold _validate_model.
  destruct (_verify_hydrofabric v) as [e|[]]; cbn [bind]; [discriminate|].
  destruct (_verify_ngen_realization (ngen_realization v)) as [e|[]]; cbn [bind];
    [discriminate|reflexivity].
Qed.

(** X10: a realization handed over under the keyword [ngen_realization] whose
    [output_root] is set is rejected by the validation.
    [_verify_ngen_realization] raises [UnsupportedFeatureError];
    [_validate_model] never accepts it, and raises that error as soon as a
    hydrofabric source is given; the validation as a whole fails, so that
    [NgenBase.__init__] stops before its first effect: nothing is copied,
    registered or read, whatever the realization file holds. *)
Theorem keyword_realization_is_verified
    (tables : Str.Path -> gset string) (kwargs : values) (r : NgenRealization) (p : Str.Path) :
  ngen_realization kwargs = Some r ->
  output_root r = Some p ->
  _verify_ngen_realization (Some r) = raise UnsupportedFeatureError output_root_msg /\
  (exists e, _validate_model kwargs = inl e) /\
  (_verify_hydrofabric kwargs = ok tt ->
   _validate_model kwargs = raise UnsupportedFeatureError output_root_msg) /\
  (exists e, __init__ resolve environ_eval_feature read_realization tables kwargs = ([], inl e)) /\
  (forall hf, hydrofabric kwargs = Some hf ->
     check_for_partitions kwargs = ok kwargs ->
     __init__ resolve environ_eval_feature read_realization tables kwargs
       = ([], raise UnsupportedFeatureError output_root_msg)).
Proof.
  intros Hr Hp. split; [exact (verify_rejects_output_root r p Hp)|].
  split; [|split; [|split]].
  - rewrite (validate_model_rejects kwargs r p Hr Hp).
    destruct (_verify_hydrofabric kwargs); eauto.
  - intros Hv. rewrite (validate_model_rejects kwargs r p Hr Hp), Hv. reflexivity.
  - destruct (validate_rejects kwargs r p Hr Hp) as [e He].
    exists e. unfold __init__. rewrite He. reflexivity.
  - intros hf Hhf Hc. unfold __init__.
    rewrite (validate_unsupported kwargs kwargs r p hf Hr Hp Hhf Hc). reflexivity.
Qed.

(** C9: the realization read from the file is not verified. Whenever the
    validation of the keywords passes and the hydrofabric is read,
    [NgenBase.__init__] copies the file, registers the plugins, reads the
    hydrofabric, and assigns the realization of the file to
    [ngen_realization] as it is: with [output_root] set in the file the
    construction succeeds, and the object it leaves holds a realization that
    [_verify_ngen_realization] itself refuses. The validation has accepted the
    keyword, which is [None] or a realization without [output_root], before
    the file is opened. *)
Theorem C9_realization_file_is_not_verified
    (tables : Str.Path -> gset string) (kwargs self : values) (r : NgenRealization)
    (p : Str.Path) (read : effect) :
  validate resolve environ_eval_feature kwargs = ok self ->
  match hydrofabric self with
  | Some hf => exists version,
      Hydrofabric._hf_version (tables hf) = ok version /\ read = ReadGeopackage version
  | None =>
      catchments self <> None /\ nexus self <> None /\ crosswalk self <> None /\
      read = ReadGeojson
  end ->
  read_realization (realization self) = ok r ->
  output_root r = Some p ->
  __init__ resolve environ_eval_feature read_realization tables kwargs
    = ([CopyRealization (realization self); RegisterDefaultPlugins; read;
        LoadRealization (realization self)],
       ok (with_ngen_realization self r)) /\
  ngen_realization (with_ngen_realization self r) = Some r /\
  _verify_ngen_realization (ngen_realization (with_ngen_realization self r))
    = raise UnsupportedFeatureError output_root_msg /\
  _verify_ngen_realization (ngen_realization kwargs) = ok tt.
Proof.
  intros Hv Hhf Hfile Hp. split; [|split; [reflexivity|split]].
  - unfold __init__. unfold ok in Hv. rewrite Hv. cbv beta iota zeta.
    destruct (hydrofabric self) as [hf|].
    + destruct Hhf as (version & Hver & ->). unfold ok in Hver. rewrite Hver, Hfile.
      reflexivity.
    + destruct Hhf as (Hc & Hn & Hx & ->).
      destruct (catchments self), (nexus self), (crosswalk self); try congruence.
      rewrite Hfile. reflexivity.
  - exact (verify_rejects_output_root r p Hp).
  - exact (validate_accepts kwargs self Hv).
Qed.

End Validation.

Lemma keyword_realization_is_verified_witness :
  Config.__init__ (fun p => p) None ex_output_root_file
    (fun _ => {["flowpaths"; "flowpath-attributes"]}) C9_kwargs
    = ([], Py.raise Py.UnsupportedFeatureError Config.output_root_msg).
Proof.
  refine (proj2 (proj2 (proj2 (proj2
    (keyword_realization_is_verified (fun p => p) None ex_output_root_file
       (fun _ => {["flowpaths"; "flowpath-attributes"]})
       C9_kwargs _ "out" eq_refl eq_refl)))) "conf/hydrofabric.gpkg" eq_refl eq_refl).
Defined.

Lemma C9_realization_file_is_not_verified_witness :
  exists self,
    Config.__init__ (fun p => p) None ex_output_root_file
      (fun _ => {["flowpaths"; "flowpath-attributes"]}) ex_file_kwargs
      = ([Config.CopyRealization "conf/realization.json"; Config.RegisterDefaultPlugins;
          Config.ReadGeopackage Hydrofabric.HF_2_2;
          Config.LoadRealization "conf/realization.json"], Py.ok self) /\
    option_map Config.output_root (Config.ngen_realization self) = Some (Some "out").
Proof.
  eexists. split.
  - refine (proj1 (C9_realization_file_is_not_verified (fun p => p) None ex_output_root_file
                     (fun _ => {["flowpaths"; "flowpath-attributes"]}) ex_file_kwargs
                     _ _ "out" (Config.ReadGeopackage Hydrofabric.HF_2_2) eq_refl _ eq_refl eq_refl)).
    exists Hydrofabric.HF_2_2. split; [vm_compute; reflexivity|reflexivity].
  - reflexivity.
Defined.

(** ** The output hook *)

Section Hook.
Import Py Config Troute.
Variable fs : Str.Path -> option string.
Variable _csv_output_v1 : Str.Path -> NgenRealization -> result OutputFn.
Variable _stream_output_csv_v1 : Str.Path -> result OutputFn.
Variable _stream_output_csv_v2 : Str.Path -> result OutputFn.
Variable _stream_output_netcdf_v1 : Str.Path -> result OutputFn.
Variable _stream_output_parquet_v1 : Str.Path -> result OutputFn.

Let factory :=
  _output_handler_factory fs _csv_output_v1 _stream_output_csv_v1 _stream_output_csv_v2
    _stream_output_netcdf_v1 _stream_output_parquet_v1.
Let hook :=
  get_output fs _csv_output_v1 _stream_output_csv_v1 _stream_output_csv_v2
    _stream_output_netcdf_v1 _stream_output_parquet_v1.

Lemma select_output_none (self : TrouteOutput) :
  exists_ fs (_output_file self) = false ->
  (forall p, _settings self = Some p -> exists_ fs p = false) ->
  select_output fs self = ok None.
Proof.
  intros Hout Hval. unfold select_output.
  destruct (_settings self) as [p|]; [rewrite (Hval p eq_refl)|]; rewrite Hout; reflexivity.
Qed.

(** C10: once the hook is configured with a realization, when the routing
    output file does not exist and no validation output file is configured
    and present, [get_output] returns [None] and raises nothing, whatever the
    nexus. *)
Theorem C10_missing_output_gives_None
    (self : TrouteOutput) (realization : NgenRealization) (nexus : Targets.Nexus) :
  _ngen_realization self = Some realization ->
  exists_ fs (_output_file self) = false ->
  (forall p, _settings self = Some p -> exists_ fs p = false) ->
  hook self nexus = ok None.
Proof.
  intros Hr Hout Hval. unfold hook, get_output.
  rewrite Hr, (select_output_none self Hout Hval). reflexivity.
Qed.

(** The [try] statement: what is raised is the exception of the first
    scenario. *)
Lemma extract_spec (fn : OutputFn) (nexus : Targets.Nexus) :
  extract fn nexus =
    match aggregate_contributing fn nexus with
    | inr ds => ok ds
    | inl e =>
        match nexus_flows fn nexus with
        | inr ds => ok ds
        | inl _ => inl e
        end
    end.
Proof.
  unfold extract, try_except.
  destruct (aggregate_contributing fn nexus); [destruct (nexus_flows fn nexus)|]; reflexivity.
Qed.





End Hook.

(** ** Detection of the output format *)

Section Detection.
Import Py Config Troute.
Variable fs : Str.Path -> option string.
Variable _csv_output_v1 : Str.Path -> NgenRealization -> result OutputFn.
Variable _stream_output_csv_v1 : Str.Path -> result OutputFn.
Variable _stream_output_csv_v2 : Str.Path -> result OutputFn.
Variable _stream_output_netcdf_v1 : Str.Path -> result OutputFn.
Variable _stream_output_parquet_v1 : Str.Path -> result OutputFn.

Let factory :=
  _output_handler_factory fs _csv_output_v1 _stream_output_csv_v1 _stream_output_csv_v2
    _stream_output_netcdf_v1 _stream_output_parquet_v1.
Let csv_factory :=
  _factory_handler_csv fs _csv_output_v1 _stream_output_csv_v1 _stream_output_csv_v2.

Lemma prefix_refl (s : string) : String.prefix s s = true.
Proof.
  induction s as [|c s IH]; [reflexivity|].
  cbn. destruct (ascii_dec c c); [exact IH|congruence].
Qed.

Lemma contains_self (s : string) : Str.contains s s = true.
Proof.
  destruct s as [|c s]; [reflexivity|].
  change (Str.contains (String c s) (String c s))
    with (String.prefix (String c s) (String c s) || Str.contains (String c s) s).
  rewrite prefix_refl. reflexivity.
Qed.

Lemma contains_app (pre s : string) : Str.contains s (pre ++ s) = true.
Proof.
  induction pre as [|c pre IH]; [apply contains_self|].
  change (Str.contains s (String c pre ++ s))
    with (String.prefix s (String c (pre ++ s)) || Str.contains s (pre ++ s)).
  rewrite IH. apply orb_true_r.
Qed.

Lemma factory_unknown_extension (self : TrouteOutput) (output_file : Str.Path) :
  Str.lower (Str.suffix output_file) <> ".csv" ->
  Str.lower (Str.suffix output_file) <> ".nc" ->
  Str.lower (Str.suffix output_file) <> ".parquet" ->
  factory self output_file =
    raise RuntimeError ("unsupported t-route output filetype: " ++ Str.suffix output_file).
Proof.
  intros H1 H2 H3. unfold factory, _output_handler_factory.
  apply String.eqb_neq in H1, H2, H3. rewrite H1, H2, H3. reflexivity.
Qed.

Lemma factory_csv (self : TrouteOutput) (output_file : Str.Path) :
  Str.lower (Str.suffix output_file) = ".csv" ->
  factory self output_file = csv_factory self output_file.
Proof.
  intros H. unfold factory, _output_handler_factory. rewrite H. reflexivity.
Qed.

Lemma csv_unknown_header (self : TrouteOutput) (filepath : Str.Path) (text : string) :
  fs filepath = Some text ->
  Str.startswith (Str.strip (Str.readline text)) csv_v1_prefix = false ->
  Str.contains "t0" (Str.strip (Str.readline text)) = false ->
  Str.contains "current_time" (Str.strip (Str.readline text)) = false ->
  csv_factory self filepath =
    raise RuntimeError ("could not parse t-route csv output file: " ++ filepath).
Proof.
  intros Hfs H1 H2 H3. unfold csv_factory, _factory_handler_csv.
  rewrite Hfs, H1, H2, H3. reflexivity.
Qed.

(** C7, amended: the detection branches on the lowered extension first and,
    for [.csv], on the first line of the file: the quoted-tuple prefix, then
    [t0], then [current_time], in this order. An extension other than [.csv],
    [.nc] and [.parquet] raises a [RuntimeError] whose message names the
    extension; a [.csv] file whose header has none of the three forms raises a
    [RuntimeError] whose message names the path. In neither case is a reader
    called. *)
Theorem C7_format_detection (self : TrouteOutput) (output_file : Str.Path) :
  (Str.lower (Str.suffix output_file) <> ".csv" ->
   Str.lower (Str.suffix output_file) <> ".nc" ->
   Str.lower (Str.suffix output_file) <> ".parquet" ->
   factory self output_file =
     raise RuntimeError ("unsupported t-route output filetype: " ++ Str.suffix output_file) /\
   Str.contains (Str.suffix output_file)
     ("unsupported t-route output filetype: " ++ Str.suffix output_file) = true) /\
  (Str.lower (Str.suffix output_file) = ".nc" ->
   factory self output_file = _stream_output_netcdf_v1 output_file) /\
  (Str.lower (Str.suffix output_file) = ".parquet" ->
   factory self output_file = _stream_output_parquet_v1 output_file) /\
  (forall text header,
      Str.lower (Str.suffix output_file) = ".csv" ->
      fs output_file = Some text ->
      header = Str.strip (Str.readline text) ->
      (Str.startswith header csv_v1_prefix = true ->
       forall realization, _ngen_realization self = Some realization ->
       factory self output_file = _csv_output_v1 output_file realization) /\
      (Str.startswith header csv_v1_prefix = false ->
       Str.contains "t0" header = true ->
       factory self output_file = _stream_output_csv_v1 output_file) /\
      (Str.startswith header csv_v1_prefix = false ->
       Str.contains "t0" header = false ->
       Str.contains "current_time" header = true ->
       factory self output_file = _stream_output_csv_v2 output_file) /\
      (Str.startswith header csv_v1_prefix = false ->
       Str.contains "t0" header = false ->
       Str.contains "current_time" header = false ->
       factory self output_file =
         raise RuntimeError ("could not parse t-route csv output file: " ++ output_file) /\
       Str.contains output_file
         ("could not parse t-route csv output file: " ++ output_file) = true)).
Proof.
  split; [|split; [|split]].
  - intros H1 H2 H3. split; [apply factory_unknown_extension; assumption|apply contains_app].
  - intros H. unfold factory, _output_handler_factory. rewrite H. reflexivity.
  - intros H. unfold factory, _output_handler_factory. rewrite H. reflexivity.
  - intros text header Hcsv Hfs ->. rewrite (factory_csv self output_file Hcsv).
    unfold csv_factory, _factory_handler_csv. rewrite Hfs.
    split; [|split; [|split]].
    + intros H1 realization Hr. rewrite H1, Hr. reflexivity.
    + intros H1 H2. rewrite H1, H2. reflexivity.
    + intros H1 H2 H3. rewrite H1, H2, H3. reflexivity.
    + intros H1 H2 H3. rewrite H1, H2, H3. split; [reflexivity|apply contains_app].
Qed.

End Detection.

(** ** The hook on the sample routing output *)

Lemma C10_missing_output_gives_None_witness :
  ex_get_output (ex_hook "run/absent.csv" None) (ex_nexus "nex-9" ["cat-1"]) = Py.ok None.
Proof.
  apply (C10_missing_output_gives_None ex_disk (fun p _ => ex_no_reader p) ex_no_reader
           ex_stream_v2 ex_no_reader ex_no_reader
           (ex_hook "run/absent.csv" None) ex_realization (ex_nexus "nex-9" ["cat-1"]));
    [reflexivity|reflexivity|intros p; discriminate].
Defined.


Example C4_fallback_used :
  ex_get_output (ex_hook "flowveldepth_Ngen.csv" None) (ex_nexus "nex-2" ["cat-1"; "cat-5"])
    = Py.ok (Some (ex_constant 3600 3600 10 2%float)).
Proof. vm_compute. reflexivity. Qed.

(** C7, as stated: the error of an unknown extension names the offending path.
    For [run/troute_output.txt] the message names [.txt] only. *)
Lemma C7_unknown_extension_message_omits_path :
  exists msg,
    ex_factory (ex_hook "run/troute_output.txt" None) "run/troute_output.txt"
      = Py.raise Py.RuntimeError msg /\
    Str.contains "run/troute_output.txt" msg = false /\
    Str.contains "troute_output" msg = false.
Proof.
  exists "unsupported t-route output filetype: .txt". repeat split; vm_compute; reflexivity.
Qed.

Lemma C7_format_detection_witness :
  ex_factory (ex_hook "run/notes.csv" None) "run/notes.csv"
    = Py.raise Py.RuntimeError "could not parse t-route csv output file: run/notes.csv" /\
  ex_factory (ex_hook "run/troute_output.txt" None) "run/troute_output.txt"
    = Py.raise Py.RuntimeError "unsupported t-route output filetype: .txt".
Proof.
  split.
  - refine (proj1 (proj2 (proj2 (proj2 (proj2 (proj2 (proj2
      (C7_format_detection ex_disk (fun p _ => ex_no_reader p) ex_no_reader ex_stream_v2
         ex_no_reader ex_no_reader (ex_hook "run/notes.csv" None) "run/notes.csv")))
      _ _ eq_refl eq_refl eq_refl))) eq_refl eq_refl eq_refl)).
  - refine (proj1 (proj1
      (C7_format_detection ex_disk (fun p _ => ex_no_reader p) ex_no_reader ex_stream_v2
         ex_no_reader ex_no_reader (ex_hook "run/troute_output.txt" None)
         "run/troute_output.txt") _ _ _)); vm_compute; discriminate.
Defined.

(** ** The routing time step *)

Section RoutingTimestep.
Import Py Config Troute.

(** The number of nominal steps in the window, the rows per nominal step and
    the division the function rests on. *)
Lemma routing_timestep_unfold (routing_n_ts : nat) (realization : NgenRealization)
    (ratio quotient remainder : float) :
  PyFloat.true_div (Z.of_nat routing_n_ts)
    (date_range_right_len (start_time (time realization)) (end_time (time realization))
       (output_interval (time realization))) = ok ratio ->
  PyFloat.divmod (PyFloat.of_int (Zpos (output_interval (time realization)))) ratio
    = ok (quotient, remainder) ->
  _routing_timestep_size_s routing_n_ts realization =
    if PrimFloat.eqb remainder PrimFloat.zero then PyFloat.to_int quotient
    else raise AssertionError "routing timestep is not evenly divisible by ngen_timesteps".
Proof.
  intros Hratio Hdiv. unfold _routing_timestep_size_s.
  rewrite Hratio. cbn [bind ok]. rewrite Hdiv. cbn [bind ok].
  destruct (PrimFloat.eqb remainder PrimFloat.zero); reflexivity.
Qed.

(** C5: the routing step is the nominal output interval divided by the number
    of routing rows per nominal step of the simulation window; a remainder of
    that division that is not zero is an assertion failure, a zero remainder
    gives the quotient. For a window of ten hours, a nominal interval of 3600 s
    and 40 routing rows the step is 900 s: the window divided into the 40 rows. *)
Theorem C5_routing_timestep :
  (forall (routing_n_ts : nat) (realization : NgenRealization) (ratio quotient remainder : float),
      PyFloat.true_div (Z.of_nat routing_n_ts)
        (date_range_right_len (start_time (time realization)) (end_time (time realization))
           (output_interval (time realization))) = ok ratio ->
      PyFloat.divmod (PyFloat.of_int (Zpos (output_interval (time realization)))) ratio
        = ok (quotient, remainder) ->
      (PrimFloat.eqb remainder PrimFloat.zero = false ->
       _routing_timestep_size_s routing_n_ts realization =
         raise AssertionError "routing timestep is not evenly divisible by ngen_timesteps") /\
      (PrimFloat.eqb remainder PrimFloat.zero = true ->
       _routing_timestep_size_s routing_n_ts realization = PyFloat.to_int quotient)) /\
  (end_time (time ex_realization) - start_time (time ex_realization) = 10 * 3600)%Z /\
  output_interval (time ex_realization) = 3600%positive /\
  _routing_timestep_size_s 40 ex_realization = ok 900%Z /\
  (900 * 40 = end_time (time ex_realization) - start_time (time ex_realization))%Z.
Proof.
  split; [|repeat split; vm_compute; reflexivity].
  intros routing_n_ts realization ratio quotient remainder Hratio Hdiv.
  rewrite (routing_timestep_unfold _ _ _ _ _ Hratio Hdiv).
  split; intros ->; reflexivity.
Qed.

Lemma C5_routing_timestep_witness :
  _routing_timestep_size_s 7 ex_realization =
    raise AssertionError "routing timestep is not evenly divisible by ngen_timesteps".
Proof.
  refine (proj1 (proj1 C5_routing_timestep 7%nat ex_realization
                   (PrimFloat.div 7%float 10%float)
                   5142%float
                   (PyFloat.fmod 3600%float (PrimFloat.div 7%float 10%float))
                   _ _) _).
  - vm_compute. reflexivity.
  - vm_compute. reflexivity.
  - vm_compute. reflexivity.
Defined.

End RoutingTimestep.

(** ** Aggregation over the contributing catchments *)

Section Aggregation.
Import Py Config Troute.

Lemma iadd_stamps (ds flows : Series.t) : map fst (Series.iadd ds flows) = map fst ds.
Proof. unfold Series.iadd. rewrite map_map. reflexivity. Qed.

Lemma at_time_iadd (ds flows : Series.t) (stamp : Z) (v w : float) :
  Series.at_time ds stamp = Some v ->
  Series.at_time flows stamp = Some w ->
  Series.at_time (Series.iadd ds flows) stamp = Some (PrimFloat.add v w).
Proof.
  intros Hv Hw. induction ds as [|[s x] ds IH]; [discriminate|].
  cbn in Hv |- *. destruct (s =? stamp)%Z eqn:Hs.
  - apply Z.eqb_eq in Hs. subst s. injection Hv as ->. rewrite Hw. reflexivity.
  - exact (IH Hv).
Qed.

Lemma fold_iadd_stamps (ss : list Series.t) :
  forall s0, map fst (fold_left Series.iadd ss s0) = map fst s0.
Proof.
  induction ss as [|s ss IH]; intros s0; [reflexivity|].
  cbn [fold_left]. rewrite IH. apply iadd_stamps.
Qed.

Lemma at_time_fold_iadd (stamp : Z) (ss : list Series.t) :
  forall (s0 : Series.t) (v0 : float) (vs : list float),
    Series.at_time s0 stamp = Some v0 ->
    Forall2 (fun s v => Series.at_time s stamp = Some v) ss vs ->
    Series.at_time (fold_left Series.iadd ss s0) stamp = Some (fold_left PrimFloat.add vs v0).
Proof.
  induction ss as [|s ss IH]; intros s0 v0 vs H0 Hall.
  - apply Forall2_nil_inv_l in Hall. subst vs. exact H0.
  - apply Forall2_cons_inv_l in Hall. destruct Hall as (v & vs' & Hv & Hall & ->).
    cbn [fold_left]. apply IH; [|exact Hall]. apply at_time_iadd; assumption.
Qed.

Lemma fetch_ok (fn : OutputFn) (id : Z) (s : Series.t) :
  fn id = ok s -> s <> [] -> fetch fn id = ok s.
Proof.
  intros Hfn Hne. unfold fetch. rewrite Hfn. cbn [bind ok].
  destruct s; [congruence|reflexivity].
Qed.

Lemma add_flows_sum (fn : OutputFn) (rest : list Targets.Catchment) :
  forall (ss : list Series.t) (ds : Series.t),
    Forall2 (has_series fn) rest ss ->
    add_flows fn rest ds = ok (fold_left Series.iadd ss ds).
Proof.
  induction rest as [|c rest IH]; intros ss ds Hall.
  - apply Forall2_nil_inv_l in Hall. subst ss. reflexivity.
  - apply Forall2_cons_inv_l in Hall.
    destruct Hall as (s & ss' & (id & Hid & Hfn & Hne) & Hall & ->).
    cbn [add_flows]. rewrite Hid. cbn [bind ok].
    rewrite (fetch_ok fn id s Hfn Hne). cbn [bind ok fold_left]. apply IH, Hall.
Qed.

(** C6: when every contributing catchment has a series under the number that
    follows its prefix, the series extracted for the nexus is their sum taken
    stamp by stamp, in the order of the catchments: it has the stamps of the
    first series and, at a stamp all series share, the sum of their values.
    Three catchments with the constant discharges 1.0, 2.0 and 3.0 give the
    constant 6.0. *)
Theorem C6_sum_of_contributing
    (fn : OutputFn) (nexus : Targets.Nexus) (first : Targets.Catchment)
    (rest : list Targets.Catchment) (s0 : Series.t) (ss : list Series.t) :
  Targets.contributing_catchments nexus = first :: rest ->
  has_series fn first s0 ->
  Forall2 (has_series fn) rest ss ->
  extract fn nexus = ok (fold_left Series.iadd ss s0) /\
  map fst (fold_left Series.iadd ss s0) = map fst s0 /\
  (forall (stamp : Z) (v0 : float) (vs : list float),
      Series.at_time s0 stamp = Some v0 ->
      Forall2 (fun s v => Series.at_time s stamp = Some v) ss vs ->
      Series.at_time (fold_left Series.iadd ss s0) stamp
        = Some (fold_left PrimFloat.add vs v0)) /\
  extract ex_flows (ex_nexus "nex-9" ["cat-1"; "cat-2"; "cat-3"])
    = ok (ex_constant 3600 3600 10 6%float).
Proof.
  intros Hc (id0 & Hid0 & Hfn0 & Hne0) Hall. split; [|split; [|split]].
  - rewrite extract_spec. unfold aggregate_contributing. rewrite Hc, Hid0. cbn [bind ok].
    rewrite (fetch_ok fn id0 s0 Hfn0 Hne0). cbn [bind ok].
    rewrite (add_flows_sum fn rest ss s0 Hall). reflexivity.
  - apply fold_iadd_stamps.
  - intros stamp v0 vs. apply at_time_fold_iadd.
  - vm_compute. reflexivity.
Qed.

Lemma C6_sum_of_contributing_witness :
  extract ex_flows (ex_nexus "nex-9" ["cat-1"; "cat-2"; "cat-4"])
    = ok (fold_left Series.iadd [ex_constant 3600 3600 10 2%float; ex_constant 3600 3600 5 4%float]
            (ex_constant 3600 3600 10 1%float)) /\
  Series.at_time
    (fold_left Series.iadd [ex_constant 3600 3600 10 2%float; ex_constant 3600 3600 5 4%float]
       (ex_constant 3600 3600 10 1%float)) 7200
    = Some (fold_left PrimFloat.add [2%float; 4%float] 1%float).
Proof.
  assert (H1 : has_series ex_flows {| Targets.catchment_id := "cat-1" |}
                 (ex_constant 3600 3600 10 1%float))
    by (exists 1%Z; repeat split; discriminate).
  assert (H2 : Forall2 (has_series ex_flows)
                 [ {| Targets.catchment_id := "cat-2" |}; {| Targets.catchment_id := "cat-4" |} ]
                 [ex_constant 3600 3600 10 2%float; ex_constant 3600 3600 5 4%float]).
  { repeat constructor; [exists 2%Z|exists 4%Z]; repeat split; discriminate. }
  pose proof (C6_sum_of_contributing ex_flows (ex_nexus "nex-9" ["cat-1"; "cat-2"; "cat-4"])
                _ _ _ _ eq_refl H1 H2) as (Hsum & _ & Hat & _).
  split; [exact Hsum|].
  apply Hat; [reflexivity|]. repeat constructor.
Defined.

End Aggregation.

(** ** The comparison series *)

Section Comparison.
Import Py Config Troute.
Variable fs : Str.Path -> option string.
Variable _csv_output_v1 : Str.Path -> NgenRealization -> result OutputFn.
Variable _stream_output_csv_v1 : Str.Path -> result OutputFn.
Variable _stream_output_csv_v2 : Str.Path -> result OutputFn.
Variable _stream_output_netcdf_v1 : Str.Path -> result OutputFn.
Variable _stream_output_parquet_v1 : Str.Path -> result OutputFn.

Let factory :=
  _output_handler_factory fs _csv_output_v1 _stream_output_csv_v1 _stream_output_csv_v2
    _stream_output_netcdf_v1 _stream_output_parquet_v1.
Let hook :=
  get_output fs _csv_output_v1 _stream_output_csv_v1 _stream_output_csv_v2
    _stream_output_netcdf_v1 _stream_output_parquet_v1.

Lemma loc_spec (lo hi : Z) (ds : Series.t) (stamp : Z) (v : float) :
  In (stamp, v) (Series.loc lo hi ds) <-> In (stamp, v) ds /\ (lo <= stamp <= hi)%Z.
Proof.
  unfold Series.loc. rewrite filter_In. cbn [fst].
  rewrite andb_true_iff, Z.leb_le, Z.leb_le. tauto.
Qed.

Lemma bucket_aligned (stamp : Z) (k : nat) :
  Series.bucket (Series.bucket stamp + Series.hour * Z.of_nat k)
    = (Series.bucket stamp + Series.hour * Z.of_nat k)%Z.
Proof.
  unfold Series.bucket, Series.hour.
  replace (3600 * (stamp / 3600) + 3600 * Z.of_nat k)%Z
    with ((stamp / 3600 + Z.of_nat k) * 3600)%Z by lia.
  rewrite Z.div_mul by lia. lia.
Qed.

Lemma resample_spec (ds : Series.t) (b : Z) (v : float) :
  In (b, v) (Series.resample_1h_first ds) ->
  Series.bucket b = b /\ v = Series.first_valid (Series.in_bucket b ds).
Proof.
  unfold Series.resample_1h_first. destruct ds as [|[s0 x0] ds']; [intros []|].
  set (ds := (s0, x0) :: ds'). rewrite in_map_iff. intros (k & [= <- <-] & _).
  split; [apply bucket_aligned|reflexivity].
Qed.

Lemma sim_interval_end (self : TrouteOutput) (realization : NgenRealization) (start_ end_ : Z) :
  _ngen_realization self = Some realization ->
  _sim_eval_interval self = ok (start_, end_) ->
  end_ = match _eval_options self with
         | Some {| evaluation_start := Some _; evaluation_stop := Some stop |} => stop
         | _ => end_time (time realization)
         end.
Proof.
  intros Hr. unfold _sim_eval_interval. rewrite Hr.
  destruct (_eval_options self) as [[[start|] [stop|]]|]; unfold ok, raise; congruence.
Qed.

Lemma select_output_end (self : TrouteOutput) (realization : NgenRealization)
    (output_file : Str.Path) (start_ end_ : Z) :
  _ngen_realization self = Some realization ->
  select_output fs self = ok (Some (output_file, (start_, end_))) ->
  (forall p, _settings self = Some p -> exists_ fs p = false) ->
  end_ = match _eval_options self with
         | Some {| evaluation_start := Some _; evaluation_stop := Some stop |} => stop
         | _ => end_time (time realization)
         end.
Proof.
  intros Hr Hsel Hval. unfold select_output in Hsel.
  assert (Hnone : match _settings self with
                  | Some p => if exists_ fs p then Some p else None
                  | None => None
                  end = None)
    by (destruct (_settings self) as [p|]; [rewrite (Hval p eq_refl)|]; reflexivity).
  rewrite Hnone in Hsel. destruct (exists_ fs (_output_file self)); [|discriminate].
  destruct (_sim_eval_interval self) as [e|[s e]] eqn:Hint; [discriminate|].
  cbn in Hsel. injection Hsel as _ <- <-.
  exact (sim_interval_end self realization s e Hr Hint).
Qed.

Lemma stamps_min_le (ds : Series.t) (m0 : Z) :
  (Series.stamps_min m0 ds <= m0)%Z /\
  forall sv, In sv ds -> (Series.stamps_min m0 ds <= fst sv)%Z.
Proof.
  unfold Series.stamps_min. revert m0. induction ds as [|sv0 ds IH]; intros m0; cbn [fold_left].
  - split; [lia|intros sv []].
  - destruct (IH (Z.min m0 (fst sv0))) as [H1 H2]. split; [lia|].
    intros sv [<-|Hin]; [lia|exact (H2 sv Hin)].
Qed.

Lemma stamps_max_ge (ds : Series.t) (m0 : Z) :
  (m0 <= Series.stamps_max m0 ds)%Z /\
  forall sv, In sv ds -> (fst sv <= Series.stamps_max m0 ds)%Z.
Proof.
  unfold Series.stamps_max. revert m0. induction ds as [|sv0 ds IH]; intros m0; cbn [fold_left].
  - split; [lia|intros sv []].
  - destruct (IH (Z.max m0 (fst sv0))) as [H1 H2]. split; [lia|].
    intros sv [<-|Hin]; [lia|exact (H2 sv Hin)].
Qed.

Lemma stamps_min_in (ds : Series.t) (m0 : Z) :
  Series.stamps_min m0 ds = m0 \/ exists sv, In sv ds /\ fst sv = Series.stamps_min m0 ds.
Proof.
  unfold Series.stamps_min. revert m0. induction ds as [|sv0 ds IH]; intros m0; cbn [fold_left].
  - left. reflexivity.
  - destruct (IH (Z.min m0 (fst sv0))) as [H|(sv & Hin & H)].
    + rewrite H. destruct (Z.min_spec m0 (fst sv0)) as [[_ ->]|[_ ->]]; [left; reflexivity|].
      right. exists sv0. split; [left; reflexivity|reflexivity].
    + right. exists sv. split; [right; exact Hin|exact H].
Qed.

Lemma stamps_max_in (ds : Series.t) (m0 : Z) :
  Series.stamps_max m0 ds = m0 \/ exists sv, In sv ds /\ fst sv = Series.stamps_max m0 ds.
Proof.
  unfold Series.stamps_max. revert m0. induction ds as [|sv0 ds IH]; intros m0; cbn [fold_left].
  - left. reflexivity.
  - destruct (IH (Z.max m0 (fst sv0))) as [H|(sv & Hin & H)].
    + rewrite H. destruct (Z.max_spec m0 (fst sv0)) as [[_ ->]|[_ ->]]; [|left; reflexivity].
      right. exists sv0. split; [left; reflexivity|reflexivity].
    + right. exists sv. split; [right; exact Hin|exact H].
Qed.

Lemma bucket_mono (a b : Z) : (a <= b)%Z -> (Series.bucket a <= Series.bucket b)%Z.
Proof.
  intros H. unfold Series.bucket, Series.hour.
  pose proof (Z.div_le_mono a b 3600 ltac:(lia) H). lia.
Qed.

Lemma bucket_below (a : Z) : (Series.bucket a <= a)%Z.
Proof.
  unfold Series.bucket, Series.hour. pose proof (Z.mul_div_le a 3600 ltac:(lia)). lia.
Qed.

(** The rows of the sampled series stand one hour apart. *)
Lemma resample_cadence (ds : Series.t) :
  exists first n,
    map fst (Series.resample_1h_first ds)
      = map (fun k => (first + Series.hour * Z.of_nat k)%Z) (seq 0 n).
Proof.
  unfold Series.resample_1h_first. destruct ds as [|[s0 x0] ds'].
  - exists 0%Z, 0%nat. reflexivity.
  - cbv zeta. rewrite map_map. cbn [fst]. eauto.
Qed.

(** The hours of the sampled series: every hour from the hour of the earliest
    stamp to the hour of the latest. *)
Lemma resample_hours (ds : Series.t) (b : Z) :
  In b (map fst (Series.resample_1h_first ds)) <->
  Series.bucket b = b /\
  exists sv1 sv2, In sv1 ds /\ In sv2 ds /\
                  (Series.bucket (fst sv1) <= b <= Series.bucket (fst sv2))%Z.
Proof.
  unfold Series.resample_1h_first. destruct ds as [|[s0 x0] ds'].
  - cbn. split; [intros []|intros (_ & sv1 & _ & [] & _)].
  - set (ds := (s0, x0) :: ds'). cbv zeta. rewrite map_map. cbn [fst].
    set (lo := Series.bucket (Series.stamps_min s0 ds)).
    set (hi := Series.bucket (Series.stamps_max s0 ds)).
    assert (Hmin : exists sv, In sv ds /\ fst sv = Series.stamps_min s0 ds).
    { destruct (stamps_min_in ds s0) as [H|H]; [|exact H].
      exists (s0, x0). split; [left; reflexivity|symmetry; exact H]. }
    assert (Hmax : exists sv, In sv ds /\ fst sv = Series.stamps_max s0 ds).
    { destruct (stamps_max_in ds s0) as [H|H]; [|exact H].
      exists (s0, x0). split; [left; reflexivity|symmetry; exact H]. }
    assert (Hlohi : (lo <= hi)%Z).
    { apply bucket_mono. pose proof (proj1 (stamps_min_le ds s0)).
      pose proof (proj1 (stamps_max_ge ds s0)). lia. }
    assert (Hlo : (lo = Series.hour * (Series.stamps_min s0 ds / Series.hour))%Z) by reflexivity.
    assert (Hhi : (hi = Series.hour * (Series.stamps_max s0 ds / Series.hour))%Z) by reflexivity.
    unfold Series.hour in *.
    rewrite in_map_iff. split.
    + intros (k & <- & Hk). apply in_seq in Hk. split.
      * apply (bucket_aligned (Series.stamps_min s0 ds) k).
      * destruct Hmin as (sv1 & H1 & E1), Hmax as (sv2 & H2 & E2).
        exists sv1, sv2. rewrite E1, E2. fold lo. fold hi. split; [exact H1|]. split; [exact H2|].
        pose proof (Z.div_pos (hi - lo) 3600 ltac:(lia) ltac:(lia)) as Hq0.
        assert (Z.of_nat k <= (hi - lo) / 3600)%Z
          by (destruct Hk as [_ Hk]; apply Nat2Z.inj_lt in Hk;
              rewrite !Nat2Z.inj_add, Z2Nat.id in Hk by exact Hq0; lia).
        assert ((hi - lo) / 3600 = Series.stamps_max s0 ds / 3600 - Series.stamps_min s0 ds / 3600)%Z.
        { rewrite Hlo, Hhi.
          replace (3600 * (Series.stamps_max s0 ds / 3600) - 3600 * (Series.stamps_min s0 ds / 3600))%Z
            with ((Series.stamps_max s0 ds / 3600 - Series.stamps_min s0 ds / 3600) * 3600)%Z by lia.
          apply Z.div_mul. lia. }
        lia.
    + intros (Hb & sv1 & sv2 & H1 & H2 & Hle).
      pose proof (bucket_mono _ _ (proj2 (stamps_min_le ds s0) sv1 H1)) as Hge.
      pose proof (bucket_mono _ _ (proj2 (stamps_max_ge ds s0) sv2 H2)) as Hle2.
      fold lo in Hge. fold hi in Hle2.
      unfold Series.bucket, Series.hour in Hb.
      exists (Z.to_nat (b / 3600 - Series.stamps_min s0 ds / 3600)).
      assert (Hq : (Series.stamps_min s0 ds / 3600 <= b / 3600
                    <= Series.stamps_max s0 ds / 3600)%Z) by lia.
      split; [rewrite Z2Nat.id by lia; lia|].
      apply in_seq.
      assert ((hi - lo) / 3600 = Series.stamps_max s0 ds / 3600 - Series.stamps_min s0 ds / 3600)%Z.
      { rewrite Hlo, Hhi.
        replace (3600 * (Series.stamps_max s0 ds / 3600) - 3600 * (Series.stamps_min s0 ds / 3600))%Z
          with ((Series.stamps_max s0 ds / 3600 - Series.stamps_min s0 ds / 3600) * 3600)%Z by lia.
        apply Z.div_mul. lia. }
      lia.
Qed.

(** [first()]: the first value of the hour that is not missing, and a missing
    value when the hour has none. *)
Lemma first_valid_spec (ds : Series.t) (b : Z) :
  (PrimFloat.is_nan (Series.first_valid (Series.in_bucket b ds)) = true /\
   forall t x, In (t, x) ds -> Series.bucket t = b -> PrimFloat.is_nan x = true) \/
  (PrimFloat.is_nan (Series.first_valid (Series.in_bucket b ds)) = false /\
   exists before after t,
     ds = (before ++ (t, Series.first_valid (Series.in_bucket b ds)) :: after)%list /\
     Series.bucket t = b /\
     forall t' x', In (t', x') before -> Series.bucket t' = b -> PrimFloat.is_nan x' = true).
Proof.
  unfold Series.in_bucket. induction ds as [|[t0 x0] ds IH]; cbn [List.filter map fst].
  - left. split; [reflexivity|intros t x []].
  - destruct (Series.bucket t0 =? b)%Z eqn:Hb0.
    + apply Z.eqb_eq in Hb0. cbn [map snd Series.first_valid].
      destruct (PrimFloat.is_nan x0) eqn:Hx0.
      * destruct IH as [[Hn Hall]|(Hn & before & after & t & Hds & Hbt & Hbefore)].
        -- left. split; [exact Hn|]. intros t x [[= <- <-]|Hin] Hbt; [exact Hx0|eauto].
        -- right. split; [exact Hn|]. exists ((t0, x0) :: before), after, t.
           split; [cbn; f_equal; exact Hds|]. split; [exact Hbt|].
           intros t' x' [[= <- <-]|Hin] Hbt'; [exact Hx0|eauto].
      * right. split; [exact Hx0|]. exists [], ds, t0.
        split; [reflexivity|]. split; [exact Hb0|]. intros t' x' [].
    + apply Z.eqb_neq in Hb0.
      destruct IH as [[Hn Hall]|(Hn & before & after & t & Hds & Hbt & Hbefore)].
      * left. split; [exact Hn|]. intros t x [[= <- <-]|Hin] Hbt; [congruence|eauto].
      * right. split; [exact Hn|]. exists ((t0, x0) :: before), after, t.
        split; [cbn; f_equal; exact Hds|]. split; [exact Hbt|].
        intros t' x' [[= <- <-]|Hin] Hbt'; [congruence|eauto].
Qed.

(** A place in a filtered list is a place in the list. *)
Lemma filter_split {A} (f : A -> bool) (l l1 l2 : list A) (x : A) :
  List.filter f l = (l1 ++ x :: l2)%list ->
  exists l1' l2', l = (l1' ++ x :: l2')%list /\ List.filter f l1' = l1 /\ f x = true.
Proof.
  revert l1. induction l as [|a l IH]; intros l1; cbn [List.filter].
  - destruct l1; discriminate.
  - destruct (f a) eqn:Hfa.
    + destruct l1 as [|y l1]; cbn [app].
      * intros [= -> Hl]. exists [], l. split; [reflexivity|]. split; [reflexivity|exact Hfa].
      * intros [= -> Hl]. destruct (IH l1 Hl) as (l1' & l2' & -> & H1 & Hx).
        exists (y :: l1'), l2'. split; [reflexivity|]. split; [|exact Hx].
        cbn [List.filter]. rewrite Hfa, H1. reflexivity.
    + intros Hl. destruct (IH l1 Hl) as (l1' & l2' & -> & H1 & Hx).
      exists (a :: l1'), l2'. split; [reflexivity|]. split; [|exact Hx].
      cbn [List.filter]. rewrite Hfa. exact H1.
Qed.

(** The value of a row of the sampled slice, read on the series itself. *)
Lemma resample_first_of_hour (lo hi : Z) (ds : Series.t) (b : Z) (v : float) :
  In (b, v) (Series.resample_1h_first (Series.loc lo hi ds)) ->
  (PrimFloat.is_nan v = true /\
   forall t x, In (t, x) ds -> (lo <= t <= hi)%Z -> Series.bucket t = b ->
               PrimFloat.is_nan x = true) \/
  (PrimFloat.is_nan v = false /\
   exists before after t,
     ds = (before ++ (t, v) :: after)%list /\ (lo <= t <= hi)%Z /\ Series.bucket t = b /\
     forall t' x', In (t', x') before -> (lo <= t' <= hi)%Z -> Series.bucket t' = b ->
                   PrimFloat.is_nan x' = true).
Proof.
  intros Hin. destruct (resample_spec _ b v Hin) as [_ ->].
  destruct (first_valid_spec (Series.loc lo hi ds) b)
    as [[Hn Hall]|(Hn & before & after & t & Hds & Hbt & Hbefore)].
  - left. split; [exact Hn|]. intros t x Hx Hk Hbt.
    apply (Hall t x); [apply loc_spec; split; assumption|exact Hbt].
  - right. split; [exact Hn|].
    unfold Series.loc in Hds at 1. apply filter_split in Hds.
    destruct Hds as (l1 & l2 & Hds & Hl1 & Hk). cbn [fst] in Hk.
    apply andb_true_iff in Hk. rewrite !Z.leb_le in Hk.
    exists l1, l2, t. split; [exact Hds|]. split; [exact Hk|]. split; [exact Hbt|].
    intros t' x' Hin' Hk' Hbt'. apply (Hbefore t' x'); [|exact Hbt'].
    rewrite <- Hl1. apply filter_In. split; [exact Hin'|]. cbn [fst].
    apply andb_true_iff. rewrite !Z.leb_le. exact Hk'.
Qed.

(** The file and the interval the hook chooses. *)
Lemma select_output_choice (self : TrouteOutput) (realization : NgenRealization)
    (output_file : Str.Path) (start_ end_ : Z) :
  _ngen_realization self = Some realization ->
  select_output fs self = ok (Some (output_file, (start_, end_))) ->
  let sim_end :=
    match _eval_options self with
    | Some {| evaluation_start := Some _; evaluation_stop := Some stop |} => stop
    | _ => end_time (time realization)
    end in
  (forall p, _settings self = Some p -> exists_ fs p = true ->
     output_file = p /\
     end_ = match _validation_options self with
            | Some options => snd (evaluation_interval options)
            | None => sim_end
            end) /\
  ((forall p, _settings self = Some p -> exists_ fs p = false) ->
   output_file = _output_file self /\ exists_ fs (_output_file self) = true /\ end_ = sim_end).
Proof.
  intros Hr Hsel. cbv zeta. unfold select_output in Hsel. split.
  - intros p Hp Hex. rewrite Hp, Hex in Hsel. unfold _validation_eval_interval in Hsel.
    destruct (_validation_options self) as [options|].
    + cbn [bind ok] in Hsel. injection Hsel as <- Hi. rewrite Hi. auto.
    + destruct (_sim_eval_interval self) as [e|[s e]] eqn:Hint; [discriminate|].
      cbn in Hsel. injection Hsel as <- <- <-. split; [reflexivity|].
      exact (sim_interval_end self realization s e Hr Hint).
  - intros Hval.
    assert (Hnone : match _settings self with
                    | Some p => if exists_ fs p then Some p else None
                    | None => None
                    end = None)
      by (destruct (_settings self) as [p|]; [rewrite (Hval p eq_refl)|]; reflexivity).
    rewrite Hnone in Hsel. destruct (exists_ fs (_output_file self)); [|discriminate].
    destruct (_sim_eval_interval self) as [e|[s e]] eqn:Hint; [discriminate|].
    cbn in Hsel. injection Hsel as <- <- <-. split; [reflexivity|]. split; [reflexivity|].
    exact (sim_interval_end self realization s e Hr Hint).
Qed.

(** C8, amended: the series the hook returns is the extracted series cut to
    the closed interval from the simulation start plus one nominal output
    interval to the end of the evaluation interval in force, and then sampled
    by the hour: the rows stand one hour apart, at the start of every hour
    from the hour of the first stamp kept to the hour of the last, and each
    holds the first value of its hour, in the order of the series, that is not
    missing (a missing value when the hour has none). When the simulation
    output is read, the end of the interval is [evaluation_stop] if an
    evaluation window is configured and the simulation end otherwise; when the
    validation output is read it is the end of the interval of the validation
    options, and without validation options the same end as for the
    simulation output. *)
Theorem C8_comparison_series
    (self : TrouteOutput) (realization : NgenRealization) (nexus : Targets.Nexus)
    (output_file : Str.Path) (start_ end_ : Z) (fn : OutputFn) (ds : Series.t) :
  _ngen_realization self = Some realization ->
  select_output fs self = ok (Some (output_file, (start_, end_))) ->
  factory self output_file = ok fn ->
  extract fn nexus = ok ds ->
  hook self nexus =
    ok (Some (Series.resample_1h_first
                (Series.loc (start_time (time realization)
                               + Zpos (output_interval (time realization))) end_ ds))) /\
  (forall stamp v,
      In (stamp, v) (Series.loc (start_time (time realization)
                                   + Zpos (output_interval (time realization))) end_ ds) <->
      In (stamp, v) ds /\
      (start_time (time realization) + Zpos (output_interval (time realization)) <= stamp <= end_)%Z) /\
  (forall b v,
      In (b, v) (Series.resample_1h_first
                   (Series.loc (start_time (time realization)
                                  + Zpos (output_interval (time realization))) end_ ds)) ->
      Series.bucket b = b /\
      v = Series.first_valid
            (Series.in_bucket b
               (Series.loc (start_time (time realization)
                              + Zpos (output_interval (time realization))) end_ ds))) /\
  ((forall p, _settings self = Some p -> exists_ fs p = false) ->
   end_ = match _eval_options self with
          | Some {| evaluation_start := Some _; evaluation_stop := Some stop |} => stop
          | _ => end_time (time realization)
          end) /\
  (forall out, hook self nexus = ok (Some out) ->
     let first_out := (start_time (time realization)
                         + Zpos (output_interval (time realization)))%Z in
     (exists first n,
         map fst out = map (fun k => (first + 3600 * Z.of_nat k)%Z) (seq 0 n)) /\
     (forall b,
         In b (map fst out) <->
         (3600 * (b / 3600) = b)%Z /\
         exists t1 v1 t2 v2,
           In (t1, v1) ds /\ (first_out <= t1 <= end_)%Z /\
           In (t2, v2) ds /\ (first_out <= t2 <= end_)%Z /\
           (3600 * (t1 / 3600) <= b <= 3600 * (t2 / 3600))%Z) /\
     (forall b v,
         In (b, v) out ->
         (PrimFloat.is_nan v = true /\
          forall t x, In (t, x) ds -> (first_out <= t <= end_)%Z ->
                      (3600 * (t / 3600))%Z = b -> PrimFloat.is_nan x = true) \/
         (PrimFloat.is_nan v = false /\
          exists before after t,
            ds = (before ++ (t, v) :: after)%list /\
            (first_out <= t <= end_)%Z /\ (3600 * (t / 3600))%Z = b /\
            forall t' x', In (t', x') before -> (first_out <= t' <= end_)%Z ->
                          (3600 * (t' / 3600))%Z = b -> PrimFloat.is_nan x' = true))) /\
  (forall p, _settings self = Some p -> exists_ fs p = true ->
     output_file = p /\
     end_ = match _validation_options self with
            | Some options => snd (evaluation_interval options)
            | None =>
                match _eval_options self with
                | Some {| evaluation_start := Some _; evaluation_stop := Some stop |} => stop
                | _ => end_time (time realization)
                end
            end) /\
  ((forall p, _settings self = Some p -> exists_ fs p = false) ->
   output_file = _output_file self).
Proof.
  intros Hr Hsel Hfn Hds.
  assert (Hhook : hook self nexus =
    ok (Some (Series.resample_1h_first
                (Series.loc (start_time (time realization)
                               + Zpos (output_interval (time realization))) end_ ds)))).
  { unfold hook, get_output. rewrite Hr, Hsel. cbn [bind ok].
    unfold factory in Hfn. rewrite Hfn. cbn [bind ok]. rewrite Hds. reflexivity. }
  destruct (select_output_choice self realization output_file start_ end_ Hr Hsel)
    as [Hvalidation Hsim].
  split; [exact Hhook|]. split; [intros stamp v; apply loc_spec|].
  split; [intros b v; apply resample_spec|].
  split; [exact (select_output_end self realization output_file start_ end_ Hr Hsel)|].
  split; [|split; [exact Hvalidation|intros Hval; exact (proj1 (Hsim Hval))]].
  intros out Hout. rewrite Hhook in Hout. injection Hout as <-. cbv zeta.
  set (lo := (start_time (time realization) + Zpos (output_interval (time realization)))%Z).
  split; [|split].
  - exact (resample_cadence (Series.loc lo end_ ds)).
  - intros b. rewrite resample_hours. unfold Series.bucket, Series.hour. split.
    + intros (Hb & [t1 v1] & [t2 v2] & H1 & H2 & Hle). cbn [fst] in Hle.
      apply loc_spec in H1, H2. split; [exact Hb|].
      exists t1, v1, t2, v2. tauto.
    + intros (Hb & t1 & v1 & t2 & v2 & H1 & K1 & H2 & K2 & Hle). split; [exact Hb|].
      exists (t1, v1), (t2, v2). cbn [fst].
      split; [apply loc_spec; tauto|]. split; [apply loc_spec; tauto|exact Hle].
  - intros b v Hin. exact (resample_first_of_hour lo end_ ds b v Hin).
Qed.

End Comparison.

(** C8, as stated: the series is cut at the simulation end. With an evaluation
    window that stops after five of the ten hours, the hook returns five rows;
    the cut at the simulation end would give ten. *)
Lemma C8_slice_stops_at_evaluation_stop :
  ex_get_output
    (ex_hook "flowveldepth_Ngen.csv"
       (Some {| Troute.evaluation_start := Some 0%Z; Troute.evaluation_stop := Some 18000%Z |}))
    (ex_nexus "nex-9" ["cat-1"])
    = Py.ok (Some (ex_constant 3600 3600 5 1%float)) /\
  Troute.extract ex_flows (ex_nexus "nex-9" ["cat-1"]) = Py.ok (ex_constant 3600 3600 10 1%float) /\
  Series.resample_1h_first
    (Series.loc (Config.start_time (Config.time ex_realization)
                   + Zpos (Config.output_interval (Config.time ex_realization)))
       (Config.end_time (Config.time ex_realization)) (ex_constant 3600 3600 10 1%float))
    = ex_constant 3600 3600 10 1%float /\
  length (ex_constant 3600 3600 5 1%float) <> length (ex_constant 3600 3600 10 1%float).
Proof. repeat split; vm_compute; (reflexivity || discriminate). Qed.

Lemma C8_comparison_series_witness :
  ex_get_output (ex_hook "flowveldepth_Ngen.csv" None) (ex_nexus "nex-9" ["cat-7"])
    = Py.ok (Some (Series.resample_1h_first (Series.loc (0 + 3600) 36000 (ex_ramp 900 900 40)))).
Proof.
  refine (proj1 (C8_comparison_series ex_disk (fun p _ => ex_no_reader p) ex_no_reader
                   ex_stream_v2 ex_no_reader ex_no_reader
                   (ex_hook "flowveldepth_Ngen.csv" None) ex_realization
                   (ex_nexus "nex-9" ["cat-7"]) "flowveldepth_Ngen.csv" 0 36000 ex_flows
                   (ex_ramp 900 900 40) eq_refl eq_refl eq_refl eq_refl)).
Defined.

Example resample_takes_first_of_hour :
  Series.resample_1h_first (Series.loc (0 + 3600) 36000 (ex_ramp 900 900 40))
    = map (fun k => ((3600 + 3600 * Z.of_nat k)%Z, PyFloat.of_int (3 + 4 * Z.of_nat k)))
        (seq 0 10).
Proof. vm_compute. reflexivity. Qed.

Example resample_skips_missing :
  Series.resample_1h_first [(3600, PrimFloat.nan); (4500, 2%float); (5400, 3%float)]
    = [(3600, 2%float)].
Proof. vm_compute. reflexivity. Qed.

(** ** The parameter table *)

Section ParameterTable.
Import Py ParameterSpace.

Lemma map_of_imap {A B C} (g : B -> C) (l : list A) :
  forall (f : nat -> A -> B), map g (imap f l) = imap (fun i x => g (f i x)) l.
Proof. induction l as [|x l IH]; intros f; [reflexivity|]. cbn. f_equal. apply IH. Qed.

Lemma imap_of_map {A B C} (g : A -> B) (l : list A) :
  forall (f : nat -> B -> C), imap f (map g l) = imap (fun i x => f i (g x)) l.
Proof. induction l as [|x l IH]; intros f; [reflexivity|]. cbn. f_equal. apply IH. Qed.

Lemma imap_forget_index {A B} (h : A -> B) (l : list A) :
  forall (f : nat -> A -> B), (forall i x, f i x = h x) -> imap f l = map h l.
Proof.
  induction l as [|x l IH]; intros f Hf; [reflexivity|].
  cbn. rewrite Hf. f_equal. apply IH. intros i y. apply Hf.
Qed.

Lemma index_by_param (df df1 df2 : Pd.DataFrame) :
  Pd.copy_column "param" "p" df = ok df1 ->
  Pd.set_index "p" df1 = ok df2 ->
  Pd.rows df2 = map indexed (Pd.rows df).
Proof.
  unfold Pd.copy_column, Pd.set_index.
  destruct (Pd.has_column "param" (Pd.columns df)); [|discriminate].
  intros [= <-]. cbn [Pd.columns Pd.rows].
  destruct (Pd.has_column "p" _); [|discriminate].
  intros [= <-]. cbn [Pd.rows]. rewrite map_map. reflexivity.
Qed.

Lemma model_frame_rows (k : string) (v : Parameters) :
  map indexed (Pd.rows (model_frame k v)) = map (table_row k) v.
Proof.
  unfold model_frame, Pd.rename, Pd.set_scalar, Pd.of_records. cbn [Pd.rows].
  rewrite !map_of_imap, imap_of_map. apply imap_forget_index.
  intros i s. reflexivity.
Qed.

Lemma concat_rows (dfs : list Pd.DataFrame) (df : Pd.DataFrame) :
  Pd.concat dfs = ok df -> Pd.rows df = List.concat (map Pd.rows dfs).
Proof.
  unfold Pd.concat. destruct dfs; [discriminate|]. intros [= <-]. reflexivity.
Qed.

Lemma all_models_rows (params : ParamMap) (df : Pd.DataFrame) :
  _params_as_df params None = ok df ->
  Pd.rows df = flat_map (fun kv => map (table_row (fst kv)) (snd kv)) params.
Proof.
  unfold _params_as_df.
  destruct (Pd.concat _) as [e|df0] eqn:Hc; cbn [bind]; [discriminate|].
  destruct (Pd.copy_column "param" "p" df0) as [e|df1] eqn:H1; cbn [bind]; [discriminate|].
  intros H2. rewrite (index_by_param df0 df1 df H1 H2), (concat_rows _ _ Hc).
  rewrite map_map, concat_map, map_map, flat_map_concat_map. f_equal.
  apply map_ext. intros [k v]. apply model_frame_rows.
Qed.

Lemma one_model_rows (params : ParamMap) (n : string) (df : Pd.DataFrame) :
  n <> "" ->
  _params_as_df params (Some n) = ok df ->
  Pd.rows df = map (table_row n) (get params n).
Proof.
  intros Hn. unfold _params_as_df. destruct n as [|c n]; [congruence|].
  destruct (get params (String c n)) as [|s v] eqn:Hget.
  - intros [= <-]. reflexivity.
  - destruct (Pd.copy_column "param" "p" _) as [e|df1] eqn:H1; cbn [bind]; [discriminate|].
    intros H2. rewrite (index_by_param _ df1 df H1 H2). apply model_frame_rows.
Qed.

Lemma table_row_keyed (k : string) (s : Parameter_) : keyed_by_param (table_row k s).
Proof. exists (name s), k. repeat split. Qed.

Lemma params_as_df_keyed (params : ParamMap) (n : option string) (df : Pd.DataFrame) :
  _params_as_df params n = ok df -> Forall keyed_by_param (Pd.rows df).
Proof.
  intros H. apply List.Forall_forall. intros r Hr.
  assert (Hcase : n = None \/ n = Some "" \/ exists m, n = Some m /\ m <> "").
  { destruct n as [[|c m]|]; eauto 6. }
  destruct Hcase as [->|[->|(m & -> & Hm)]].
  - rewrite (all_models_rows params df H) in Hr. apply in_flat_map in Hr.
    destruct Hr as ([k v] & _ & Hr). apply in_map_iff in Hr.
    destruct Hr as (s & <- & _). apply table_row_keyed.
  - rewrite (all_models_rows params df H) in Hr. apply in_flat_map in Hr.
    destruct Hr as ([k v] & _ & Hr). apply in_map_iff in Hr.
    destruct Hr as (s & <- & _). apply table_row_keyed.
  - rewrite (one_model_rows params m df Hm H) in Hr. apply in_map_iff in Hr.
    destruct Hr as (s & <- & _). apply table_row_keyed.
Qed.

Lemma map_result_forall {A B} (f : A -> result B) (P : B -> Prop) (l : list A) :
  forall bs, (forall a b, f a = ok b -> P b) -> map_result f l = ok bs -> Forall P bs.
Proof.
  induction l as [|a l IH]; intros bs Hf; cbn [map_result].
  - intros [= <-]. constructor.
  - destruct (f a) as [e|b] eqn:Hb; [discriminate|].
    destruct (map_result f l) as [e|bs'] eqn:Hbs; [discriminate|].
    intros [= <-]. constructor; [exact (Hf a b Hb)|]. apply IH; [exact Hf|reflexivity].
Qed.

Lemma realization_table_keyed (params : ParamMap) (realization : Realization)
    (df : Pd.DataFrame) :
  _map_params_to_realization params realization = ok df ->
  Forall keyed_by_param (Pd.rows df).
Proof.
  unfold _map_params_to_realization.
  destruct (formulations realization) as [|[n|n modules] rest]; [discriminate| |].
  - apply params_as_df_keyed.
  - destruct (map_result _ modules) as [e|dfs] eqn:Hdfs; cbn [bind]; [discriminate|].
    intros Hc. rewrite (concat_rows dfs df Hc).
    apply map_result_forall with (P := fun d => Forall keyed_by_param (Pd.rows d)) in Hdfs;
      [|intros m d; apply params_as_df_keyed].
    apply List.Forall_forall. intros r Hr. apply in_concat in Hr.
    destruct Hr as (rs & Hrs & Hr). apply in_map_iff in Hrs. destruct Hrs as (d & <- & Hd).
    rewrite List.Forall_forall in Hdfs. specialize (Hdfs d Hd).
    rewrite List.Forall_forall in Hdfs. exact (Hdfs r Hr).
Qed.

End ParameterTable.

(** C1, as stated: the index of the table is the pair of the model and the
    parameter, so that two parameters of the same name in two models are
    addressed apart. In the table of [ex_params] the two rows carry the same
    label [x], and the label [x] selects both. *)
Lemma C1_same_name_shares_the_label :
  exists df,
    ParameterSpace._params_as_df ex_params None = Py.ok df /\
    map Pd.row_label (Pd.rows df) = [Pd.Lab (Pd.Text "x"); Pd.Lab (Pd.Text "x")] /\
    ~ NoDup (map Pd.row_label (Pd.rows df)) /\
    Pd.loc "x" df = Pd.rows df /\
    length (Pd.loc "x" df) = 2%nat.
Proof.
  eexists. split; [vm_compute; reflexivity|]. cbn [Pd.rows].
  split; [reflexivity|]. split; [|split; reflexivity].
  intros Hnd. apply NoDup_cons_1_1 in Hnd. apply Hnd. left.
Qed.

(** C1, amended: in the table [_params_as_df] builds, and in the one
    [_map_params_to_realization] builds, the index of a row is the name of its
    parameter alone, a copy of the column [param]; the model the row comes from
    is kept in the column [model]. Two models that declare a parameter of the
    same name give two rows, each with its own bounds and initial value, that
    differ in the column [model] and share the index label. *)
Theorem C1_table_indexed_by_parameter_name
    (params : ParameterSpace.ParamMap) (df : Pd.DataFrame) :
  ParameterSpace._params_as_df params None = Py.ok df ->
  Forall keyed_by_param (Pd.rows df) /\
  (forall realization df',
      ParameterSpace._map_params_to_realization params realization = Py.ok df' ->
      Forall keyed_by_param (Pd.rows df')) /\
  (forall m1 m2 v1 v2 s1 s2,
      In (m1, v1) params -> In (m2, v2) params -> In s1 v1 -> In s2 v2 ->
      m1 <> m2 -> ParameterSpace.name s1 = ParameterSpace.name s2 ->
      In (table_row m1 s1) (Pd.rows df) /\
      In (table_row m2 s2) (Pd.rows df) /\
      Pd.cell_text "model" (table_row m1 s1) = Some m1 /\
      Pd.cell_text "model" (table_row m2 s2) = Some m2 /\
      table_row m1 s1 <> table_row m2 s2 /\
      Pd.row_label (table_row m1 s1) = Pd.row_label (table_row m2 s2)).
Proof.
  intros H. split; [exact (params_as_df_keyed params None df H)|].
  split; [intros realization df'; apply realization_table_keyed|].
  intros m1 m2 v1 v2 s1 s2 H1 H2 Hs1 Hs2 Hm Hn.
  rewrite (all_models_rows params df H).
  split; [|split; [|split; [|split; [|split]]]].
  - apply in_flat_map. exists (m1, v1). split; [exact H1|]. apply in_map, Hs1.
  - apply in_flat_map. exists (m2, v2). split; [exact H2|]. apply in_map, Hs2.
  - reflexivity.
  - reflexivity.
  - intros Heq. apply (f_equal (Pd.cell_text "model")) in Heq. cbn in Heq. congruence.
  - cbn. rewrite Hn. reflexivity.
Qed.

Lemma C1_table_indexed_by_parameter_name_witness :
  exists df,
    ParameterSpace._params_as_df ex_params None = Py.ok df /\
    Forall keyed_by_param (Pd.rows df).
Proof.
  eexists. split; [vm_compute; reflexivity|].
  refine (proj1 (C1_table_indexed_by_parameter_name ex_params _ _)).
  vm_compute. reflexivity.
Defined.

(** ** One evaluation nexus per calibration set *)

Section EvaluationTarget.
Import Py ParameterSpace Targets.

Lemma independent_check (self : NgenBase) (params : ParamMap)
    (catchments : list AdjustableCatchment) (eval_nexus : list Nexus) :
  independent_candidates self params = ok (catchments, eval_nexus) ->
  NgenIndependent self params =
    match eval_nexus with
    | [n] => ok [CalibrationSet catchments n]
    | _ => raise RuntimeError only_one_msg
    end.
Proof. intros H. unfold NgenIndependent. rewrite H. reflexivity. Qed.

Lemma uniform_check (self : NgenBase) (params : ParamMap) (eval_nexus : list Nexus) :
  uniform_candidates self = ok eval_nexus ->
  NgenUniform self params =
    match eval_nexus with
    | [n] => let! df := _params_as_df params None in ok [UniformCalibrationSet n df]
    | _ => raise RuntimeError only_one_msg
    end.
Proof. intros H. unfold NgenUniform. rewrite H. reflexivity. Qed.

Lemma not_one {A} (l : list A) (B : Type) (one : A -> B) (other : B) :
  length l <> 1%nat -> match l with [n] => one n | _ => other end = other.
Proof. destruct l as [|a [|b l]]; cbn; intros H; congruence. Qed.

Lemma independent_one_target (self : NgenBase) (params : ParamMap) (ts : list target) :
  NgenIndependent self params = ok ts ->
  exists catchments n,
    independent_candidates self params = ok (catchments, [n]) /\
    ts = [CalibrationSet catchments n].
Proof.
  unfold NgenIndependent.
  destruct (independent_candidates self params) as [e|[catchments eval_nexus]];
    cbn [bind]; [discriminate|].
  destruct eval_nexus as [|n [|n' rest]]; try discriminate.
  intros [= <-]. eauto.
Qed.

Lemma uniform_one_target (self : NgenBase) (params : ParamMap) (ts : list target) :
  NgenUniform self params = ok ts ->
  exists n df,
    uniform_candidates self = ok [n] /\
    _params_as_df params None = ok df /\
    ts = [UniformCalibrationSet n df].
Proof.
  unfold NgenUniform.
  destruct (uniform_candidates self) as [e|eval_nexus]; cbn [bind]; [discriminate|].
  destruct eval_nexus as [|n [|n' rest]]; try discriminate.
  destruct (_params_as_df params None) as [e|df]; cbn [bind]; [discriminate|].
  intros [= <-]. eauto.
Qed.

Lemma loc_In {V} (t : list (string * V)) (id : string) (v : V) :
  loc t id = Some v -> In (id, v) t.
Proof.
  induction t as [|[k w] t IH]; [discriminate|]. cbn [loc].
  destruct (String.eqb k id) eqn:Hk.
  - apply String.eqb_eq in Hk. intros [= <-]. left. congruence.
  - intros H. right. exact (IH H).
Qed.

Lemma in_index_In (t : list string) (id : string) : in_index t id = true <-> In id t.
Proof.
  unfold in_index. rewrite existsb_exists. split.
  - intros (x & Hx & Heq). apply String.eqb_eq in Heq. subst. exact Hx.
  - intros H. exists id. split; [exact H|apply String.eqb_refl].
Qed.

Lemma explicit_catchment_spec (self : NgenBase) (id : string) (catchment : CatchmentRealization)
    (t : target) :
  explicit_catchment self id catchment = ok (Some t) ->
  exists declared toid nwis params,
    calibration catchment = Some declared /\
    loc (_catchment_hydro_fabric self) id = Some toid /\
    loc (_x_walk self) id = Some nwis /\
    In toid (_nexus_hydro_fabric self) /\
    _map_params_to_realization declared (as_realization catchment) = ok params /\
    t = CalibrationCatchment id
          {| nexus_id := toid;
             _hydro_location := Some {| station_id := nwis; location_nexus_id := toid |};
             contributing_catchments := [ {| catchment_id := id |} ] |}
          params.
Proof.
  unfold explicit_catchment.
  destruct (calibration catchment) as [declared|]; [|discriminate].
  destruct (loc (_catchment_hydro_fabric self) id) as [toid|]; [|discriminate].
  destruct (loc (_x_walk self) id) as [nwis|]; [|discriminate].
  destruct (in_index (_nexus_hydro_fabric self) toid) eqn:Hidx; [|discriminate].
  destruct (_map_params_to_realization declared (as_realization catchment)) as [e|params] eqn:Hp;
    cbn [bind ok]; [discriminate|].
  intros [= <-]. exists declared, toid, nwis, params.
  repeat split; try reflexivity; [apply in_index_In, Hidx|exact Hp].
Qed.

Lemma explicit_loop_fails (self : NgenBase) (entries : list (string * CatchmentRealization))
    (id : string) (catchment : CatchmentRealization) (e : exn) :
  In (id, catchment) entries ->
  explicit_catchment self id catchment = inl e ->
  exists e', explicit_loop self entries = inl e'.
Proof.
  induction entries as [|[id0 c0] rest IH]; intros Hin He; [destruct Hin|].
  cbn [explicit_loop].
  destruct (explicit_catchment self id0 c0) as [e0|o] eqn:Hc; cbn [bind ok]; [eauto|].
  destruct Hin as [[= -> ->]|Hin]; [congruence|].
  destruct (IH Hin He) as [e' ->]. cbn [bind]. eauto.
Qed.

Lemma explicit_catchment_passes (self : NgenBase) (id : string) (catchment : CatchmentRealization) :
  explicit_catchment self id catchment = ok None ->
  declares_divide self (id, catchment) = false.
Proof.
  unfold explicit_catchment, declares_divide. cbn [fst snd].
  destruct (calibration catchment) as [declared|]; [|reflexivity].
  destruct (loc (_catchment_hydro_fabric self) id) as [toid|]; [|reflexivity].
  destruct (loc (_x_walk self) id) as [nwis|]; [|discriminate].
  destruct (in_index (_nexus_hydro_fabric self) toid); [|discriminate].
  destruct (_map_params_to_realization declared (as_realization catchment));
    cbn [bind ok]; discriminate.
Qed.

Lemma explicit_loop_one_per_entry (self : NgenBase)
    (entries : list (string * CatchmentRealization)) (ts : list target) :
  explicit_loop self entries = ok ts ->
  Forall2 (fun t entry => explicit_target self entry t)
    ts (List.filter (declares_divide self) entries).
Proof.
  revert ts. induction entries as [|[id catchment] rest IH]; intros ts; cbn [explicit_loop].
  - intros [= <-]. constructor.
  - destruct (explicit_catchment self id catchment) as [e|o] eqn:Hc; cbn [bind ok]; [discriminate|].
    destruct (explicit_loop self rest) as [e|ts'] eqn:Hrest; cbn [bind ok]; [discriminate|].
    intros [= <-]. cbn [List.filter]. destruct o as [t|].
    + destruct (explicit_catchment_spec self id catchment t Hc)
        as (declared & toid & nwis & params & H1 & H2 & H3 & H4 & _ & H6).
      unfold declares_divide at 1. cbn [fst snd]. rewrite H1, H2.
      constructor; [|exact (IH ts' eq_refl)].
      exists toid, nwis, params. cbn [fst]. auto.
    + rewrite (explicit_catchment_passes self id catchment Hc). exact (IH ts' eq_refl).
Qed.

(** C2, amended: the independent and the uniform strategy enforce exactly one
    evaluation nexus. Once the candidates are found, after the optional
    choice by [eval_feature], a list of candidates whose length is not one
    makes the construction raise a [RuntimeError]; with exactly one candidate
    the independent strategy yields one calibration set evaluated at it, and
    so does the uniform strategy when the parameter table can be built. A
    construction that succeeds has always produced exactly one target, whose
    evaluation nexus is the single candidate. The explicit strategy has no
    such check: its targets are, in order, one for each entry of the
    realization that declares calibration parameters and is a divide of the
    hydrofabric, each evaluated at the nexus the divide drains to, with the
    gauge the crosswalk gives for the catchment; the other entries are passed
    over. For such an entry without a gauge in the crosswalk, or whose nexus
    is unknown, the body of the loop raises a [RuntimeError] that names the
    catchment, and the construction fails. *)
Theorem C2_exactly_one_evaluation_nexus (self : NgenBase) (params : ParamMap) :
  (forall catchments eval_nexus,
      independent_candidates self params = ok (catchments, eval_nexus) ->
      (length eval_nexus <> 1%nat ->
       NgenIndependent self params = raise RuntimeError only_one_msg) /\
      (forall n, eval_nexus = [n] ->
                 NgenIndependent self params = ok [CalibrationSet catchments n])) /\
  (forall eval_nexus,
      uniform_candidates self = ok eval_nexus ->
      (length eval_nexus <> 1%nat ->
       NgenUniform self params = raise RuntimeError only_one_msg) /\
      (forall n df, eval_nexus = [n] -> _params_as_df params None = ok df ->
                    NgenUniform self params = ok [UniformCalibrationSet n df])) /\
  (forall strategy ts,
      strategy <> explicit ->
      construct strategy self params = ok ts ->
      exists t n,
        ts = [t] /\ evaluation_nexus t = n /\
        ((exists catchments, independent_candidates self params = ok (catchments, [n])) \/
         uniform_candidates self = ok [n])) /\
  (forall ts,
      construct explicit self params = ok ts ->
      Forall2 (fun t entry => explicit_target self entry t)
        ts (List.filter (declares_divide self) (realization_catchments self))) /\
  (forall id catchment toid,
      In (id, catchment) (realization_catchments self) ->
      declares_divide self (id, catchment) = true ->
      loc (_catchment_hydro_fabric self) id = Some toid ->
      (loc (_x_walk self) id = None ->
       explicit_catchment self id catchment =
         raise RuntimeError
           ("Cannot establish mapping of catchment " ++ id ++ " to nwis location in cross walk")) /\
      (loc (_x_walk self) id <> None -> ~ In toid (_nexus_hydro_fabric self) ->
       explicit_catchment self id catchment =
         raise RuntimeError ("No suitable nexus found for catchment " ++ id)) /\
      ((loc (_x_walk self) id = None \/ ~ In toid (_nexus_hydro_fabric self)) ->
       exists e, construct explicit self params = inl e)).
Proof.
  split; [|split; [|split; [|split]]].
  - intros catchments eval_nexus H. rewrite (independent_check self params _ _ H). split.
    + intros Hlen. apply not_one, Hlen.
    + intros n ->. reflexivity.
  - intros eval_nexus H. rewrite (uniform_check self params _ H). split.
    + intros Hlen. apply (not_one eval_nexus), Hlen.
    + intros n df -> Hdf. cbn zeta. rewrite Hdf. reflexivity.
  - intros strategy ts Hs H. destruct strategy; cbn [construct] in H; [|congruence|].
    + destruct (uniform_one_target self params ts H) as (n & df & Hc & _ & ->).
      exists (UniformCalibrationSet n df), n. auto.
    + destruct (independent_one_target self params ts H) as (catchments & n & Hc & ->).
      exists (CalibrationSet catchments n), n. eauto.
  - intros ts H. exact (explicit_loop_one_per_entry self _ ts H).
  - intros id catchment toid Hin Hdec Hfab.
    assert (Hcal : exists declared, calibration catchment = Some declared).
    { unfold declares_divide in Hdec. cbn [fst snd] in Hdec.
      destruct (calibration catchment) as [declared|]; [eauto|discriminate]. }
    destruct Hcal as [declared Hcal].
    assert (Hx : loc (_x_walk self) id = None ->
                 explicit_catchment self id catchment =
                   raise RuntimeError
                     ("Cannot establish mapping of catchment " ++ id
                        ++ " to nwis location in cross walk")).
    { intros Hnone. unfold explicit_catchment. rewrite Hcal, Hfab, Hnone. reflexivity. }
    assert (Hn : loc (_x_walk self) id <> None -> ~ In toid (_nexus_hydro_fabric self) ->
                 explicit_catchment self id catchment =
                   raise RuntimeError ("No suitable nexus found for catchment " ++ id)).
    { intros Hsome Hnot. unfold explicit_catchment. rewrite Hcal, Hfab.
      destruct (loc (_x_walk self) id); [|congruence].
      destruct (in_index (_nexus_hydro_fabric self) toid) eqn:Hidx; [|reflexivity].
      apply in_index_In in Hidx. tauto. }
    split; [exact Hx|]. split; [exact Hn|].
    intros Hbad. cbn [construct]. unfold NgenExplicit.
    destruct (loc (_x_walk self) id) as [nwis|] eqn:Hw.
    + destruct Hbad as [Hbad|Hbad]; [discriminate|].
      eapply explicit_loop_fails; [exact Hin|]. apply Hn; [discriminate|exact Hbad].
    + eapply explicit_loop_fails; [exact Hin|]. apply Hx. reflexivity.
Qed.

End EvaluationTarget.

(** C2, as stated: every strategy refuses zero or several evaluation nexuses.
    The explicit strategy makes one target for each catchment that declares
    calibration parameters: with two such catchments, gauged at two nexuses,
    it yields two targets and raises nothing; with none it yields no target
    and raises nothing. *)
Lemma C2_explicit_accepts_two_and_none :
  (exists t1 t2,
      Targets.construct Targets.explicit ex_explicit_two ex_params = Py.ok [t1; t2] /\
      Targets.nexus_id (Targets.evaluation_nexus t1) = "nex-1" /\
      Targets.nexus_id (Targets.evaluation_nexus t2) = "nex-2") /\
  Targets.construct Targets.explicit ex_explicit_none ex_params = Py.ok [].
Proof.
  split; [|vm_compute; reflexivity].
  eexists _, _. split; [vm_compute; reflexivity|]. split; reflexivity.
Qed.

Lemma C2_exactly_one_evaluation_nexus_witness :
  Targets.NgenUniform (ex_base [("wb-1", "01010000"); ("wb-3", "03030000")] None []) ex_params
    = Py.raise Py.RuntimeError Targets.only_one_msg /\
  Py.is_ok (Targets.NgenUniform (ex_base [("wb-1", "01010000"); ("wb-3", "03030000")]
                                   (Some "wb-3") []) ex_params) = true.
Proof.
  split.
  - refine (proj1 (proj1 (proj2 (C2_exactly_one_evaluation_nexus
                                   (ex_base [("wb-1", "01010000"); ("wb-3", "03030000")] None [])
                                   ex_params)) _ _) _).
    + vm_compute. reflexivity.
    + vm_compute. discriminate.
  - destruct (proj1 (proj2 (C2_exactly_one_evaluation_nexus
                (ex_base [("wb-1", "01010000"); ("wb-3", "03030000")] (Some "wb-3") [])
                ex_params)) _ eq_refl) as [_ H].
    erewrite H; [reflexivity|reflexivity|vm_compute; reflexivity].
Defined.

(** ** Rewriting the configuration *)

Section ConfigRewriter.
Import Py Rewriter.
Variable to_json : NgenRealization -> string.

Lemma label_eqb_text (l : Pd.label) (q : string) :
  label_eqb l (Pd.Lab (Pd.Text q)) = true <-> l = Pd.Lab (Pd.Text q).
Proof.
  destruct l as [n|[s|x]]; cbn; split; try discriminate; try congruence.
  - intros H. apply String.eqb_eq in H. congruence.
  - intros [= ->]. apply String.eqb_refl.
Qed.

Lemma label_eqb_text_l (l : Pd.label) (q : string) :
  label_eqb (Pd.Lab (Pd.Text q)) l = true <-> l = Pd.Lab (Pd.Text q).
Proof.
  destruct l as [n|[s|x]]; cbn; split; try discriminate; try congruence.
  - intros H. apply String.eqb_eq in H. congruence.
  - intros [= ->]. apply String.eqb_refl.
Qed.

Lemma dict_get_set (k : Pd.label) (q : string) (v : Pd.cell) (d : dict) :
  dict_get (dict_set k v d) (Pd.Lab (Pd.Text q)) =
    if label_eqb k (Pd.Lab (Pd.Text q)) then Some v else dict_get d (Pd.Lab (Pd.Text q)).
Proof.
  assert (HK : label_eqb (Pd.Lab (Pd.Text q)) (Pd.Lab (Pd.Text q)) = true)
    by apply String.eqb_refl.
  induction d as [|[k' v'] d IH]; cbn [dict_set dict_get]; [reflexivity|].
  destruct (label_eqb k' k) eqn:Hk'; cbn [dict_get].
  - destruct (label_eqb k' (Pd.Lab (Pd.Text q))) eqn:Hq.
    + apply label_eqb_text in Hq. subst k'. apply label_eqb_text_l in Hk'. subst k.
      rewrite HK. reflexivity.
    + destruct (label_eqb k (Pd.Lab (Pd.Text q))) eqn:Hkq; [|reflexivity].
      apply label_eqb_text in Hkq. subst k. congruence.
  - rewrite IH. destruct (label_eqb k' (Pd.Lab (Pd.Text q))) eqn:Hq; [|reflexivity].
    destruct (label_eqb k (Pd.Lab (Pd.Text q))) eqn:Hkq; [|reflexivity].
    apply label_eqb_text in Hq, Hkq. subst k k'. congruence.
Qed.

Lemma to_dict_lookup (q : string) (v : Pd.cell) (items : list (Pd.label * Pd.cell)) :
  In (Pd.Lab (Pd.Text q), v) items ->
  (forall v', In (Pd.Lab (Pd.Text q), v') items -> v' = v) ->
  dict_get (to_dict items) (Pd.Lab (Pd.Text q)) = Some v.
Proof.
  unfold to_dict. intros Hin Hall.
  assert (Hgen : forall d,
             In (Pd.Lab (Pd.Text q), v) items \/ dict_get d (Pd.Lab (Pd.Text q)) = Some v ->
             dict_get (fold_left (fun d kv => dict_set (fst kv) (snd kv) d) items d)
               (Pd.Lab (Pd.Text q)) = Some v).
  { clear Hin. induction items as [|[k w] items IH]; intros d [Hin|Hd]; cbn [fold_left fst snd].
    - destruct Hin.
    - exact Hd.
    - apply IH; [intros v' Hv'; apply Hall; right; exact Hv'|].
      destruct Hin as [[= -> ->]|Hin]; [right|left; exact Hin].
      rewrite dict_get_set, (proj2 (label_eqb_text _ q) eq_refl). reflexivity.
    - apply IH; [intros v' Hv'; apply Hall; right; exact Hv'|]. right.
      rewrite dict_get_set. destruct (label_eqb k (Pd.Lab (Pd.Text q))) eqn:Hk; [|exact Hd].
      apply label_eqb_text in Hk. subst k. f_equal. apply Hall. left. reflexivity. }
  apply Hgen. left. exact Hin.
Qed.

Lemma map_result_total {A B} (f : A -> result B) (g : A -> B) (l : list A) :
  (forall a, In a l -> f a = ok (g a)) -> map_result f l = ok (map g l).
Proof.
  induction l as [|a l IH]; intros Hf; [reflexivity|].
  cbn [map_result map]. rewrite (Hf a (or_introl eq_refl)).
  rewrite IH by (intros b Hb; apply Hf; right; exact Hb). reflexivity.
Qed.

Lemma iteration_values_ok (i : Z) (df : Pd.DataFrame) (name : string) :
  in_groups name df = true ->
  Pd.has_column (pretty i) (Pd.columns df) = true ->
  iteration_values i df name =
    ok (to_dict (map (fun r => (Pd.row_label r, value_at (pretty i) r)) (get_group name df))).
Proof. intros H1 H2. unfold iteration_values. rewrite H1, H2. reflexivity. Qed.

Lemma update_multi_ok (i : Z) (df : Pd.DataFrame) (n : string) (p : option dict)
    (ms : list formulation) :
  Pd.has_column (pretty i) (Pd.columns df) = true ->
  update_module i df (Formulation n p (Some ms)) = ok (Formulation n p (Some (map (written i df) ms))).
Proof.
  intros Hcol. unfold update_module. cbn [modules model_name model_params].
  rewrite (map_result_total _ (written i df)); [reflexivity|].
  intros m _. unfold written. destruct (in_groups (model_name m) df) eqn:Hg; [|reflexivity].
  rewrite (iteration_values_ok i df _ Hg Hcol). reflexivity.
Qed.



Lemma lookup_del_other (c c' : string) (cells : list (string * Pd.cell)) :
  c <> c' -> Pd.lookup_cell c (Pd.del_cell c' cells) = Pd.lookup_cell c cells.
Proof.
  intros Hne. induction cells as [|[k v] cells IH]; [reflexivity|].
  cbn [Pd.del_cell Pd.lookup_cell].
  destruct (String.eqb k c') eqn:Hk'.
  - apply String.eqb_eq in Hk'. subst k.
    destruct (String.eqb c' c) eqn:Hc; [apply String.eqb_eq in Hc; congruence|exact IH].
  - cbn [Pd.lookup_cell]. rewrite IH. reflexivity.
Qed.

Lemma has_column_filtered (c c' : string) (cols : list string) :
  Pd.has_column c (List.filter (fun k => negb (String.eqb k c')) cols) = true -> c <> c'.
Proof.
  unfold Pd.has_column. rewrite existsb_exists. intros (k & Hk & Hkc) ->.
  apply filter_In in Hk. destruct Hk as [_ Hk]. apply String.eqb_eq in Hkc. subst k.
  rewrite String.eqb_refl in Hk. discriminate.
Qed.

(** The frame [update_config] groups: the rows of [params] under the label of
    their [param] cell. *)
Lemma grouped_inv (params df : Pd.DataFrame) :
  grouped params = ok df ->
  Pd.set_index "param" params = ok df /\ Pd.has_column "model" (Pd.columns df) = true.
Proof.
  unfold grouped. destruct (Pd.set_index "param" params) as [e|df0]; cbn [bind]; [discriminate|].
  destruct (Pd.has_column "model" (Pd.columns df0)) eqn:Hm; [|discriminate].
  intros [= <-]. auto.
Qed.

Lemma grouped_row (params df : Pd.DataFrame) (r0 : Pd.row) (q m : string) (c : string) :
  grouped params = ok df ->
  Pd.has_column c (Pd.columns df) = true ->
  In r0 (Pd.rows params) ->
  Pd.cell_text "param" r0 = Some q ->
  Pd.cell_text "model" r0 = Some m ->
  exists r, In r (get_group m df) /\ Pd.row_label r = Pd.Lab (Pd.Text q) /\
            value_at c r = value_at c r0.
Proof.
  intros Hg Hc Hin Hq Hm. apply grouped_inv in Hg. destruct Hg as [Hs _].
  unfold Pd.set_index in Hs. destruct (Pd.has_column "param" (Pd.columns params)); [|discriminate].
  injection Hs as <-. cbn [Pd.columns Pd.rows] in *.
  apply has_column_filtered in Hc.
  eexists. split; [|split].
  - unfold get_group. cbn [Pd.rows]. apply filter_In. split; [apply in_map, Hin|].
    unfold in_group, Pd.cell_text. cbn [Pd.row_cells].
    rewrite lookup_del_other by discriminate.
    unfold Pd.cell_text in Hm. destruct (Pd.lookup_cell "model" (Pd.row_cells r0)) as [[s|x]|];
      try discriminate. injection Hm as ->. apply String.eqb_refl.
  - cbn [Pd.row_label]. unfold Pd.cell_text in Hq.
    destruct (Pd.lookup_cell "param" (Pd.row_cells r0)) as [[s|x]|]; try discriminate.
    injection Hq as ->. reflexivity.
  - unfold value_at. cbn [Pd.row_cells]. rewrite lookup_del_other by exact Hc. reflexivity.
Qed.

Lemma grouped_row_back (params df : Pd.DataFrame) (r : Pd.row) (q m : string) (c : string) :
  grouped params = ok df ->
  Pd.has_column c (Pd.columns df) = true ->
  In r (get_group m df) ->
  Pd.row_label r = Pd.Lab (Pd.Text q) ->
  exists r0, In r0 (Pd.rows params) /\ Pd.cell_text "param" r0 = Some q /\
             Pd.cell_text "model" r0 = Some m /\ value_at c r0 = value_at c r.
Proof.
  intros Hg Hc Hin Hq. apply grouped_inv in Hg. destruct Hg as [Hs _].
  unfold Pd.set_index in Hs. destruct (Pd.has_column "param" (Pd.columns params)); [|discriminate].
  injection Hs as <-. cbn [Pd.columns Pd.rows] in *.
  apply has_column_filtered in Hc.
  unfold get_group in Hin. cbn [Pd.rows] in Hin. apply filter_In in Hin.
  destruct Hin as [Hin Hgrp]. apply in_map_iff in Hin. destruct Hin as (r0 & <- & Hin).
  exists r0. split; [exact Hin|]. cbn [Pd.row_label] in Hq.
  unfold in_group, Pd.cell_text in Hgrp. cbn [Pd.row_cells] in Hgrp.
  rewrite lookup_del_other in Hgrp by discriminate.
  unfold Pd.cell_text, value_at. cbn [Pd.row_cells]. rewrite lookup_del_other by exact Hc.
  split; [|split; [|reflexivity]].
  - destruct (Pd.lookup_cell "param" (Pd.row_cells r0)) as [[s|x]|]; congruence.
  - destruct (Pd.lookup_cell "model" (Pd.row_cells r0)) as [[s|x]|]; try discriminate.
    apply String.eqb_eq in Hgrp. congruence.
Qed.

Lemma written_value (i : Z) (params df : Pd.DataFrame) (m : formulation)
    (r0 : Pd.row) (q : string) :
  grouped params = ok df ->
  Pd.has_column (pretty i) (Pd.columns df) = true ->
  In r0 (Pd.rows params) ->
  Pd.cell_text "param" r0 = Some q ->
  Pd.cell_text "model" r0 = Some (model_name m) ->
  (forall r1, In r1 (Pd.rows params) ->
              Pd.cell_text "param" r1 = Some q ->
              Pd.cell_text "model" r1 = Some (model_name m) ->
              value_at (pretty i) r1 = value_at (pretty i) r0) ->
  exists d, model_params (written i df m) = Some d /\
            dict_get d (Pd.Lab (Pd.Text q)) = Some (value_at (pretty i) r0).
Proof.
  intros Hg Hc Hin Hq Hm Huniq.
  destruct (grouped_row params df r0 q (model_name m) (pretty i) Hg Hc Hin Hq Hm)
    as (r & Hr & Hlab & Hval).
  assert (Hgrp : in_groups (model_name m) df = true).
  { unfold in_groups. apply existsb_exists. unfold get_group in Hr. apply filter_In in Hr.
    exists r. exact Hr. }
  unfold written. rewrite Hgrp. cbn [set_model_params model_params].
  eexists. split; [reflexivity|]. apply to_dict_lookup.
  - apply in_map_iff. exists r. split; [|exact Hr]. rewrite Hlab, Hval. reflexivity.
  - intros v' Hv'. apply in_map_iff in Hv'. destruct Hv' as (r' & [= Hl' <-] & Hr').
    destruct (grouped_row_back params df r' q (model_name m) (pretty i) Hg Hc Hr' Hl')
      as (r1 & Hin1 & Hq1 & Hm1 & Hv1).
    rewrite <- Hv1. apply Huniq; assumption.
Qed.

(** X1: the write phase of an iteration on a composite formulation. When the
    table has the column of the iteration, [update_config] succeeds, touches
    only the modules of the first global formulation, and every row of the
    table (model, parameter, value of the iteration) can be read back from the
    [model_params] of its module under the name of the parameter; a module
    without rows in the table keeps its [model_params]. *)
Theorem update_config_round_trip
    (self : NgenRealization) (realization_name : string) (i : Z)
    (params df : Pd.DataFrame) (dir : directory)
    (n : string) (p : option dict) (ms rest : list formulation) :
  formulations (global_config self) = Formulation n p (Some ms) :: rest ->
  grouped params = ok df ->
  Pd.has_column (pretty i) (Pd.columns df) = true ->
  exists self' dir',
    update_config to_json self realization_name i params None dir = ok (self', dir') /\
    formulations (global_config self')
      = Formulation n p (Some (map (written i df) ms)) :: rest /\
    catchments self' = catchments self /\
    (forall m r0 q,
        In m ms -> In r0 (Pd.rows params) ->
        Pd.cell_text "param" r0 = Some q ->
        Pd.cell_text "model" r0 = Some (model_name m) ->
        (forall r1, In r1 (Pd.rows params) ->
                    Pd.cell_text "param" r1 = Some q ->
                    Pd.cell_text "model" r1 = Some (model_name m) ->
                    value_at (pretty i) r1 = value_at (pretty i) r0) ->
        exists d, model_params (written i df m) = Some d /\
                  dict_get d (Pd.Lab (Pd.Text q)) = Some (value_at (pretty i) r0)) /\
    (forall m, In m ms -> in_groups (model_name m) df = false -> written i df m = m).
Proof.
  intros Hf Hg Hc.
  eexists _, _. split; [|split; [|split; [|split]]].
  - unfold update_config, update_realization. rewrite Hf, Hg. cbn [bind ok].
    rewrite (update_multi_ok i df n p ms Hc). cbn [bind ok]. reflexivity.
  - reflexivity.
  - reflexivity.
  - intros m r0 q _ Hin Hq Hm Huniq. exact (written_value i params df m r0 q Hg Hc Hin Hq Hm Huniq).
  - intros m _ Hgrp. unfold written. rewrite Hgrp. reflexivity.
Qed.

End ConfigRewriter.
Section ConfigRewriterEdges.
Import Py Rewriter.
Variable to_json : NgenRealization -> string.

Lemma map_result_first_error {A B} (f : A -> result B) (e : exn) (l : list A) :
  (exists a, In a l /\ f a = inl e) ->
  (forall a, In a l -> f a = inl e \/ exists b, f a = ok b) ->
  map_result f l = inl e.
Proof.
  induction l as [|a l IH]; intros (a0 & Hin & Ha0) Hall; [destruct Hin|].
  cbn [map_result]. destruct (Hall a (or_introl eq_refl)) as [Ha|[b Hb]].
  - rewrite Ha. reflexivity.
  - rewrite Hb. unfold ok. destruct Hin as [->|Hin]; [unfold ok in Hb; congruence|].
    rewrite IH; [reflexivity|eauto|]. intros a1 H1. apply Hall. right. exact H1.
Qed.

(** X2: the column of the iteration is missing. A single-model formulation
    raises a [KeyError]: for the column when the table has rows of the model,
    for the model when it has none. A composite formulation raises the
    [KeyError] of the column as soon as one of its modules has rows in the
    table, and otherwise succeeds and leaves every module as it was. *)
Theorem update_config_missing_iteration
    (self : NgenRealization) (realization_name : string) (i : Z)
    (params df : Pd.DataFrame) (dir : directory)
    (n : string) (p : option dict) (rest : list formulation) :
  grouped params = ok df ->
  Pd.has_column (pretty i) (Pd.columns df) = false ->
  (formulations (global_config self) = Formulation n p None :: rest ->
   update_config to_json self realization_name i params None dir
     = raise KeyError (if in_groups n df then pretty i else n)) /\
  (forall ms,
      formulations (global_config self) = Formulation n p (Some ms) :: rest ->
      (exists m, In m ms /\ in_groups (model_name m) df = true) ->
      update_config to_json self realization_name i params None dir = raise KeyError (pretty i)) /\
  (forall ms,
      formulations (global_config self) = Formulation n p (Some ms) :: rest ->
      (forall m, In m ms -> in_groups (model_name m) df = false) ->
      exists self' dir',
        update_config to_json self realization_name i params None dir = ok (self', dir') /\
        formulations (global_config self') = formulations (global_config self) /\
        catchments self' = catchments self).
Proof.
  intros Hg Hc. split; [|split].
  - intros Hf. unfold update_config, update_realization. rewrite Hf, Hg. cbn [bind ok].
    unfold update_module, iteration_values. cbn [modules model_name]. rewrite Hc.
    destruct (in_groups n df); reflexivity.
  - intros ms Hf Hex. unfold update_config, update_realization. rewrite Hf, Hg. cbn [bind ok].
    unfold update_module. cbn [modules model_name model_params].
    rewrite (map_result_first_error _ (Raise KeyError (pretty i))); [reflexivity| |].
    + destruct Hex as (m & Hin & Hm). exists m. split; [exact Hin|].
      rewrite Hm. unfold iteration_values. rewrite Hm, Hc. reflexivity.
    + intros m _. destruct (in_groups (model_name m) df) eqn:Hm; [left|right; eauto].
      unfold iteration_values. rewrite Hm, Hc. reflexivity.
  - intros ms Hf Hnone. eexists _, _. split; [|split].
    + unfold update_config, update_realization. rewrite Hf, Hg. cbn [bind ok].
      unfold update_module. cbn [modules model_name model_params].
      rewrite (map_result_total _ (fun m => m)); [cbn [bind ok]; reflexivity|].
      intros m Hm. rewrite (Hnone m Hm). reflexivity.
    + cbn. rewrite map_id. symmetry. exact Hf.
    + reflexivity.
Qed.

Lemma clear_parquet_lookup (dir : directory) (k : string) :
  clear_parquet dir !! k = if endswith k "NEXOUT.parquet" then None else dir !! k.
Proof.
  unfold clear_parquet. destruct (endswith k "NEXOUT.parquet") eqn:Hk.
  - apply map_lookup_filter_None. right. intros v _. cbn [fst]. congruence.
  - destruct (dir !! k) as [v|] eqn:Hv.
    + apply map_lookup_filter_Some. split; [exact Hv|exact Hk].
    + apply map_lookup_filter_None. left. exact Hv.
Qed.

Lemma update_config_directory (self self' : NgenRealization) (realization_name : string)
    (i : Z) (params : Pd.DataFrame) (id : option string) (dir dir' : directory) :
  update_config to_json self realization_name i params id dir = ok (self', dir') ->
  dir' = clear_parquet (<[realization_name := to_json self']> dir).
Proof.
  unfold update_config.
  destruct id as [id|].
  - destruct (update_catchment _ id (catchments self)) as [e|cs]; cbn [bind ok]; [discriminate|].
    intros [= <- <-]. reflexivity.
  - destruct (update_realization i params (global_config self)) as [e|g]; cbn [bind ok];
      [discriminate|].
    intros [= <- <-]. reflexivity.
Qed.

(** X3: what a successful [update_config] leaves in the directory. No file
    whose name ends in [NEXOUT.parquet] remains; the realization file holds
    the serialized realization (unless its own name ends so); every other file
    is as it was. Clearing again changes nothing. *)
Theorem update_config_clears_parquet
    (self self' : NgenRealization) (realization_name : string)
    (i : Z) (params : Pd.DataFrame) (id : option string) (dir dir' : directory) :
  update_config to_json self realization_name i params id dir = ok (self', dir') ->
  (forall k, endswith k "NEXOUT.parquet" = true -> dir' !! k = None) /\
  (endswith realization_name "NEXOUT.parquet" = false ->
   dir' !! realization_name = Some (to_json self')) /\
  (forall k, endswith k "NEXOUT.parquet" = false -> k <> realization_name ->
             dir' !! k = dir !! k) /\
  clear_parquet dir' = dir'.
Proof.
  intros H. apply update_config_directory in H. subst dir'. split; [|split; [|split]].
  - intros k Hk. rewrite clear_parquet_lookup, Hk. reflexivity.
  - intros Hn. rewrite clear_parquet_lookup, Hn. apply lookup_insert_eq.
  - intros k Hk Hne. rewrite clear_parquet_lookup, Hk. apply lookup_insert_ne. congruence.
  - apply map_eq. intros k. rewrite !clear_parquet_lookup.
    destruct (endswith k "NEXOUT.parquet"); reflexivity.
Qed.

Lemma update_catchment_spec (f : Realization -> result Realization) (id : string)
    (cs cs' : list (string * Realization)) :
  update_catchment f id cs = ok cs' ->
  map fst cs' = map fst cs /\
  (forall k r, k <> id -> In (k, r) cs' <-> In (k, r) cs) /\
  exists r r', In (id, r) cs /\ f r = ok r' /\ In (id, r') cs'.
Proof.
  revert cs'. induction cs as [|[k r] cs IH]; intros cs'; cbn [update_catchment];
    [discriminate|].
  destruct (String.eqb k id) eqn:Hk.
  - apply String.eqb_eq in Hk. subst k.
    destruct (f r) as [e|r'] eqn:Hf; cbn [bind ok]; [discriminate|].
    intros [= <-]. split; [reflexivity|]. split.
    + intros k0 r0 Hne. cbn [In]. split; intros [[= <- <-]|H]; auto; congruence.
    + exists r, r'. cbn [In]. auto.
  - apply String.eqb_neq in Hk.
    destruct (update_catchment f id cs) as [e|rest] eqn:Hrest; cbn [bind ok]; [discriminate|].
    intros [= <-]. destruct (IH rest eq_refl) as (Hkeys & Hother & r0 & r0' & Hin & Hf & Hin').
    split; [cbn; rewrite Hkeys; reflexivity|]. split.
    + intros k0 r1 Hne. cbn [In]. rewrite (Hother k0 r1 Hne). reflexivity.
    + exists r0, r0'. cbn [In]. auto.
Qed.

Lemma update_catchment_missing (f : Realization -> result Realization) (id : string)
    (cs : list (string * Realization)) :
  ~ In id (map fst cs) -> update_catchment f id cs = raise KeyError id.
Proof.
  induction cs as [|[k r] cs IH]; intros Hnot; [reflexivity|].
  cbn [update_catchment]. cbn in Hnot.
  destruct (String.eqb k id) eqn:Hk; [apply String.eqb_eq in Hk; tauto|].
  rewrite IH by tauto. reflexivity.
Qed.

(** X4: an update addressed to one catchment. The explicit strategy refuses
    an update without an id; an id that is not among the catchments of the
    realization is a [KeyError]; a successful update leaves the global
    configuration and every other catchment as they were, keeps the order of
    the catchments, and rewrites the entry of the catchment with the table. *)
Theorem update_config_one_catchment
    (self : NgenRealization) (realization_name : string) (i : Z)
    (params : Pd.DataFrame) (dir : directory) :
  explicit_update_config to_json self realization_name i params None dir
    = raise RuntimeError "NgenExplicit calibration must recieve an id to update, not None" /\
  (forall id, ~ In id (map fst (catchments self)) ->
              explicit_update_config to_json self realization_name i params (Some id) dir
                = raise KeyError id) /\
  (forall id self' dir',
      explicit_update_config to_json self realization_name i params (Some id) dir
        = ok (self', dir') ->
      global_config self' = global_config self /\
      map fst (catchments self') = map fst (catchments self) /\
      (forall k r, k <> id -> In (k, r) (catchments self') <-> In (k, r) (catchments self)) /\
      exists r r', In (id, r) (catchments self) /\
                   update_realization i params r = ok r' /\
                   In (id, r') (catchments self')).
Proof.
  split; [reflexivity|]. split.
  - intros id Hnot. unfold explicit_update_config, update_config.
    rewrite (update_catchment_missing _ id _ Hnot). reflexivity.
  - intros id self' dir'. unfold explicit_update_config, update_config.
    destruct (update_catchment _ id (catchments self)) as [e|cs] eqn:Hcs; cbn [bind ok];
      [discriminate|].
    intros [= <- _]. cbn [global_config catchments]. split; [reflexivity|].
    exact (update_catchment_spec _ id _ cs Hcs).
Qed.

(** X5: [restart] gives the iteration all adjustables agree on, and zero when
    there is none or when two of them disagree; a result other than zero is
    the iteration of every adjustable. *)
Theorem restart_agreement (starts : list Z) :
  (forall v, starts <> [] -> (forall x, In x starts -> x = v) -> restart starts = v) /\
  (forall x y, In x starts -> In y starts -> x <> y -> restart starts = 0%Z) /\
  (restart starts <> 0%Z -> starts <> [] /\ forall x, In x starts -> x = restart starts) /\
  restart [] = 0%Z.
Proof.
  split; [|split; [|split; [|reflexivity]]].
  - intros v Hne Hall. destruct starts as [|first rest]; [congruence|]. unfold restart.
    assert (Hf : forallb (fun x => (x =? first)%Z) (first :: rest) = true).
    { apply forallb_forall. intros x Hx. apply Z.eqb_eq.
      rewrite (Hall x Hx), (Hall first (or_introl eq_refl)). reflexivity. }
    rewrite Hf. apply Hall. left. reflexivity.
  - intros x y Hx Hy Hne. destruct starts as [|first rest]; [destruct Hx|]. unfold restart.
    destruct (forallb (fun x => (x =? first)%Z) (first :: rest)) eqn:Hf; [|reflexivity].
    rewrite forallb_forall in Hf.
    pose proof (Hf x Hx) as H1. pose proof (Hf y Hy) as H2.
    apply Z.eqb_eq in H1, H2. congruence.
  - intros Hr. destruct starts as [|first rest]; [cbn in Hr; congruence|].
    split; [discriminate|]. unfold restart in *.
    destruct (forallb (fun x => (x =? first)%Z) (first :: rest)) eqn:Hf; [|congruence].
    rewrite forallb_forall in Hf. intros x Hx. apply Z.eqb_eq, Hf, Hx.
Qed.

End ConfigRewriterEdges.
Lemma update_config_round_trip_witness :
  exists self' dir' d1 d2,
    Rewriter.update_config ex_to_json ex_rewritable "realization.json" 0 ex_table None ex_directory
      = Py.ok (self', dir') /\
    map Rewriter.model_params
        (match Rewriter.formulations (Rewriter.global_config self') with
         | Rewriter.Formulation _ _ (Some ms) :: _ => ms
         | _ => []
         end)
      = [Some d1; Some d2; Some [(Pd.Lab (Pd.Text "sloth_ice"), Pd.Num 0%float)]] /\
    Rewriter.dict_get d1 (Pd.Lab (Pd.Text "x")) = Some (Pd.Num 0.25%float) /\
    Rewriter.dict_get d2 (Pd.Lab (Pd.Text "x")) = Some (Pd.Num 12%float).
Proof.
  destruct (update_config_round_trip ex_to_json ex_rewritable "realization.json" 0 ex_table
              (Pd.Frame ["min"; "max"; "init"; "model"; "0"]
                 (map (fun r => Pd.Row (Pd.row_label r) (Pd.del_cell "param" (Pd.row_cells r)))
                      (Pd.rows ex_table)))
              ex_directory "bmi_multi" None ex_modules [] eq_refl eq_refl eq_refl)
    as (self' & dir' & Hup & Hf & _ & _ & _).
  exists self', dir'. eexists _, _. split; [exact Hup|]. rewrite Hf.
  repeat split; reflexivity.
Defined.

Lemma update_config_missing_iteration_witness :
  Rewriter.update_config ex_to_json ex_rewritable "realization.json" 1 ex_table None ex_directory
    = Py.raise Py.KeyError "1".
Proof.
  refine (proj1 (proj2 (update_config_missing_iteration ex_to_json ex_rewritable
            "realization.json" 1 ex_table
            (Pd.Frame ["min"; "max"; "init"; "model"; "0"]
               (map (fun r => Pd.Row (Pd.row_label r) (Pd.del_cell "param" (Pd.row_cells r)))
                    (Pd.rows ex_table)))
            ex_directory "bmi_multi" None [] eq_refl eq_refl)) ex_modules eq_refl _).
  exists (Rewriter.Formulation "CFE" None None). split; [left; reflexivity|reflexivity].
Defined.

Lemma update_config_clears_parquet_witness :
  exists self' dir',
    Rewriter.update_config ex_to_json ex_rewritable "realization.json" 0 ex_table None ex_directory
      = Py.ok (self', dir') /\
    dir' !! "troute_NEXOUT.parquet" = None /\
    dir' !! "realization.json" = Some "{}" /\
    dir' !! "cat-1.csv" = Some "q".
Proof.
  assert (H : exists self' dir',
             Rewriter.update_config ex_to_json ex_rewritable "realization.json" 0 ex_table None
               ex_directory = Py.ok (self', dir'))
    by (eexists _, _; vm_compute; reflexivity).
  destruct H as (self' & dir' & H). exists self', dir'. split; [exact H|].
  destruct (update_config_clears_parquet ex_to_json ex_rewritable self' "realization.json" 0
              ex_table None ex_directory dir' H) as (H1 & H2 & H3 & _).
  split; [apply H1; vm_compute; reflexivity|].
  split; [apply H2; vm_compute; reflexivity|].
  rewrite H3; [vm_compute; reflexivity|vm_compute; reflexivity|discriminate].
Defined.

Example update_config_on_catchment :
  match Rewriter.explicit_update_config ex_to_json ex_rewritable "realization.json" 0
          ex_table (Some "cat-1") ex_directory with
  | inr (self', _) =>
      Rewriter.catchments self'
        = [("cat-1",
            {| Rewriter.formulations :=
                 [Rewriter.Formulation "CFE"
                    (Some [(Pd.Lab (Pd.Text "x"), Pd.Num 0.25%float)]) None] |});
           ("cat-2", {| Rewriter.formulations := [Rewriter.Formulation "TOPMODEL" None None] |})]
  | inl _ => False
  end /\
  Rewriter.explicit_update_config ex_to_json ex_rewritable "realization.json" 0 ex_table
    (Some "cat-2") ex_directory = Py.raise Py.KeyError "TOPMODEL".
Proof. split; vm_compute; reflexivity. Qed.

(** ** Gauged nexuses and the evaluation feature *)

Section GaugedNexuses.
Import Py ParameterSpace Targets.



Lemma build_gauged_spec (divides : ToidTable) (nexuses : list string)
    (crosswalk : list (string * string)) :
  forall ns,
    _build_gauged_hyfeatures_nexuses divides nexuses crosswalk = ok ns ->
    Forall2 (gauged_nexus divides nexuses) crosswalk ns.
Proof.
  induction crosswalk as [|[wb_id gage_id] rest IH]; intros ns; cbn [_build_gauged_hyfeatures_nexuses].
  - intros [= <-]. constructor.
  - destruct (loc divides (Str.replace wb_id "wb" "cat")) as [nexus|] eqn:Hloc; [|discriminate].
    destruct (in_index nexuses nexus) eqn:Hidx; [|discriminate].
    destruct (_build_gauged_hyfeatures_nexuses divides nexuses rest) as [e|ns'] eqn:Hrest;
      cbn [bind ok]; [discriminate|].
    intros [= <-]. constructor; [|apply IH; reflexivity].
    assert (Hc : forall c,
               In c (map (fun id => {| catchment_id := id |})
                         (map fst (List.filter (fun d => String.eqb (snd d) nexus) divides)))
               <-> In (catchment_id c, nexus) divides).
    { intros [id]. cbn [catchment_id]. rewrite in_map_iff. split.
      - intros (id' & [= ->] & Hin). apply in_map_iff in Hin.
        destruct Hin as ([k v] & <- & Hin). apply filter_In in Hin. cbn [fst snd] in *.
        destruct Hin as [Hin Hv]. apply String.eqb_eq in Hv. congruence.
      - intros Hin. exists id. split; [reflexivity|]. apply in_map_iff.
        exists (id, nexus). split; [reflexivity|]. apply filter_In. split; [exact Hin|].
        apply String.eqb_refl. }
    unfold gauged_nexus. cbn [fst snd nexus_id _hydro_location contributing_catchments].
    split; [exact Hloc|]. split; [apply in_index_In, Hidx|]. split; [reflexivity|].
    split; [exact Hc|]. apply Hc. cbn [catchment_id]. apply loc_In, Hloc.
Qed.

Lemma build_gauged_missing (divides : ToidTable) (nexuses : list string)
    (crosswalk : list (string * string)) :
  (exists entry, In entry crosswalk /\
     match loc divides (Str.replace (fst entry) "wb" "cat") with
     | None => True
     | Some nexus => ~ In nexus nexuses
     end) ->
  raises (_build_gauged_hyfeatures_nexuses divides nexuses crosswalk) KeyError.
Proof.
  induction crosswalk as [|[wb_id gage_id] rest IH]; intros (entry & Hin & Hbad); [destruct Hin|].
  cbn [_build_gauged_hyfeatures_nexuses].
  destruct (loc divides (Str.replace wb_id "wb" "cat")) as [nexus|] eqn:Hloc;
    [|eexists; reflexivity].
  destruct (in_index nexuses nexus) eqn:Hidx; [|eexists; reflexivity].
  destruct Hin as [<-|Hin].
  - cbn [fst] in Hbad. rewrite Hloc in Hbad. apply in_index_In in Hidx. tauto.
  - destruct (IH (ex_intro _ entry (conj Hin Hbad))) as [m Hm]. rewrite Hm.
    eexists. reflexivity.
Qed.

(** X6: the gauged nexuses of the uniform strategy. On success there is one
    nexus per crosswalk entry, in the order of the crosswalk; the nexus of an
    entry is the one the catchment of its flow path drains to, it carries the
    gauge of the entry, and its contributing catchments are exactly the divides
    that drain to it, the gauged one among them. A crosswalk entry without a
    divide, or whose nexus is not in the nexus table, is a [KeyError]. *)
Theorem gauged_nexuses_follow_crosswalk
    (divides : ToidTable) (nexuses : list string) (crosswalk : list (string * string)) :
  (forall ns,
      _build_gauged_hyfeatures_nexuses divides nexuses crosswalk = ok ns ->
      length ns = length crosswalk /\
      Forall2 (gauged_nexus divides nexuses) crosswalk ns) /\
  ((exists entry, In entry crosswalk /\
      match loc divides (Str.replace (fst entry) "wb" "cat") with
      | None => True
      | Some nexus => ~ In nexus nexuses
      end) ->
   raises (_build_gauged_hyfeatures_nexuses divides nexuses crosswalk) KeyError).
Proof.
  split; [|apply build_gauged_missing].
  intros ns H. pose proof (build_gauged_spec divides nexuses crosswalk ns H) as HF.
  split; [symmetry; exact (Forall2_length _ _ _ HF)|exact HF].
Qed.

End GaugedNexuses.
(** ** The evaluation feature *)

Section EvalFeature.
Import Py ParameterSpace Targets.

Lemma find_candidates_filter (feature : string) (nexuses : list Nexus) :
  forall cs,
    find_candidates feature nexuses = ok cs ->
    cs = List.filter (fun n => match eval_feature_matches feature n with
                               | inr true => true
                               | _ => false
                               end) nexuses.
Proof.
  induction nexuses as [|n rest IH]; intros cs; cbn [find_candidates List.filter].
  - intros [= <-]. reflexivity.
  - destruct (eval_feature_matches feature n) as [e|hit]; cbn [bind ok]; [discriminate|].
    destruct (find_candidates feature rest) as [e|cs'] eqn:Hrest; cbn [bind ok]; [discriminate|].
    intros [= <-]. rewrite (IH cs' eq_refl). destruct hit; reflexivity.
Qed.

Lemma find_candidates_located (feature : string) (nexuses : list Nexus) :
  (forall n, In n nexuses -> _hydro_location n <> None) ->
  exists cs, find_candidates feature nexuses = ok cs.
Proof.
  induction nexuses as [|n rest IH]; intros Hloc; cbn [find_candidates]; [eauto|].
  assert (Hn : exists hit, eval_feature_matches feature n = ok hit).
  { unfold eval_feature_matches.
    destruct (Str.startswith feature "nex-" && String.eqb feature (nexus_id n)); [eauto|].
    destruct (Str.startswith feature "cat-"); [eauto|].
    destruct (_hydro_location n) eqn:Hl; [eauto|].
    exfalso. apply (Hloc n); [left; reflexivity|exact Hl]. }
  destruct Hn as [hit ->]. cbn [bind ok].
  destruct IH as [cs ->]; [intros m Hm; apply Hloc; right; exact Hm|].
  cbn [bind ok]. eauto.
Qed.

Lemma cat_is_not_nex (s : string) :
  Str.startswith s "cat-" = true -> Str.startswith s "nex-" = false.
Proof.
  unfold Str.startswith. destruct s as [|c s]; cbn [String.prefix]; [discriminate|].
  destruct (ascii_dec "c" c) as [<-|]; [intros _|discriminate].
  destruct (ascii_dec "n" "c"); [discriminate|reflexivity].
Qed.

(** X7: the filter by [eval_feature]. A flow-path id is read as the id of its
    catchment. The candidates are nexuses of the list given, in their order;
    for a catchment id they are the nexuses that have it among their
    contributing catchments; for a nexus id, the nexuses of that id and the
    nexuses whose gauge has that very name; for anything else, the nexuses
    whose gauge it names. The filter raises nothing when every nexus carries a
    location, as the gauged nexuses do. *)
Theorem find_eval_feature_selects (eval_feature : string) (nexuses : list Nexus) :
  let feature :=
    if Str.startswith eval_feature "wb-" then Str.replace eval_feature "wb-" "cat-"
    else eval_feature in
  (forall cs,
      _find_eval_feature eval_feature nexuses = ok cs ->
      (exists keep, cs = List.filter keep nexuses) /\
      (forall n, In n cs -> In n nexuses) /\
      (Str.startswith feature "cat-" = true ->
       forall n, In n cs <->
                 In n nexuses /\
                 exists c, In c (contributing_catchments n) /\ catchment_id c = feature) /\
      (Str.startswith feature "cat-" = false ->
       forall n, In n cs <->
                 In n nexuses /\
                 ((Str.startswith feature "nex-" = true /\ nexus_id n = feature) \/
                  exists location, _hydro_location n = Some location /\
                                   station_id location = feature))) /\
  ((forall n, In n nexuses -> _hydro_location n <> None) ->
   exists cs, _find_eval_feature eval_feature nexuses = ok cs).
Proof.
  cbn zeta. unfold _find_eval_feature.
  set (feature := if Str.startswith eval_feature "wb-"
                  then Str.replace eval_feature "wb-" "cat-" else eval_feature).
  split; [|apply find_candidates_located].
  intros cs H. apply find_candidates_filter in H. subst cs.
  split; [eauto|]. split; [intros n Hn; apply filter_In in Hn; tauto|]. split.
  - intros Hcat n. rewrite filter_In. unfold eval_feature_matches.
    rewrite Hcat, (cat_is_not_nex feature Hcat). cbn [andb].
    split; intros [Hin Hm]; (split; [exact Hin|]).
    + destruct (existsb _ _) eqn:Hex; [|discriminate]. apply existsb_exists in Hex.
      destruct Hex as (c & Hc & Heq). apply String.eqb_eq in Heq. eauto.
    + destruct Hm as (c & Hc & Heq).
      assert (Hex : existsb (fun c => String.eqb feature (catchment_id c))
                      (contributing_catchments n) = true).
      { apply existsb_exists. exists c. split; [exact Hc|]. rewrite Heq. apply String.eqb_refl. }
      rewrite Hex. reflexivity.
  - intros Hcat n. rewrite filter_In. unfold eval_feature_matches. rewrite Hcat.
    split; intros [Hin Hm]; (split; [exact Hin|]).
    + destruct (Str.startswith feature "nex-") eqn:Hnex; cbn [andb] in Hm.
      * destruct (String.eqb feature (nexus_id n)) eqn:Hid.
        -- left. apply String.eqb_eq in Hid. auto.
        -- right. destruct (_hydro_location n) as [location|]; [|discriminate].
           exists location. split; [reflexivity|].
           destruct (String.eqb feature (station_id location)) eqn:Hs; [|discriminate].
           apply String.eqb_eq in Hs. auto.
      * right. destruct (_hydro_location n) as [location|]; [|discriminate].
        exists location. split; [reflexivity|].
        destruct (String.eqb feature (station_id location)) eqn:Hs; [|discriminate].
        apply String.eqb_eq in Hs. auto.
    + destruct Hm as [[Hnex Hid]|(location & Hl & Hs)].
      * rewrite Hnex, <- Hid, String.eqb_refl. reflexivity.
      * destruct (Str.startswith feature "nex-" && String.eqb feature (nexus_id n));
          [reflexivity|].
        rewrite Hl, <- Hs, String.eqb_refl. reflexivity.
Qed.

End EvalFeature.
(** ** The independent and the explicit strategy *)

Section Strategies.
Import Py ParameterSpace Targets.

Lemma dict_keys_spec (ids : list string) :
  forall seen,
    List.NoDup (dict_keys ids seen) /\
    forall id, In id (dict_keys ids seen) <-> In id ids /\ ~ In id seen.
Proof.
  induction ids as [|id0 ids IH]; intros seen; cbn [dict_keys].
  - split; [constructor|]. intros id. cbn. tauto.
  - destruct (in_index seen id0) eqn:Hseen.
    + apply in_index_In in Hseen. destruct (IH seen) as [Hnd Hin]. split; [exact Hnd|].
      intros id. rewrite Hin. cbn [In]. split; [tauto|].
      intros [[->|H] Hn]; tauto.
    + assert (Hnot : ~ In id0 seen)
        by (intros H; apply in_index_In in H; congruence).
      destruct (IH (id0 :: seen)) as [Hnd Hin]. split.
      * constructor; [|exact Hnd]. rewrite Hin. cbn [In]. tauto.
      * intros id. cbn [In]. rewrite Hin. cbn [In].
        destruct (string_dec id0 id) as [->|Hne]; tauto.
Qed.

Lemma independent_loop_spec (self : NgenBase) (params : ParamMap) (ids : list string) :
  (forall id, In id ids -> loc (_catchment_hydro_fabric self) id <> None) ->
  forall catchments eval_nexus,
    independent_loop self params ids = ok (catchments, eval_nexus) ->
    map adjustable_id catchments = ids /\
    (forall a, In a catchments ->
       exists toid, loc (_catchment_hydro_fabric self) (adjustable_id a) = Some toid /\
                    In toid (_nexus_hydro_fabric self) /\
                    adjustable_nexus a = independent_nexus self (adjustable_id a) toid /\
                    _map_params_to_realization params (global_config self)
                      = ok (adjustable_params a)) /\
    eval_nexus =
      map adjustable_nexus
          (List.filter (fun a => match independent_gage self (adjustable_id a) with
                                 | Some _ => true
                                 | None => false
                                 end) catchments).
Proof.
  induction ids as [|id ids IH]; intros Hfab catchments eval_nexus; cbn [independent_loop].
  - intros [= <- <-]. repeat split. intros a [].
  - destruct (loc (_catchment_hydro_fabric self) id) as [toid|] eqn:Hloc;
      [|exfalso; apply (Hfab id); [left; reflexivity|exact Hloc]].
    destruct (in_index (_nexus_hydro_fabric self) toid) eqn:Hidx; [|discriminate].
    destruct (_map_params_to_realization params (global_config self)) as [e|df] eqn:Hdf;
      cbn [bind ok]; [discriminate|].
    destruct (independent_loop self params ids) as [e|[cs ns]] eqn:Hrest; cbn [bind ok];
      [discriminate|].
    intros [= <- <-].
    destruct (IH (fun i Hi => Hfab i (or_intror Hi)) cs ns eq_refl) as (Hids & Hall & Hev).
    split; [cbn; rewrite Hids; reflexivity|]. split.
    + intros a [<-|Ha]; [|exact (Hall a Ha)]. cbn [adjustable_id adjustable_nexus adjustable_params].
      exists toid. repeat split; try assumption.
      * apply in_index_In, Hidx.
      * unfold independent_nexus. destruct (independent_gage self id); reflexivity.
    + cbn [List.filter adjustable_id]. rewrite Hev.
      destruct (independent_gage self id); reflexivity.
Qed.

Lemma independent_pick_spec (flowpaths : ToidTable) (feature : string) (eval_nexus : list Nexus) :
  forall todo out,
    (forall n, In n todo -> In n eval_nexus) ->
    independent_pick flowpaths feature todo eval_nexus = ok out ->
    (out = eval_nexus /\
     forall n, In n todo -> exists key, first_flowpath_to flowpaths (nexus_id n) = ok key /\
                                        key <> feature) \/
    (exists n, out = [n] /\ In n eval_nexus /\
               first_flowpath_to flowpaths (nexus_id n) = ok feature).
Proof.
  induction todo as [|n todo IH]; intros out Hsub; cbn [independent_pick].
  - intros [= <-]. left. split; [reflexivity|]. intros n [].
  - destruct (first_flowpath_to flowpaths (nexus_id n)) as [e|key] eqn:Hkey; cbn [bind ok];
      [discriminate|].
    destruct (String.eqb key feature) eqn:Heq.
    + apply String.eqb_eq in Heq. subst key. intros [= <-]. right.
      exists n. split; [reflexivity|]. split; [apply Hsub; left; reflexivity|exact Hkey].
    + apply String.eqb_neq in Heq. intros H.
      destruct (IH out (fun m Hm => Hsub m (or_intror Hm)) H) as [[-> Hall]|Hone];
        [left|right; exact Hone].
      split; [reflexivity|]. intros m [<-|Hm]; [eauto|exact (Hall m Hm)].
Qed.

(** X8: the calibration set of the independent strategy. When the
    construction succeeds, the set has one adjustable catchment for every
    divide of the hydrofabric, gauged or not, each with the parameter table of
    the global formulation and the nexus it drains to; the evaluation nexus is
    the nexus of a gauged catchment. *)
Theorem independent_set_covers_fabric (self : NgenBase) (params : ParamMap) (ts : list target) :
  NgenIndependent self params = ok ts ->
  exists catchments n,
    ts = [CalibrationSet catchments n] /\
    List.NoDup (map adjustable_id catchments) /\
    (forall id, In id (map adjustable_id catchments)
                <-> In id (map fst (_catchment_hydro_fabric self))) /\
    (forall a, In a catchments ->
       exists toid, loc (_catchment_hydro_fabric self) (adjustable_id a) = Some toid /\
                    In toid (_nexus_hydro_fabric self) /\
                    adjustable_nexus a = independent_nexus self (adjustable_id a) toid /\
                    _map_params_to_realization params (global_config self)
                      = ok (adjustable_params a)) /\
    (exists a, In a catchments /\ adjustable_nexus a = n /\
               independent_gage self (adjustable_id a) <> None).
Proof.
  intros H. destruct (independent_one_target self params ts H) as (catchments & n & Hc & ->).
  exists catchments, n. split; [reflexivity|].
  unfold independent_candidates in Hc.
  destruct (independent_loop self params _) as [e|[cs ns]] eqn:Hloop; cbn [bind ok] in Hc;
    [discriminate|].
  destruct (independent_filter self ns) as [e|out] eqn:Hfilter; cbn [bind ok] in Hc;
    [discriminate|].
  injection Hc as -> ->.
  destruct (dict_keys_spec (map fst (_catchment_hydro_fabric self)) []) as [Hnd Hkeys].
  assert (Hfab : forall id, In id (dict_keys (map fst (_catchment_hydro_fabric self)) []) ->
                            loc (_catchment_hydro_fabric self) id <> None).
  { intros id Hid. apply Hkeys in Hid. destruct Hid as [Hid _].
    clear -Hid. induction (_catchment_hydro_fabric self) as [|[k v] t IH]; [destruct Hid|].
    cbn [loc]. destruct (String.eqb k id) eqn:Hk; [discriminate|].
    apply IH. destruct Hid as [Hid|Hid]; [|exact Hid].
    cbn in Hid. subst k. rewrite String.eqb_refl in Hk. discriminate. }
  destruct (independent_loop_spec self params _ Hfab catchments ns Hloop) as (Hids & Hall & Hev).
  split; [rewrite Hids; exact Hnd|]. split.
  { intros id. rewrite Hids, Hkeys. cbn. tauto. }
  split; [exact Hall|].
  assert (Hin : In n ns).
  { unfold independent_filter in Hfilter.
    destruct (truthy (eval_feature self)) as [feature|]; [|injection Hfilter as ->; left; reflexivity].
    destruct ns as [|n0 ns']; [discriminate|].
    destruct (_flowpath_hydro_fabric self) as [flowpaths|]; [|discriminate].
    destruct (independent_pick_spec flowpaths feature (n0 :: ns') (n0 :: ns') [n]
                (fun m Hm => Hm) Hfilter) as [[Heq _]|(m & [= <-] & Hm & _)];
      [rewrite <- Heq; left; reflexivity|exact Hm]. }
  rewrite Hev in Hin. apply in_map_iff in Hin. destruct Hin as (a & Ha & Hin).
  apply filter_In in Hin. destruct Hin as [Hin Hg].
  exists a. split; [exact Hin|]. split; [exact Ha|].
  destruct (independent_gage self (adjustable_id a)); [discriminate|discriminate].
Qed.





End Strategies.
Lemma independent_set_covers_fabric_witness :
  exists ts catchments n,
    Targets.NgenIndependent (ex_base [("wb-1", "01010000")] None []) ex_params = Py.ok ts /\
    ts = [Targets.CalibrationSet catchments n] /\
    List.NoDup (map Targets.adjustable_id catchments) /\
    In "cat-3" (map Targets.adjustable_id catchments).
Proof.
  eexists.
  match goal with
  | |- exists _ _, ?lhs = Py.ok ?ts /\ _ =>
      assert (H : lhs = Py.ok ts) by (vm_compute; reflexivity);
      destruct (independent_set_covers_fabric _ _ _ H) as (cs & n0 & Hts & Hnd & Hcov & _)
  end.
  exists cs, n0. split; [vm_compute; reflexivity|]. split; [exact Hts|]. split; [exact Hnd|].
  apply Hcov. cbn. auto.
Defined.


Example uniform_strategy_on_sample_watershed :
  Targets.uniform_candidates (ex_base [("wb-1", "01010000"); ("wb-3", "03030000")] (Some "wb-3") [])
    = Py.ok [ {| Targets.nexus_id := "nex-2";
                 Targets._hydro_location :=
                   Some {| Targets.station_id := "03030000"; Targets.location_nexus_id := "nex-2" |};
                 Targets.contributing_catchments := [ {| Targets.catchment_id := "cat-3" |} ] |} ] /\
  Py.raises (Targets.uniform_candidates (ex_base [("wb-7", "07070000")] None [])) Py.KeyError.
Proof. split; [vm_compute; reflexivity|]. eexists. vm_compute. reflexivity. Qed.

(** ** Columns of the first text encoding *)

Section ColumnNames.
Import Py.

Lemma append_cons (c : ascii) (x y : string) :
  (String c x ++ y)%string = String c (x ++ y).
Proof. reflexivity. Qed.

Lemma append_nil (y : string) : (EmptyString ++ y)%string = y.
Proof. reflexivity. Qed.

Ltac push_append := rewrite ?append_cons, ?append_nil.

Lemma length_append (x y : string) :
  String.length (x ++ y) = (String.length x + String.length y)%nat.
Proof.
  induction x as [|c x IH]; push_append; cbn [String.length];
    [reflexivity | now rewrite IH].
Qed.

Lemma substring_append_skip (x y : string) (k m : nat) :
  String.substring (String.length x + k) m (x ++ y) = String.substring k m y.
Proof.
  induction x as [|c x IH]; push_append; cbn [String.length Nat.add String.substring];
    [reflexivity | exact IH].
Qed.

Lemma substring_append_head (x y : string) :
  String.substring 0 (String.length x) (x ++ y) = x.
Proof.
  induction x as [|c x IH]; push_append; cbn [String.length String.substring].
  - destruct y; reflexivity.
  - now rewrite IH.
Qed.

Lemma drop_append (x y : string) : Str.drop (String.length x) (x ++ y) = y.
Proof.
  induction x as [|c x IH]; push_append; cbn [String.length Str.drop];
    [now destruct y | exact IH].
Qed.

Lemma endswith_append (x suffix : string) :
  Rewriter.endswith (x ++ suffix) suffix = true.
Proof.
  unfold Rewriter.endswith. rewrite length_append.
  replace (String.length x + String.length suffix - String.length suffix)%nat
    with (String.length x) by lia.
  rewrite drop_append, String.eqb_refl, andb_true_r.
  apply Nat.leb_le. lia.
Qed.

Lemma append_assoc (x y z : string) : ((x ++ y) ++ z = x ++ (y ++ z))%string.
Proof.
  induction x as [|c x IH]; push_append; [reflexivity | now rewrite IH].
Qed.

Lemma plain_tail (c : ascii) (s : string) : CsvV1.plain (String c s) -> CsvV1.plain s.
Proof. intros H d Hd. apply H. now right. Qed.

Lemma plain_head (c : ascii) (s : string) :
  CsvV1.plain (String c s) -> CsvV1.is_comma c = false /\ CsvV1.is_quote c = false.
Proof. intros H. apply H. now left. Qed.

(** The loop passes over a text without comma and quote. *)
Lemma scan_plain (x rest : string) (i int_end : nat) :
  CsvV1.plain x ->
  CsvV1.scan (x ++ rest) i int_end = CsvV1.scan rest (String.length x + i) int_end.
Proof.
  revert i. induction x as [|c x IH]; intros i Hx; [reflexivity|].
  push_append; cbn [CsvV1.scan String.length].
  destruct (plain_head _ _ Hx) as [-> ->].
  rewrite (IH (S i) (plain_tail _ _ Hx)). f_equal. lia.
Qed.

(** X11: a column written as an opening parenthesis, the hour, a comma, any
    text without comma and quote, and the variable between quotes is read
    back as that hour and that variable, whatever the variable's text is. *)
Theorem parse_column_round_trip (hour_text between variable : string) (hour : Z) :
  CsvV1.plain hour_text -> CsvV1.plain between ->
  Str.int hour_text = Some hour ->
  CsvV1._parse_column_csv_output_v1
    ("(" ++ hour_text ++ "," ++ between ++ "'" ++ variable ++ "')")
  = ok (hour, variable).
Proof.
  intros Hh Hb Hint.
  set (body := ("(" ++ hour_text ++ "," ++ between ++ "'" ++ variable)%string).
  assert (Hs : ("(" ++ hour_text ++ "," ++ between ++ "'" ++ variable ++ "')")%string
               = (body ++ "')")%string).
  { unfold body. now rewrite !append_assoc. }
  rewrite Hs. unfold CsvV1._parse_column_csv_output_v1.
  rewrite endswith_append.
  assert (Hstart : Str.startswith (body ++ "')") "(" = true).
  { unfold body, Str.startswith. push_append. cbn [String.prefix].
    destruct (ascii_dec "(" "(") as [_|Hne]; [| now elim Hne].
    match goal with |- String.prefix _ ?s = true => destruct s; reflexivity end. }
  rewrite Hstart. cbn [andb assert bind ok].
  assert (Hlen : (String.length (body ++ "')") - 2)%nat = String.length body).
  { rewrite length_append. cbn [String.length]. lia. }
  rewrite Hlen.
  assert (Hbody : CsvV1.slice 0 (String.length body) (body ++ "')") = body).
  { unfold CsvV1.slice. destruct (0 <? String.length body)%nat eqn:E.
    - rewrite Nat.sub_0_r. apply substring_append_head.
    - apply Nat.ltb_ge in E. unfold body in E. rewrite append_cons in E.
      cbn [String.length] in E. lia. }
  rewrite Hbody.
  assert (Hscan : CsvV1.scan body 0 0
    = ok (S (String.length hour_text),
          S (S (String.length hour_text + String.length between)))).
  { unfold body. push_append. cbn [CsvV1.scan].
    change (CsvV1.is_comma "(") with false. change (CsvV1.is_quote "(") with false.
    cbn match. rewrite (scan_plain hour_text _ 1 0 Hh).
    push_append. cbn [CsvV1.scan].
    change (CsvV1.is_comma ",") with true. cbn match.
    replace (String.length hour_text + 1 =? 0)%nat with false
      by (symmetry; apply Nat.eqb_neq; lia).
    rewrite (scan_plain between _ _ _ Hb).
    push_append. cbn [CsvV1.scan].
    change (CsvV1.is_comma "'") with false. change (CsvV1.is_quote "'") with true.
    cbn match. unfold ok. repeat f_equal; lia. }
  rewrite Hscan. cbn [bind ok].
  replace (S (String.length hour_text) <?
           S (S (String.length hour_text + String.length between)))%nat
    with true by (symmetry; apply Nat.ltb_lt; lia).
  cbn [assert bind ok].
  assert (Hhour : CsvV1.slice 1 (S (String.length hour_text)) (body ++ "')") = hour_text).
  { unfold CsvV1.slice.
    destruct (1 <? S (String.length hour_text))%nat eqn:E.
    - unfold body. push_append. cbn [String.substring].
      replace (S (String.length hour_text) - 1)%nat with (String.length hour_text) by lia.
      rewrite append_assoc. apply substring_append_head.
    - apply Nat.ltb_ge in E. destruct hour_text; [discriminate Hint | cbn in E; lia]. }
  rewrite Hhour, Hint.
  f_equal. f_equal.
  unfold CsvV1.slice.
  destruct (S (S (String.length hour_text + String.length between)) + 1 <?
            String.length body)%nat eqn:E.
  - assert (Hsplit : (body ++ "')")%string
      = (("(" ++ hour_text ++ "," ++ between ++ "'") ++ (variable ++ "')"))%string).
    { unfold body. now rewrite !append_assoc. }
    rewrite Hsplit.
    assert (Hpre : (S (S (String.length hour_text + String.length between)) + 1)%nat
      = (String.length ("(" ++ hour_text ++ "," ++ between ++ "'") + 0)%nat).
    { rewrite ?length_append; cbn [String.length]. lia. }
    rewrite Hpre, substring_append_skip.
    assert (Hn : (String.length body
      - (String.length ("(" ++ hour_text ++ "," ++ between ++ "'") + 0))%nat
      = String.length variable).
    { unfold body. rewrite ?length_append; cbn [String.length]. lia. }
    rewrite Hn. apply substring_append_head.
  - apply Nat.ltb_ge in E.
    assert (Hn : String.length body
      = (S (S (String.length hour_text + String.length between)) + 1
         + String.length variable)%nat).
    { unfold body. rewrite ?length_append; cbn [String.length]. lia. }
    destruct variable; [reflexivity | cbn in Hn; lia].
Qed.

End ColumnNames.

Lemma parse_column_round_trip_witness :
  CsvV1._parse_column_csv_output_v1 "(12, 'q')" = Py.ok (12%Z, "q") /\
  CsvV1._parse_column_csv_output_v1 "(0, 'it's')" = Py.ok (0%Z, "it's").
Proof.
  split.
  - refine (parse_column_round_trip "12" " " "q" 12 _ _ eq_refl);
      intros c Hc; cbn in Hc; intuition (subst; split; reflexivity).
  - refine (parse_column_round_trip "0" " " "it's" 0 _ _ eq_refl);
      intros c Hc; cbn in Hc; intuition (subst; split; reflexivity).
Defined.

Section ColumnErrors.
Import Py.

Ltac push_append := rewrite ?append_cons, ?append_nil.

Lemma slice_body (body : string) :
  CsvV1.slice 0 (String.length (body ++ "')") - 2) (body ++ "')") = body.
Proof.
  rewrite length_append. cbn [String.length].
  replace (String.length body + 2 - 2)%nat with (String.length body) by lia.
  unfold CsvV1.slice. destruct body as [|c body].
  - reflexivity.
  - cbn [String.length Nat.ltb Nat.leb]. rewrite Nat.sub_0_r.
    apply (substring_append_head (String c body)).
Qed.

Lemma parse_column_unfold (body : string) :
  CsvV1._parse_column_csv_output_v1 ("(" ++ body ++ "')")
  = let s := ("(" ++ body ++ "')")%string in
    let! (int_end, char_start) := CsvV1.scan ("(" ++ body) 0 0 in
    do! assert (int_end <? char_start)%nat "" in
    match Str.int (CsvV1.slice 1 int_end s) with
    | Some hour => ok (hour, CsvV1.slice (char_start + 1) (String.length s - 2) s)
    | None =>
        raise ValueError
          ("invalid literal for int() with base 10: '" ++ CsvV1.slice 1 int_end s ++ "'")
    end.
Proof.
  assert (Hs : ("(" ++ body ++ "')")%string = (("(" ++ body) ++ "')")%string)
    by now rewrite append_assoc.
  rewrite Hs. unfold CsvV1._parse_column_csv_output_v1. cbv zeta.
  rewrite endswith_append, slice_body.
  assert (Hstart : Str.startswith (("(" ++ body) ++ "')") "(" = true).
  { unfold Str.startswith. push_append. cbn [String.prefix].
    destruct (ascii_dec "(" "(") as [_|Hne]; [|now elim Hne].
    match goal with |- String.prefix _ ?s = true => destruct s; reflexivity end. }
  rewrite Hstart. cbn [andb assert bind ok]. reflexivity.
Qed.

(** X12: the column names [_parse_column_csv_output_v1] refuses. A name that
    does not open with a parenthesis or does not close with a quote and a
    parenthesis fails the first assertion; a second comma before the first
    quote fails the assertion of the loop; a comma that no quote follows
    fails the last assertion; and a name with a quote but no comma passes all
    three assertions and fails in [int] with a [ValueError]. *)
Theorem parse_column_refusals (a b rest : string) :
  CsvV1.plain a -> CsvV1.plain b ->
  (forall s, Str.startswith s "(" && Rewriter.endswith s "')" = false ->
             CsvV1._parse_column_csv_output_v1 s = raise AssertionError "") /\
  CsvV1._parse_column_csv_output_v1 ("(" ++ a ++ "," ++ b ++ "," ++ rest ++ "')")
    = raise AssertionError "" /\
  CsvV1._parse_column_csv_output_v1 ("(" ++ a ++ "," ++ b ++ "')")
    = raise AssertionError "" /\
  CsvV1._parse_column_csv_output_v1 ("(" ++ a ++ "'" ++ rest ++ "')")
    = raise ValueError "invalid literal for int() with base 10: ''".
Proof.
  intros Ha Hb. split; [|split; [|split]].
  - intros s Hs. unfold CsvV1._parse_column_csv_output_v1. rewrite Hs. reflexivity.
  - assert (Hs : ("(" ++ a ++ "," ++ b ++ "," ++ rest ++ "')")%string
                 = ("(" ++ (a ++ "," ++ b ++ "," ++ rest) ++ "')")%string)
      by now rewrite !append_assoc.
    rewrite Hs, parse_column_unfold. cbv zeta.
    assert (Hscan : CsvV1.scan ("(" ++ a ++ "," ++ b ++ "," ++ rest) 0 0
                    = raise AssertionError "").
    { push_append. cbn [CsvV1.scan].
      change (CsvV1.is_comma "(") with false. change (CsvV1.is_quote "(") with false.
      cbn match. rewrite (scan_plain a _ 1 0 Ha). push_append. cbn [CsvV1.scan].
      change (CsvV1.is_comma ",") with true. cbn match.
      rewrite (scan_plain b _ _ _ Hb). push_append. cbn [CsvV1.scan].
      change (CsvV1.is_comma ",") with true. cbn match.
      replace (String.length a + 1 =? 0)%nat with false
        by (symmetry; apply Nat.eqb_neq; lia).
      reflexivity. }
    rewrite Hscan. reflexivity.
  - assert (Hs : ("(" ++ a ++ "," ++ b ++ "')")%string = ("(" ++ (a ++ "," ++ b) ++ "')")%string)
      by now rewrite !append_assoc.
    rewrite Hs, parse_column_unfold. cbv zeta.
    assert (Hscan : CsvV1.scan ("(" ++ a ++ "," ++ b) 0 0
                    = ok ((String.length a + 1)%nat, 0%nat)).
    { push_append. cbn [CsvV1.scan].
      change (CsvV1.is_comma "(") with false. change (CsvV1.is_quote "(") with false.
      cbn match. rewrite (scan_plain a _ 1 0 Ha). push_append. cbn [CsvV1.scan].
      change (CsvV1.is_comma ",") with true. cbn match.
      replace b with (b ++ "")%string at 1
        by (clear; induction b as [|c b IH]; push_append; [reflexivity|now rewrite IH]).
      rewrite (scan_plain b _ _ _ Hb). reflexivity. }
    rewrite Hscan. cbn [bind ok].
    replace (String.length a + 1 <? 0)%nat with false by (symmetry; apply Nat.ltb_ge; lia).
    reflexivity.
  - assert (Hs : ("(" ++ a ++ "'" ++ rest ++ "')")%string
                 = ("(" ++ (a ++ "'" ++ rest) ++ "')")%string)
      by now rewrite !append_assoc.
    rewrite Hs, parse_column_unfold. cbv zeta.
    assert (Hscan : CsvV1.scan ("(" ++ a ++ "'" ++ rest) 0 0
                    = ok (0%nat, (String.length a + 1)%nat)).
    { push_append. cbn [CsvV1.scan].
      change (CsvV1.is_comma "(") with false. change (CsvV1.is_quote "(") with false.
      cbn match. rewrite (scan_plain a _ 1 0 Ha). push_append. cbn [CsvV1.scan].
      change (CsvV1.is_comma "'") with false. change (CsvV1.is_quote "'") with true.
      reflexivity. }
    rewrite Hscan. cbn [bind ok].
    replace (0 <? String.length a + 1)%nat with true by (symmetry; apply Nat.ltb_lt; lia).
    cbn [assert bind ok]. reflexivity.
Qed.

End ColumnErrors.

Lemma parse_column_refusals_witness :
  CsvV1._parse_column_csv_output_v1 "(1,2, 'q')" = Py.raise Py.AssertionError "" /\
  CsvV1._parse_column_csv_output_v1 "(3, q')" = Py.raise Py.AssertionError "" /\
  CsvV1._parse_column_csv_output_v1 "(3 'q')"
    = Py.raise Py.ValueError "invalid literal for int() with base 10: ''".
Proof.
  assert (H1 : CsvV1.plain "1")
    by (intros c Hc; cbn in Hc; intuition (subst; split; reflexivity)).
  assert (H2 : CsvV1.plain "2")
    by (intros c Hc; cbn in Hc; intuition (subst; split; reflexivity)).
  assert (H3 : CsvV1.plain "3")
    by (intros c Hc; cbn in Hc; intuition (subst; split; reflexivity)).
  assert (H4 : CsvV1.plain " q")
    by (intros c Hc; cbn in Hc; intuition (subst; split; reflexivity)).
  assert (H5 : CsvV1.plain "3 ")
    by (intros c Hc; cbn in Hc; intuition (subst; split; reflexivity)).
  split; [|split].
  - exact (proj1 (proj2 (parse_column_refusals "1" "2" " 'q" H1 H2))).
  - exact (proj1 (proj2 (proj2 (parse_column_refusals "3" " q" "" H3 H4)))).
  - exact (proj2 (proj2 (proj2 (parse_column_refusals "3 " "" "q" H5
                                  (fun c Hc => False_ind _ Hc))))).
Defined.

(** ** The frame of the first text encoding *)

Section CsvFrame.
Import Py.

Lemma row_of_int (rows : list (string * list float)) (n : Z) :
  CsvV1.row_of rows (CsvV1.IntId n) = None.
Proof. induction rows as [|[label values] rows IH]; [reflexivity|exact IH]. Qed.

Lemma row_of_text (rows : list (Z * list float)) (x : Z) (values : list float) :
  List.NoDup (map fst rows) -> In (x, values) rows ->
  CsvV1.row_of (map (fun r => ("wb-" ++ pretty (fst r), snd r)) rows)
    (CsvV1.StrId ("wb-" ++ pretty x)) = Some values.
Proof.
  induction rows as [|[y w] rows IH]; intros Hnd Hin; [destruct Hin|].
  cbn [map fst snd CsvV1.row_of]. inversion Hnd as [|? ? Hnot Hnd']; subst.
  destruct (String.eqb ("wb-" ++ pretty y) ("wb-" ++ pretty x)) eqn:Heq.
  - apply String.eqb_eq in Heq. injection Heq as Heq. apply pretty_Z_inj in Heq. subst y.
    destruct Hin as [[= <-]|Hin]; [reflexivity|].
    exfalso. apply Hnot. apply (in_map fst) in Hin. exact Hin.
  - destruct Hin as [[= -> ->]|Hin]; [rewrite String.eqb_refl in Heq; discriminate|].
    exact (IH Hnd' Hin).
Qed.

Lemma row_of_absent (rows : list (string * list float)) (s : string) :
  ~ In s (map fst rows) -> CsvV1.row_of rows (CsvV1.StrId s) = None.
Proof.
  induction rows as [|[label values] rows IH]; intros Hnot; [reflexivity|].
  cbn [CsvV1.row_of]. cbn in Hnot.
  destruct (String.eqb label s) eqn:Heq; [apply String.eqb_eq in Heq; tauto|].
  apply IH. tauto.
Qed.

Lemma handler_fails (df : CsvV1.Frame) (r_dt_range : list Z) (nexus_id : Z) :
  Troute.fetch (csv_v1_handler df r_dt_range) nexus_id = raise KeyError (pretty nexus_id).
Proof.
  unfold Troute.fetch, csv_v1_handler, CsvV1.get_output. rewrite row_of_int. reflexivity.
Qed.

(** X13: the rows of the first text encoding are kept under the text
    [wb-] followed by the number of the feature, and the columns under their
    parsed names. A lookup by an integer therefore raises a [KeyError],
    whatever the file holds: with this encoding every lookup of the hook,
    which passes integers, fails, and the extraction fails for every nexus.
    A lookup by the text of a feature of the file gives its values of the
    variable [q], in the order of the columns, under the stamps of the
    range. *)
Theorem csv_v1_rows_are_keyed_by_text
    (raw : CsvV1.RawFrame) (df : CsvV1.Frame) (r_dt_range : list Z) :
  CsvV1._read_csv_output_v1_no_time raw = ok df ->
  map_result CsvV1._parse_column_csv_output_v1 (CsvV1.raw_columns raw)
    = ok (CsvV1.columns df) /\
  (forall label values, In (label, values) (CsvV1.rows df) ->
     exists x, In (x, values) (CsvV1.raw_rows raw) /\ label = ("wb-" ++ pretty x)%string) /\
  (forall n, CsvV1.get_output df r_dt_range (CsvV1.IntId n) = raise KeyError (pretty n)) /\
  (forall nexus, exists e,
     Troute.extract (csv_v1_handler df r_dt_range) nexus = inl e /\
     forall c rest n,
       Targets.contributing_catchments nexus = c :: rest ->
       Troute.numeric_suffix (Targets.catchment_id c) = ok n ->
       e = Raise KeyError (pretty n)) /\
  (forall s, ~ In s (map fst (CsvV1.rows df)) ->
     CsvV1.get_output df r_dt_range (CsvV1.StrId s) = raise KeyError s) /\
  (forall x values,
     List.NoDup (map fst (CsvV1.raw_rows raw)) -> In (x, values) (CsvV1.raw_rows raw) ->
     existsb (fun c => String.eqb (snd c) "q") (CsvV1.columns df) = true ->
     length (CsvV1.discharge (CsvV1.columns df) values) = length r_dt_range ->
     CsvV1.get_output df r_dt_range (CsvV1.StrId ("wb-" ++ pretty x))
       = ok (combine r_dt_range (CsvV1.discharge (CsvV1.columns df) values))).
Proof.
  unfold CsvV1._read_csv_output_v1_no_time.
  destruct (map_result CsvV1._parse_column_csv_output_v1 (CsvV1.raw_columns raw))
    as [e|tuples] eqn:Hcols; cbn [bind ok]; [discriminate|].
  intros [= <-]. cbn [CsvV1.columns CsvV1.rows].
  split; [reflexivity|]. split; [|split; [|split; [|split]]].
  - intros label values Hin. apply in_map_iff in Hin.
    destruct Hin as ([x w] & [= <- <-] & Hin). exists x. auto.
  - intros n. unfold CsvV1.get_output. rewrite row_of_int. reflexivity.
  - intros nexus. rewrite extract_spec.
    set (fn := csv_v1_handler _ r_dt_range).
    assert (Hflows : exists e, Troute.nexus_flows fn nexus = inl e).
    { unfold Troute.nexus_flows.
      destruct (Troute.numeric_suffix (Targets.nexus_id nexus)) as [e|n]; cbn [bind]; [eauto|].
      unfold fn. rewrite handler_fails. eauto. }
    destruct Hflows as [e2 ->].
    unfold Troute.aggregate_contributing.
    destruct (Targets.contributing_catchments nexus) as [|c rest].
    + eexists. split; [reflexivity|]. intros c rest n [=].
    + destruct (Troute.numeric_suffix (Targets.catchment_id c)) as [e|n] eqn:Hn; cbn [bind].
      * eexists. split; [reflexivity|]. intros c0 rest0 n0 [= <- <-]. rewrite Hn. discriminate.
      * unfold fn. rewrite handler_fails. cbn [bind]. eexists. split; [reflexivity|].
        intros c0 rest0 n0 [= <- <-]. rewrite Hn. intros [= <-]. reflexivity.
  - intros s Hnot. unfold CsvV1.get_output. cbn [CsvV1.rows].
    rewrite (row_of_absent _ s Hnot). reflexivity.
  - intros x values Hnd Hin Hq Hlen. unfold CsvV1.get_output. cbn [CsvV1.rows CsvV1.columns].
    rewrite (row_of_text _ x values Hnd Hin), Hq.
    apply Nat.eqb_eq in Hlen. rewrite Hlen. reflexivity.
Qed.

End CsvFrame.

Lemma csv_v1_rows_are_keyed_by_text_witness :
  exists df,
    CsvV1._read_csv_output_v1_no_time ex_raw_frame = Py.ok df /\
    CsvV1.get_output df [1800; 3600]%Z (CsvV1.IntId 2420800)
      = Py.raise Py.KeyError "2420800" /\
    CsvV1.get_output df [1800; 3600]%Z (CsvV1.StrId "wb-2420801")
      = Py.ok [(1800%Z, 1.5%float); (3600%Z, 1.75%float)].
Proof.
  assert (H : exists df, CsvV1._read_csv_output_v1_no_time ex_raw_frame = Py.ok df)
    by (eexists; vm_compute; reflexivity).
  destruct H as [df H]. exists df. split; [exact H|].
  destruct (csv_v1_rows_are_keyed_by_text ex_raw_frame df [1800; 3600]%Z H)
    as (Hcols & _ & Hint & _ & _ & Htext).
  split; [exact (Hint 2420800%Z)|].
  assert (Hdf : CsvV1.columns df
                = [(0, "q"); (0, "v"); (0, "d"); (1, "q"); (1, "v"); (1, "d")]%Z).
  { assert (Hc : Py.map_result CsvV1._parse_column_csv_output_v1
                   (CsvV1.raw_columns ex_raw_frame)
                 = Py.ok [(0, "q"); (0, "v"); (0, "d"); (1, "q"); (1, "v"); (1, "d")]%Z)
      by (vm_compute; reflexivity).
    rewrite Hc in Hcols. injection Hcols as <-. reflexivity. }
  replace "wb-2420801" with ("wb-" ++ pretty 2420801%Z)%string by (vm_compute; reflexivity).
  rewrite (Htext 2420801%Z [1.5; 0.125; 0.25; 1.75; 0.125; 0.25]%float).
  - rewrite Hdf. reflexivity.
  - repeat constructor; cbn; intuition discriminate.
  - right. left. reflexivity.
  - rewrite Hdf. reflexivity.
  - rewrite Hdf. reflexivity.
Defined.

(** ** Keeping the outputs of an iteration *)

Section Archive.
Import SaveOutput.

Lemma moved_lookup (path : gmap string node) (name : string) :
  filter (fun kv => matched (fst kv) = true) path !! name
    = if matched name then path !! name else None.
Proof.
  destruct (matched name) eqn:Hm.
  - destruct (path !! name) as [v|] eqn:Hv.
    + apply map_lookup_filter_Some. split; [exact Hv|exact Hm].
    + apply map_lookup_filter_None. left. exact Hv.
  - apply map_lookup_filter_None. right. intros v _. cbn [fst]. congruence.
Qed.

Lemma left_lookup (path : gmap string node) (name : string) :
  filter (fun kv => matched (fst kv) = false) path !! name
    = if matched name then None else path !! name.
Proof.
  destruct (matched name) eqn:Hm.
  - apply map_lookup_filter_None. right. intros v _. cbn [fst]. congruence.
  - destruct (path !! name) as [v|] eqn:Hv.
    + apply map_lookup_filter_Some. split; [exact Hv|exact Hm].
    + apply map_lookup_filter_None. left. exact Hv.
Qed.

Lemma glob_csv_output (prefix tail : string) (c : ascii) :
  c <> "o"%char -> glob_csv (String c prefix) ("output_" ++ tail) = false.
Proof.
  intros Hc. unfold glob_csv, Str.startswith. rewrite append_cons. cbn [String.prefix].
  destruct (ascii_dec c "o") as [->|_]; [congruence|reflexivity].
Qed.

Lemma out_dir_not_matched (tail : string) : matched ("output_" ++ tail) = false.
Proof. unfold matched. rewrite !glob_csv_output by discriminate. reflexivity. Qed.

Lemma out_dir_not_routing (tail : string) : ("output_" ++ tail)%string <> routing_output.
Proof. rewrite append_cons. discriminate. Qed.

(** X14: what [ngen_cal_model_iteration_finish] does to the working
    directory. When [output_<iteration>] exists already, the hook raises
    [FileExistsError] and moves nothing. Otherwise the new directory holds
    exactly the entries the four patterns match, as they were, and the routing
    output when there is one; the working directory no longer has them, and
    everything else stays where it was. The hook fails exactly when the
    routing output is missing, with [FileNotFoundError], and then the matched
    outputs have been moved all the same. *)
Theorem iteration_finish_archives (iteration : Z) (path : gmap string node) :
  let out_dir := ("output_" ++ pretty iteration)%string in
  let after := fst (ngen_cal_model_iteration_finish iteration path) in
  let error := snd (ngen_cal_model_iteration_finish iteration path) in
  (path !! out_dir <> None -> after = path /\ error = Some (FileExistsError out_dir)) /\
  (path !! out_dir = None ->
   exists archive,
     after !! out_dir = Some (Dir archive) /\
     (forall name, matched name = true ->
        after !! name = None /\ archive !! name = path !! name) /\
     (forall name, matched name = false -> name <> out_dir -> name <> routing_output ->
        after !! name = path !! name /\ archive !! name = None) /\
     after !! routing_output = None /\
     archive !! routing_output = path !! routing_output /\
     error = match path !! routing_output with
             | Some _ => None
             | None => Some (FileNotFoundError routing_output)
             end).
Proof.
  cbv zeta. unfold ngen_cal_model_iteration_finish.
  set (out_dir := ("output_" ++ pretty iteration)%string).
  assert (Hout : matched out_dir = false) by apply out_dir_not_matched.
  assert (Hne : out_dir <> routing_output) by apply out_dir_not_routing.
  assert (Hrouting : matched routing_output = false) by reflexivity.
  split.
  - intros Hex. destruct (path !! out_dir); [split; reflexivity|congruence].
  - intros Hnone. rewrite Hnone, left_lookup, Hrouting.
    destruct (path !! routing_output) as [r|] eqn:Hr; cbn [fst snd].
    + exists (<[routing_output := r]> (filter (fun kv => matched (fst kv) = true) path)).
      split; [apply lookup_insert_eq|].
      split; [|split; [|split; [|split; [|reflexivity]]]].
      * intros name Hm.
        assert (name <> out_dir) by congruence.
        assert (name <> routing_output) by congruence.
        rewrite lookup_insert_ne, lookup_delete_ne, left_lookup, Hm by congruence.
        rewrite lookup_insert_ne, moved_lookup, Hm by congruence. auto.
      * intros name Hm Hn1 Hn2.
        rewrite lookup_insert_ne, lookup_delete_ne, left_lookup, Hm by congruence.
        rewrite lookup_insert_ne, moved_lookup, Hm by congruence. auto.
      * rewrite lookup_insert_ne by congruence. apply lookup_delete_eq.
      * apply lookup_insert_eq.
    + exists (filter (fun kv => matched (fst kv) = true) path).
      split; [apply lookup_insert_eq|].
      split; [|split; [|split; [|split; [|reflexivity]]]].
      * intros name Hm.
        assert (name <> out_dir) by congruence.
        rewrite lookup_insert_ne, left_lookup, Hm by congruence.
        rewrite moved_lookup, Hm. auto.
      * intros name Hm Hn1 Hn2.
        rewrite lookup_insert_ne, left_lookup, Hm by congruence.
        rewrite moved_lookup, Hm. auto.
      * rewrite lookup_insert_ne, left_lookup, Hrouting by congruence. exact Hr.
      * rewrite moved_lookup, Hrouting. reflexivity.
Qed.

End Archive.

Example iteration_finish_on_sample :
  snd (SaveOutput.ngen_cal_model_iteration_finish 3 ex_workdir) = None /\
  snd (SaveOutput.ngen_cal_model_iteration_finish 3
         (fst (SaveOutput.ngen_cal_model_iteration_finish 3 ex_workdir)))
    = Some (SaveOutput.FileExistsError "output_3") /\
  snd (SaveOutput.ngen_cal_model_iteration_finish 4
         (fst (SaveOutput.ngen_cal_model_iteration_finish 3 ex_workdir)))
    = Some (SaveOutput.FileNotFoundError "flowveldepth_Ngen.csv").
Proof. repeat split; vm_compute; reflexivity. Qed.

(** ** The crosswalk of the legacy hydrofabric *)

Section Crosswalk.
Import LegacyCrosswalk.

Lemma stored_not_empty (gage : option gage_no) (g : string) :
  stored gage = Some g ->
  g <> EmptyString /\
  (gage = Some (Text g) \/ exists rest, gage = Some (Texts (g :: rest))).
Proof.
  unfold stored. destruct gage as [[s|l]|]; [| |discriminate].
  - destruct s as [|c s]; [discriminate|]. cbn. intros [= <-]. split; [discriminate|auto].
  - destruct l as [|s l]; [discriminate|]. cbn [truthy hd].
    destruct (String.eqb s EmptyString) eqn:Hs; [discriminate|].
    intros [= <-]. apply String.eqb_neq in Hs. eauto.
Qed.

Lemma setitem_new (series : list (string * string)) (id gage : string) :
  ~ In id (map fst series) -> setitem series id gage = (series ++ [(id, gage)])%list.
Proof.
  induction series as [|[k v] series IH]; intros Hnot; [reflexivity|].
  cbn [setitem]. cbn in Hnot.
  destruct (String.eqb k id) eqn:Hk; [apply String.eqb_eq in Hk; tauto|].
  rewrite IH by tauto. reflexivity.
Qed.

Lemma fill_appends (data : list (string * option gage_no)) :
  forall x_walk,
    List.NoDup (map fst x_walk ++ map fst data) ->
    fill data x_walk
      = (x_walk ++ flat_map (fun entry => match stored (snd entry) with
                                          | Some g => [(fst entry, g)]
                                          | None => []
                                          end) data)%list.
Proof.
  induction data as [|[id gage] data IH]; intros x_walk Hnd.
  - cbn. now rewrite app_nil_r.
  - cbn [fill flat_map fst snd]. cbn [map fst] in Hnd.
    assert (Hid : ~ In id (map fst x_walk)).
    { intros Hin. apply NoDup_remove_2 in Hnd. apply Hnd. apply in_or_app. auto. }
    destruct (stored gage) as [g|].
    + rewrite IH.
      * rewrite (setitem_new _ _ _ Hid), <- app_assoc. reflexivity.
      * rewrite (setitem_new _ _ _ Hid), map_app, <- app_assoc. exact Hnd.
    + rewrite IH; [reflexivity|]. apply NoDup_remove_1 in Hnd. exact Hnd.
Qed.

(** X15: the crosswalk read from the legacy file. For a file whose keys are
    distinct, a flow path is in the crosswalk exactly when its [Gage_no] is a
    text that is not empty, or a list whose first text is not empty; the
    gauge kept is that text, so that no gauge of the crosswalk is empty and
    the texts after the first of a list are never read. The flow paths keep
    the order of the file and occur once. *)
Theorem legacy_crosswalk_gauges (data : list (string * option gage_no)) :
  List.NoDup (map fst data) ->
  (forall id g,
      In (id, g) (_x_walk data) <->
      g <> EmptyString /\
      (In (id, Some (Text g)) data \/ exists rest, In (id, Some (Texts (g :: rest))) data)) /\
  (forall id, ~ In (id, EmptyString) (_x_walk data)) /\
  List.NoDup (map fst (_x_walk data)) /\
  map fst (_x_walk data)
    = map fst (List.filter
                 (fun entry => match snd entry with
                               | Some (Text (String _ _)) => true
                               | Some (Texts (String _ _ :: _)) => true
                               | _ => false
                               end) data).
Proof.
  intros Hnd. unfold _x_walk. rewrite fill_appends by exact Hnd. cbn [app].
  assert (Hin : forall id g,
             In (id, g) (flat_map (fun entry => match stored (snd entry) with
                                                | Some g => [(fst entry, g)]
                                                | None => []
                                                end) data) <->
             g <> EmptyString /\
             (In (id, Some (Text g)) data \/
              exists rest, In (id, Some (Texts (g :: rest))) data)).
  { intros id g. rewrite in_flat_map. split.
    - intros ([k gage] & Hk & Hg). cbn [fst snd] in Hg.
      destruct (stored gage) as [g0|] eqn:Hs; [|destruct Hg].
      destruct Hg as [[= <- <-]|[]].
      destruct (stored_not_empty gage g0 Hs) as [Hne [->|[rest ->]]]; eauto.
    - intros (Hne & [Hk|[rest Hk]]).
      + exists (id, Some (Text g)). split; [exact Hk|]. cbn.
        destruct g; [congruence|]. cbn. auto.
      + exists (id, Some (Texts (g :: rest))). split; [exact Hk|]. cbn.
        destruct (String.eqb g EmptyString) eqn:Hg;
          [apply String.eqb_eq in Hg; congruence|]. cbn. auto. }
  assert (Hkeys : map fst (flat_map (fun entry => match stored (snd entry) with
                                                  | Some g => [(fst entry, g)]
                                                  | None => []
                                                  end) data)
                  = map fst (List.filter
                               (fun entry => match snd entry with
                                             | Some (Text (String _ _)) => true
                                             | Some (Texts (String _ _ :: _)) => true
                                             | _ => false
                                             end) data)).
  { clear. induction data as [|[k gage] data IH]; [reflexivity|].
    cbn [flat_map List.filter fst snd]. rewrite map_app, IH.
    destruct gage as [[[|c s]|[|[|c s] l]]|]; reflexivity. }
  split; [exact Hin|]. split; [|split; [|exact Hkeys]].
  - intros id H. apply Hin in H. destruct H as [H _]. congruence.
  - rewrite Hkeys. clear Hin Hkeys. induction data as [|[k gage] data IH]; [constructor|].
    cbn [map fst] in Hnd. inversion Hnd as [|? ? Hk Hnd']; subst.
    cbn [List.filter snd].
    assert (Hsub : forall f, ~ In k (map fst (List.filter f data))).
    { intros f H. apply Hk. apply in_map_iff in H. destruct H as (e & <- & He).
      apply filter_In in He. apply in_map, He. }
    destruct gage as [[[|c s]|[|[|c s] l]]|]; cbn [map fst];
      try (constructor; [apply Hsub|]); exact (IH Hnd').
Qed.

End Crosswalk.

Lemma legacy_crosswalk_gauges_witness :
  LegacyCrosswalk._x_walk
    [("wb-1", Some (LegacyCrosswalk.Texts ["01010000"; "01010001"]));
     ("wb-2", Some (LegacyCrosswalk.Text ""));
     ("wb-3", Some (LegacyCrosswalk.Texts [""; "03030000"]));
     ("wb-4", None);
     ("wb-5", Some (LegacyCrosswalk.Text "05050000"))]
    = [("wb-1", "01010000"); ("wb-5", "05050000")] /\
  ~ In ("wb-3", "") (LegacyCrosswalk._x_walk
                       [("wb-3", Some (LegacyCrosswalk.Texts [""; "03030000"]))]).
Proof.
  split; [vm_compute; reflexivity|].
  refine (proj1 (proj2 (legacy_crosswalk_gauges
                          [("wb-3", Some (LegacyCrosswalk.Texts [""; "03030000"]))] _)) "wb-3").
  repeat constructor. intros [].
Defined.
